(** * simple.py (Simple Image Pipeline): a shallow embedding and its properties

    The development follows [src/simple.py]: the string helpers the script
    relies on ([str.split], [int], [os.path.join]), grid addressing
    ([index_to_location]), the manifest record builder
    ([build_dict_for_csv]), the batch classifier ([apply_rules]), the
    orchestrator ([main]) and the reading of the command line
    ([parse_options]).

    Python integers are [Z]; [//] and [%] are floor division and modulo,
    which is what [Z.div] and [Z.modulo] compute.  Python 2 byte strings are
    [string]s.  Dictionaries with string keys are [gmap string pyval]. *)

From Stdlib Require Import ZArith String Ascii List DecimalString DecimalZ DecimalPos.
From stdpp Require Import gmap strings list fin_maps.

Open Scope Z_scope.
Open Scope string_scope.

(** ** Exceptions and the result type *)

(** The exceptions the modelled code can raise by itself. *)
Inductive exn : Type :=
  | IndexError           (* list index out of range *)
  | ValueError           (* invalid literal for int() *)
  | ZeroDivisionError.   (* integer division or modulo by zero *)

Inductive result (A : Type) : Type :=
  | Ok (a : A)
  | Raise (e : exn).
Arguments Ok {A} a.
Arguments Raise {A} e.

Definition rbind {A B} (k : A → result B) (r : result A) : result B :=
  match r with
  | Ok a => k a
  | Raise e => Raise e
  end.

#[global] Instance result_ret : MRet result := @Ok.
#[global] Instance result_bind : MBind result := @rbind.

Definition is_ok {A} (r : result A) : bool :=
  match r with Ok _ => true | Raise _ => false end.

(** ** Python built-ins used by the script *)

Module Py.

(** [a // b]: floor division, [ZeroDivisionError] when [b = 0]. *)
Definition floordiv (a b : Z) : result Z :=
  if decide (b = 0) then Raise ZeroDivisionError else Ok (a / b).

(** [a % b]: floor modulo (the sign follows [b]), [ZeroDivisionError] when
    [b = 0]. *)
Definition mod_ (a b : Z) : result Z :=
  if decide (b = 0) then Raise ZeroDivisionError else Ok (a mod b).

(** [s.split(sep)] for a one-character separator: cut at every occurrence,
    keep empty pieces; the result is never empty. *)
Fixpoint split (sep : ascii) (s : string) : list string :=
  match s with
  | EmptyString => [EmptyString]
  | String c s' =>
      if Ascii.eqb c sep then EmptyString :: split sep s'
      else match split sep s' with
           | [] => [String c EmptyString]
           | x :: xs => String c x :: xs
           end
  end.

(** [l[i]]: [IndexError] out of range (only non-negative literals occur). *)
Definition index {A} (l : list A) (i : nat) : result A :=
  match l !! i with
  | Some x => Ok x
  | None => Raise IndexError
  end.

(** White space as [int] and [str.strip] see it: space, and tab to carriage
    return. *)
Definition isspace (c : ascii) : bool :=
  let n := nat_of_ascii c in
  (n =? 32)%nat || ((9 <=? n) && (n <=? 13))%nat.

Fixpoint lstrip (s : string) : string :=
  match s with
  | EmptyString => EmptyString
  | String c s' => if isspace c then lstrip s' else s
  end.

Fixpoint rstrip (s : string) : string :=
  match s with
  | EmptyString => EmptyString
  | String c s' =>
      match rstrip s' with
      | EmptyString => if isspace c then EmptyString else String c EmptyString
      | r => String c r
      end
  end.

Definition strip (s : string) : string := rstrip (lstrip s).

(** A non-empty run of decimal digits, read in base ten. *)
Definition digits_value (s : string) : option Z :=
  Z.of_uint <$> NilZero.uint_of_string s.

(** [int(s)] in base ten: surrounding white space is dropped, one sign is
    allowed, the rest must be a non-empty run of decimal digits; anything
    else is a [ValueError]. *)
Definition int (s : string) : result Z :=
  let body :=
    match strip s with
    | String "+"%char d => digits_value d
    | String "-"%char d => Z.opp <$> digits_value d
    | d => digits_value d
    end in
  match body with
  | Some n => Ok n
  | None => Raise ValueError
  end.

(** [str(n)] for an integer. *)
Definition str (n : Z) : string := NilZero.string_of_int (Z.to_int n).

Definition startswith (c : ascii) (s : string) : bool :=
  match s with
  | String c' _ => Ascii.eqb c' c
  | EmptyString => false
  end.

Fixpoint endswith (c : ascii) (s : string) : bool :=
  match s with
  | EmptyString => false
  | String c' EmptyString => Ascii.eqb c' c
  | String _ s' => endswith c s'
  end.

(** [os.path.join(a, *p)] of [posixpath]: a component that starts with a
    slash restarts the path, otherwise components are glued with one
    slash. *)
Fixpoint path_join_from (path : string) (p : list string) : string :=
  match p with
  | [] => path
  | b :: p' =>
      path_join_from
        (if startswith "/" b then b
         else if String.eqb path "" || endswith "/" path then path ++ b
         else path ++ "/" ++ b)
        p'
  end.

Definition path_join (a : string) (p : list string) : string :=
  path_join_from a p.

End Py.

(** ** Grid addressing *)

(** [per_row = width // grid_size + 1]. *)
Definition tiles_per_row (width grid_size : Z) : result Z :=
  (q ← Py.floordiv width grid_size ; Ok (q + 1)).

(** [int(filename.split("_")[1].split(".")[0])]. *)
Definition tile_index (filename : string) : result Z :=
  (seg ← Py.index (Py.split "_" filename) 1 ;
   num ← Py.index (Py.split "." seg) 0 ;
   Py.int num).

(** [index_to_location(filename, width, grid_size)]; the returned two-element
    list [[row, col]] is a pair. *)
Definition index_to_location (filename : string) (width grid_size : Z)
  : result (Z * Z) :=
  (per_row ← tiles_per_row width grid_size ;
   idx ← tile_index filename ;
   row ← Py.floordiv idx per_row ;
   col ← Py.mod_ idx per_row ;
   Ok (row, col)).

(** ** Data model *)

(** Python values stored in manifest records and statistics tuples.  Values
    the script only passes along (floats of the coordinate block, say) are
    kept by their printed form. *)
Inductive pyval : Type :=
  | VStr (s : string)
  | VInt (n : Z)
  | VOther (repr : string).

(** The attributes of the shared [config] object that the modelled functions
    read or write. *)
Module config.
Record t : Type := mk {
  SCENE_NAME : string;
  SCENE_DIR : string;
  INPUT_FILE : string;
  METADATA_SRC : string;
  JSON_SRC : string;
  SCRATCH_PATH : string;
  GRID_SIZE : Z;
  LABEL : string;
  REBUILD : bool;
  ASSEMBLE_IMAGE : bool;
  SLICE_IMAGE : bool;
  REJECT_TILES : bool;
  BUILD_MANIFEST : bool;
  ANNOTATE : bool;
  width : Z;
  height : Z;
  METADATA : gmap string pyval;
  RED_CHANNEL : string;
  GREEN_CHANNEL : string;
  BLUE_CHANNEL : string;
  INFRARED_CHANNEL : string;
}.

(** [[config.width, config.height] = dims] *)
Definition set_dimensions (c : t) (dims : Z * Z) : t :=
  mk (SCENE_NAME c) (SCENE_DIR c) (INPUT_FILE c) (METADATA_SRC c)
     (JSON_SRC c) (SCRATCH_PATH c) (GRID_SIZE c) (LABEL c) (REBUILD c)
     (ASSEMBLE_IMAGE c) (SLICE_IMAGE c) (REJECT_TILES c) (BUILD_MANIFEST c)
     (ANNOTATE c) (fst dims) (snd dims) (METADATA c) (RED_CHANNEL c)
     (GREEN_CHANNEL c) (BLUE_CHANNEL c) (INFRARED_CHANNEL c).

(** [config.METADATA = metadata] *)
Definition set_METADATA (c : t) (metadata : gmap string pyval) : t :=
  mk (SCENE_NAME c) (SCENE_DIR c) (INPUT_FILE c) (METADATA_SRC c)
     (JSON_SRC c) (SCRATCH_PATH c) (GRID_SIZE c) (LABEL c) (REBUILD c)
     (ASSEMBLE_IMAGE c) (SLICE_IMAGE c) (REJECT_TILES c) (BUILD_MANIFEST c)
     (ANNOTATE c) (width c) (height c) metadata (RED_CHANNEL c)
     (GREEN_CHANNEL c) (BLUE_CHANNEL c) (INFRARED_CHANNEL c).

(** [config.RED_CHANNEL = r], [config.GREEN_CHANNEL = g],
    [config.BLUE_CHANNEL = b] *)
Definition set_rgb (c : t) (r g b : string) : t :=
  mk (SCENE_NAME c) (SCENE_DIR c) (INPUT_FILE c) (METADATA_SRC c)
     (JSON_SRC c) (SCRATCH_PATH c) (GRID_SIZE c) (LABEL c) (REBUILD c)
     (ASSEMBLE_IMAGE c) (SLICE_IMAGE c) (REJECT_TILES c) (BUILD_MANIFEST c)
     (ANNOTATE c) (width c) (height c) (METADATA c) r g b
     (INFRARED_CHANNEL c).

(** [config.INFRARED_CHANNEL = i] *)
Definition set_INFRARED_CHANNEL (c : t) (i : string) : t :=
  mk (SCENE_NAME c) (SCENE_DIR c) (INPUT_FILE c) (METADATA_SRC c)
     (JSON_SRC c) (SCRATCH_PATH c) (GRID_SIZE c) (LABEL c) (REBUILD c)
     (ASSEMBLE_IMAGE c) (SLICE_IMAGE c) (REJECT_TILES c) (BUILD_MANIFEST c)
     (ANNOTATE c) (width c) (height c) (METADATA c) (RED_CHANNEL c)
     (GREEN_CHANNEL c) (BLUE_CHANNEL c) i.
End config.

Abbreviation Config := config.t.

(** A manifest record: a dictionary with string keys. *)
Abbreviation record := (gmap string pyval).

(** Calls that act on the outside world, with their arguments.  The
    configuration a collaborator receives is recorded as it is at the call. *)
Inductive call : Type :=
  | logger_info (name msg : string)
  | build_scratch (c : Config)
  | build_output (c : Config)
  | clamp_image (src name : string) (c : Config) (flag : bool)
  | assemble_image (c : Config)
  | prepare_tiles (c : Config)
  | accept_tile (filename : string) (c : Config)
  | write_manifest (path : string) (rows : list record)
  | label_all (c : Config)
  | maybe_clean_scratch (c : Config)
  | rule_call (position : nat) (args : list pyval).

(** The collaborators imported from [image_operations], [file_operations],
    [gis_operations], [xml_operations] and [csv_operations].  [FS] is the
    state of the file system; a query reads it, and [effect] says how a call
    changes it.  Collaborators are taken to return normally and to leave the
    configuration object as they found it. *)
Class Collaborators : Type := {
  FS : Type;
  effect : call → FS → FS;
  get_dimensions : FS → string → Z * Z;
  get_image_statistics : FS → string → list pyval;
  scratch_exists : FS → Config → bool;
  get_files_by_extension : FS → string → string → list string;
  parse_metadata : FS → string → string → string → record;
  compute_coordinate_metadata : Z → Z → Z → Z → Config → record;
}.

(** ** The manifest record builder *)

(** The dictionary literal of [build_dict_for_csv]. *)
Definition identity_fields (filename reason : string)
    (row column width height : Z) : record :=
  <["#filename1" := VStr ("after_" ++ filename)]>
  (<["#filename2" := VStr ("before_" ++ filename)]>
  (<["#reason" := VStr reason]>
  (<["#row" := VInt row]>
  (<["#column" := VInt column]>
  (<["#width" := VInt width]>
  (<["#height" := VInt height]> ∅)))))).

(** [d.update(other)]: every key of [other] is written into [d]. *)
Definition update (d other : record) : record := other ∪ d.

Definition build_dict_for_csv `{Collaborators} (fs : FS)
    (filename reason : string) (c : Config) : result record :=
  let '(width, height) :=
    get_dimensions fs (Py.path_join (config.SCRATCH_PATH c) ["scene"; filename]) in
  '(row, column) ← index_to_location filename (config.width c) (config.GRID_SIZE c);
  let my_dict := identity_fields filename reason row column width height in
  let coordinate_metadata :=
    compute_coordinate_metadata row column width height c in
  let my_dict := update my_dict coordinate_metadata in
  let my_dict := update my_dict (config.METADATA c) in
  Ok my_dict.

(** ** The batch classifier *)

(** A rule is a predicate called with the statistics unpacked positionally:
    it receives the elements of the tuple as its argument list. *)
Abbreviation rule := (list pyval → bool).

(** List objects live in a heap and are passed by reference, so that an
    append made by the callee is seen by every holder of the reference. *)
Abbreviation loc := nat.

Record store : Type := mk_store {
  heap : gmap loc (list string);
  calls : list call;
}.

Definition deref (σ : store) (l : loc) : list string :=
  default [] (heap σ !! l).

(** [l.append(x)] *)
Definition append (l : loc) (x : string) (σ : store) : store :=
  mk_store (<[l := (deref σ l ++ [x])%list]> (heap σ)) (calls σ).

Definition emit (e : call) (σ : store) : store :=
  mk_store (heap σ) (calls σ ++ [e])%list.

(** The inner loop of [apply_rules]: [for rule in rules], leaving with
    [break] at the first rule that does not hold, after the file name has
    been appended to [rejects].  The result is [done]. *)
Fixpoint rule_loop (rules : list rule) (position : nat)
    (statistics : list pyval) (filename : string) (rejects : loc)
    (σ : store) : bool * store :=
  match rules with
  | [] => (false, σ)
  | rule :: rules' =>
      let σ := emit (rule_call position statistics) σ in
      if negb (rule statistics) then (true, append rejects filename σ)
      else rule_loop rules' (S position) statistics filename rejects σ
  end.

(** The outer loop, [for filename in candidates]: the iterator reads
    position [i] of the list object at every step and stops when [i] is past
    its current end.  [None] stands for a loop that has not finished within
    [fuel] steps. *)
Fixpoint candidates_loop `{Collaborators} (fuel : nat) (fs : FS) (c : Config)
    (candidates rejects : loc) (subdirectory : string) (rules : list rule)
    (i : nat) (accum : list string) (σ : store)
  : option (list string * store) :=
  match fuel with
  | O => None
  | S fuel' =>
      match deref σ candidates !! i with
      | None => Some (accum, σ)
      | Some filename =>
          let statistics :=
            get_image_statistics fs
              (Py.path_join (config.SCRATCH_PATH c) [subdirectory; filename]) in
          let '(done, σ) :=
            rule_loop rules 0 statistics filename rejects σ in
          if done
          then candidates_loop fuel' fs c candidates rejects subdirectory
                 rules (S i) accum σ
          else candidates_loop fuel' fs c candidates rejects subdirectory
                 rules (S i) (accum ++ [filename])%list σ
      end
  end.

Definition apply_rules `{Collaborators} (fuel : nat) (fs : FS) (c : Config)
    (candidates rejects : loc) (subdirectory : string) (rules : list rule)
    (σ : store) : option (list string * store) :=
  let accum := [] in
  let σ :=
    emit (logger_info (config.SCENE_NAME c)
            ("Examining " ++ Py.str (Z.of_nat (length (deref σ candidates)))
             ++ " tiles for " ++ subdirectory)) σ in
  candidates_loop fuel fs c candidates rejects subdirectory rules 0 accum σ.

(** ** The orchestrator *)

Section Orchestrator.
Context `{Collaborators}.

(** What a run of [main] can see and change: the shared configuration
    object, the file system, and the sequence of calls made so far. *)
Record World : Type := mk_world {
  cfg : Config;
  fs : FS;
  trace : list call;
}.

(** A computation that may raise; the world reached is kept in both cases. *)
Definition M (A : Type) : Type := World → result A * World.

#[export] Instance M_ret : MRet M := λ A a w, (Ok a, w).

#[export] Instance M_bind : MBind M := λ A B k m w,
  match m w with
  | (Ok a, w') => k a w'
  | (Raise e, w') => (Raise e, w')
  end.

Definition read_config : M Config := λ w, (Ok (cfg w), w).

Definition write_config (c : Config) : M unit :=
  λ w, (Ok tt, mk_world c (fs w) (trace w)).

(** A query of a collaborator: the file system is read, nothing changes. *)
Definition ask {A} (q : FS → A) : M A := λ w, (Ok (q (fs w)), w).

(** A call of a collaborator that acts on the file system. *)
Definition perform (e : call) : M unit :=
  λ w, (Ok tt, mk_world (cfg w) (effect e (fs w)) (trace w ++ [e])%list).

(** [logger.info(msg)]: the handler writes to the standard error stream. *)
Definition info (logger msg : string) : M unit :=
  λ w, (Ok tt, mk_world (cfg w) (fs w) (trace w ++ [logger_info logger msg])%list).

(** Lines 292-294: [for filename in retained_tiles]. *)
Fixpoint accept_loop (retained_tiles : list string) (accepts : list record)
  : M (list record) :=
  match retained_tiles with
  | [] => mret accepts
  | filename :: retained_tiles' =>
      c ← read_config;
      perform (accept_tile filename c);;
      d ← (λ w, (build_dict_for_csv (fs w) filename "Accepted" c, w));
      accept_loop retained_tiles' (accepts ++ [d])%list
  end.

(** Lines 241-262: dimensions of the input, scratch, output directory,
    metadata and channel paths. *)
Definition main_setup : M unit :=
  c ← read_config;
  let logger := config.SCENE_NAME c in
  info logger "Processing start";;
  dims ← ask (λ fs, get_dimensions fs (config.INPUT_FILE c));
  write_config (config.set_dimensions c dims);;
  c ← read_config;
  exists_ ← ask (λ fs, scratch_exists fs c);
  (if config.REBUILD c || negb exists_
   then perform (build_scratch c)
   else mret tt);;
  info logger "Building scene tile output directory";;
  perform (build_output c);;
  metadata ← ask (λ fs, parse_metadata fs (config.SCENE_DIR c)
                          (config.METADATA_SRC c) (config.JSON_SRC c));
  write_config (config.set_METADATA c metadata);;
  c ← read_config;
  write_config
    (config.set_INFRARED_CHANNEL
       (config.set_rgb c
          (Py.path_join (config.SCENE_DIR c) ["B04.jp2"])
          (Py.path_join (config.SCENE_DIR c) ["B03.jp2"])
          (Py.path_join (config.SCENE_DIR c) ["B02.jp2"]))
       (Py.path_join (config.SCENE_DIR c) ["B03.jp2"])).

(** Lines 264-278. *)
Definition main_assemble : M unit :=
  c ← read_config;
  let logger := config.SCENE_NAME c in
  if config.ASSEMBLE_IMAGE c then
    info logger "Processing source data to remove negative pixels";;
    perform (clamp_image (config.RED_CHANNEL c) "red" c false);;
    perform (clamp_image (config.GREEN_CHANNEL c) "green" c false);;
    perform (clamp_image (config.BLUE_CHANNEL c) "blue" c false);;
    write_config
      (config.set_rgb c
         (Py.path_join (config.SCRATCH_PATH c) ["red.png"])
         (Py.path_join (config.SCRATCH_PATH c) ["green.png"])
         (Py.path_join (config.SCRATCH_PATH c) ["blue.png"]));;
    c ← read_config;
    perform (assemble_image c)
  else
    info logger "Skipping scene generation".

(** Lines 280-287. *)
Definition main_slice : M unit :=
  c ← read_config;
  let logger := config.SCENE_NAME c in
  if config.SLICE_IMAGE c then
    info logger
      ("Generating scene tiles of " ++ Py.str (config.GRID_SIZE c) ++ "x"
       ++ Py.str (config.GRID_SIZE c) ++ " pixels");;
    perform (prepare_tiles c)
  else
    info logger "Skipping scene tile generation".

(** Lines 289-294; the result is the list [accepts]. *)
Definition main_reject (accepts : list record) : M (list record) :=
  c ← read_config;
  let logger := config.SCENE_NAME c in
  if config.REJECT_TILES c then
    info logger "Copying all tiles";;
    retained_tiles ←
      ask (λ fs, get_files_by_extension fs
                   (Py.path_join (config.SCRATCH_PATH c) ["scene"]) "png");
    accept_loop retained_tiles accepts
  else
    mret accepts.

(** Lines 296-300. *)
Definition main_manifest (accepts : list record) : M unit :=
  c ← read_config;
  let logger := config.SCENE_NAME c in
  if config.BUILD_MANIFEST c then
    info logger "Writing manifest";;
    perform (write_manifest
               (Py.path_join "output"
                  [config.SCENE_NAME c ++ "_tiles"; "manifest.csv"])
               accepts)
  else
    mret tt.

(** Lines 302-308. *)
Definition main_finish : M unit :=
  c ← read_config;
  let logger := config.SCENE_NAME c in
  (if config.ANNOTATE c then
     info logger ("Annotating with label " ++ config.LABEL c);;
     perform (label_all c)
   else mret tt);;
  perform (maybe_clean_scratch c);;
  info logger "Processing finished".

(** The run up to the tile-routing stage. *)
Definition main_until_slice : M unit :=
  main_setup;; main_assemble;; main_slice.

(** Lines 241-308 of [main()]: the run on the configuration that the call
    of [parse_options()] at line 219 has left.  That call is modelled on its
    own, as [parse_options] below; [configured] ties the configuration it
    leaves to the one this run starts from.  The lists [retained_tiles],
    [no_water], [too_cloudy] and [rejects] that [main] creates are not used
    afterwards, except [retained_tiles], which is rebound in the
    tile-routing stage. *)
Definition main : M unit :=
  let accepts := [] in
  main_until_slice;;
  accepts ← main_reject accepts;
  main_manifest accepts;;
  main_finish.

End Orchestrator.

(** ** The command line *)

(** The attributes of the shared [config] object that [parse_options] reads
    or writes.  [SCENE_NAME] is [None] as long as no name is known. *)
Module options.
Record t : Type := mk {
  WITHTEMPDIR : bool;
  REBUILD : bool;
  ASSEMBLE_IMAGE : bool;
  SLICE_IMAGE : bool;
  GENERATE_MASK_TILES : bool;
  REMOVE_LAND : bool;
  REMOVE_CLOUDS : bool;
  REJECT_TILES : bool;
  BUILD_MANIFEST : bool;
  VISUALIZE_SORT : bool;
  ANNOTATE : bool;
  GRID_SIZE : Z;
  LAND_THRESHHOLD : Z;
  LAND_SENSITIVITY : Z;
  CLOUD_THRESHHOLD : Z;
  CLOUD_SENSITIVITY : Z;
  LABEL : string;
  SCENE_NAME : option string;
  SCENE_DIR : string;
  NEW_MASK : string;
  METADATA_SRC : string;
  JSON_SRC : string;
  INPUT_FILE : string;
}.

(** [config.WITHTEMPDIR = v] *)
Definition set_WITHTEMPDIR (c : t) (v : bool) : t :=
  mk v (REBUILD c) (ASSEMBLE_IMAGE c) (SLICE_IMAGE c)
     (GENERATE_MASK_TILES c) (REMOVE_LAND c) (REMOVE_CLOUDS c)
     (REJECT_TILES c) (BUILD_MANIFEST c) (VISUALIZE_SORT c) (ANNOTATE c)
     (GRID_SIZE c) (LAND_THRESHHOLD c) (LAND_SENSITIVITY c)
     (CLOUD_THRESHHOLD c) (CLOUD_SENSITIVITY c) (LABEL c) (SCENE_NAME c)
     (SCENE_DIR c) (NEW_MASK c) (METADATA_SRC c) (JSON_SRC c) (INPUT_FILE c).

(** [config.REBUILD = v] *)
Definition set_REBUILD (c : t) (v : bool) : t :=
  mk (WITHTEMPDIR c) v (ASSEMBLE_IMAGE c) (SLICE_IMAGE c)
     (GENERATE_MASK_TILES c) (REMOVE_LAND c) (REMOVE_CLOUDS c)
     (REJECT_TILES c) (BUILD_MANIFEST c) (VISUALIZE_SORT c) (ANNOTATE c)
     (GRID_SIZE c) (LAND_THRESHHOLD c) (LAND_SENSITIVITY c)
     (CLOUD_THRESHHOLD c) (CLOUD_SENSITIVITY c) (LABEL c) (SCENE_NAME c)
     (SCENE_DIR c) (NEW_MASK c) (METADATA_SRC c) (JSON_SRC c) (INPUT_FILE c).

(** [config.ASSEMBLE_IMAGE = v] *)
Definition set_ASSEMBLE_IMAGE (c : t) (v : bool) : t :=
  mk (WITHTEMPDIR c) (REBUILD c) v (SLICE_IMAGE c) (GENERATE_MASK_TILES c)
     (REMOVE_LAND c) (REMOVE_CLOUDS c) (REJECT_TILES c) (BUILD_MANIFEST c)
     (VISUALIZE_SORT c) (ANNOTATE c) (GRID_SIZE c) (LAND_THRESHHOLD c)
     (LAND_SENSITIVITY c) (CLOUD_THRESHHOLD c) (CLOUD_SENSITIVITY c)
     (LABEL c) (SCENE_NAME c) (SCENE_DIR c) (NEW_MASK c) (METADATA_SRC c)
     (JSON_SRC c) (INPUT_FILE c).

(** [config.SLICE_IMAGE = v] *)
Definition set_SLICE_IMAGE (c : t) (v : bool) : t :=
  mk (WITHTEMPDIR c) (REBUILD c) (ASSEMBLE_IMAGE c) v
     (GENERATE_MASK_TILES c) (REMOVE_LAND c) (REMOVE_CLOUDS c)
     (REJECT_TILES c) (BUILD_MANIFEST c) (VISUALIZE_SORT c) (ANNOTATE c)
     (GRID_SIZE c) (LAND_THRESHHOLD c) (LAND_SENSITIVITY c)
     (CLOUD_THRESHHOLD c) (CLOUD_SENSITIVITY c) (LABEL c) (SCENE_NAME c)
     (SCENE_DIR c) (NEW_MASK c) (METADATA_SRC c) (JSON_SRC c) (INPUT_FILE c).

(** [config.GENERATE_MASK_TILES = v] *)
Definition set_GENERATE_MASK_TILES (c : t) (v : bool) : t :=
  mk (WITHTEMPDIR c) (REBUILD c) (ASSEMBLE_IMAGE c) (SLICE_IMAGE c) v
     (REMOVE_LAND c) (REMOVE_CLOUDS c) (REJECT_TILES c) (BUILD_MANIFEST c)
     (VISUALIZE_SORT c) (ANNOTATE c) (GRID_SIZE c) (LAND_THRESHHOLD c)
     (LAND_SENSITIVITY c) (CLOUD_THRESHHOLD c) (CLOUD_SENSITIVITY c)
     (LABEL c) (SCENE_NAME c) (SCENE_DIR c) (NEW_MASK c) (METADATA_SRC c)
     (JSON_SRC c) (INPUT_FILE c).

(** [config.REMOVE_LAND = v] *)
Definition set_REMOVE_LAND (c : t) (v : bool) : t :=
  mk (WITHTEMPDIR c) (REBUILD c) (ASSEMBLE_IMAGE c) (SLICE_IMAGE c)
     (GENERATE_MASK_TILES c) v (REMOVE_CLOUDS c) (REJECT_TILES c)
     (BUILD_MANIFEST c) (VISUALIZE_SORT c) (ANNOTATE c) (GRID_SIZE c)
     (LAND_THRESHHOLD c) (LAND_SENSITIVITY c) (CLOUD_THRESHHOLD c)
     (CLOUD_SENSITIVITY c) (LABEL c) (SCENE_NAME c) (SCENE_DIR c)
     (NEW_MASK c) (METADATA_SRC c) (JSON_SRC c) (INPUT_FILE c).

(** [config.REMOVE_CLOUDS = v] *)
Definition set_REMOVE_CLOUDS (c : t) (v : bool) : t :=
  mk (WITHTEMPDIR c) (REBUILD c) (ASSEMBLE_IMAGE c) (SLICE_IMAGE c)
     (GENERATE_MASK_TILES c) (REMOVE_LAND c) v (REJECT_TILES c)
     (BUILD_MANIFEST c) (VISUALIZE_SORT c) (ANNOTATE c) (GRID_SIZE c)
     (LAND_THRESHHOLD c) (LAND_SENSITIVITY c) (CLOUD_THRESHHOLD c)
     (CLOUD_SENSITIVITY c) (LABEL c) (SCENE_NAME c) (SCENE_DIR c)
     (NEW_MASK c) (METADATA_SRC c) (JSON_SRC c) (INPUT_FILE c).

(** [config.REJECT_TILES = v] *)
Definition set_REJECT_TILES (c : t) (v : bool) : t :=
  mk (WITHTEMPDIR c) (REBUILD c) (ASSEMBLE_IMAGE c) (SLICE_IMAGE c)
     (GENERATE_MASK_TILES c) (REMOVE_LAND c) (REMOVE_CLOUDS c) v
     (BUILD_MANIFEST c) (VISUALIZE_SORT c) (ANNOTATE c) (GRID_SIZE c)
     (LAND_THRESHHOLD c) (LAND_SENSITIVITY c) (CLOUD_THRESHHOLD c)
     (CLOUD_SENSITIVITY c) (LABEL c) (SCENE_NAME c) (SCENE_DIR c)
     (NEW_MASK c) (METADATA_SRC c) (JSON_SRC c) (INPUT_FILE c).

(** [config.BUILD_MANIFEST = v] *)
Definition set_BUILD_MANIFEST (c : t) (v : bool) : t :=
  mk (WITHTEMPDIR c) (REBUILD c) (ASSEMBLE_IMAGE c) (SLICE_IMAGE c)
     (GENERATE_MASK_TILES c) (REMOVE_LAND c) (REMOVE_CLOUDS c)
     (REJECT_TILES c) v (VISUALIZE_SORT c) (ANNOTATE c) (GRID_SIZE c)
     (LAND_THRESHHOLD c) (LAND_SENSITIVITY c) (CLOUD_THRESHHOLD c)
     (CLOUD_SENSITIVITY c) (LABEL c) (SCENE_NAME c) (SCENE_DIR c)
     (NEW_MASK c) (METADATA_SRC c) (JSON_SRC c) (INPUT_FILE c).

(** [config.VISUALIZE_SORT = v] *)
Definition set_VISUALIZE_SORT (c : t) (v : bool) : t :=
  mk (WITHTEMPDIR c) (REBUILD c) (ASSEMBLE_IMAGE c) (SLICE_IMAGE c)
     (GENERATE_MASK_TILES c) (REMOVE_LAND c) (REMOVE_CLOUDS c)
     (REJECT_TILES c) (BUILD_MANIFEST c) v (ANNOTATE c) (GRID_SIZE c)
     (LAND_THRESHHOLD c) (LAND_SENSITIVITY c) (CLOUD_THRESHHOLD c)
     (CLOUD_SENSITIVITY c) (LABEL c) (SCENE_NAME c) (SCENE_DIR c)
     (NEW_MASK c) (METADATA_SRC c) (JSON_SRC c) (INPUT_FILE c).

(** [config.ANNOTATE = v] *)
Definition set_ANNOTATE (c : t) (v : bool) : t :=
  mk (WITHTEMPDIR c) (REBUILD c) (ASSEMBLE_IMAGE c) (SLICE_IMAGE c)
     (GENERATE_MASK_TILES c) (REMOVE_LAND c) (REMOVE_CLOUDS c)
     (REJECT_TILES c) (BUILD_MANIFEST c) (VISUALIZE_SORT c) v (GRID_SIZE c)
     (LAND_THRESHHOLD c) (LAND_SENSITIVITY c) (CLOUD_THRESHHOLD c)
     (CLOUD_SENSITIVITY c) (LABEL c) (SCENE_NAME c) (SCENE_DIR c)
     (NEW_MASK c) (METADATA_SRC c) (JSON_SRC c) (INPUT_FILE c).

(** [config.GRID_SIZE = v] *)
Definition set_GRID_SIZE (c : t) (v : Z) : t :=
  mk (WITHTEMPDIR c) (REBUILD c) (ASSEMBLE_IMAGE c) (SLICE_IMAGE c)
     (GENERATE_MASK_TILES c) (REMOVE_LAND c) (REMOVE_CLOUDS c)
     (REJECT_TILES c) (BUILD_MANIFEST c) (VISUALIZE_SORT c) (ANNOTATE c) v
     (LAND_THRESHHOLD c) (LAND_SENSITIVITY c) (CLOUD_THRESHHOLD c)
     (CLOUD_SENSITIVITY c) (LABEL c) (SCENE_NAME c) (SCENE_DIR c)
     (NEW_MASK c) (METADATA_SRC c) (JSON_SRC c) (INPUT_FILE c).

(** [config.LAND_THRESHHOLD = v] *)
Definition set_LAND_THRESHHOLD (c : t) (v : Z) : t :=
  mk (WITHTEMPDIR c) (REBUILD c) (ASSEMBLE_IMAGE c) (SLICE_IMAGE c)
     (GENERATE_MASK_TILES c) (REMOVE_LAND c) (REMOVE_CLOUDS c)
     (REJECT_TILES c) (BUILD_MANIFEST c) (VISUALIZE_SORT c) (ANNOTATE c)
     (GRID_SIZE c) v (LAND_SENSITIVITY c) (CLOUD_THRESHHOLD c)
     (CLOUD_SENSITIVITY c) (LABEL c) (SCENE_NAME c) (SCENE_DIR c)
     (NEW_MASK c) (METADATA_SRC c) (JSON_SRC c) (INPUT_FILE c).

(** [config.LAND_SENSITIVITY = v] *)
Definition set_LAND_SENSITIVITY (c : t) (v : Z) : t :=
  mk (WITHTEMPDIR c) (REBUILD c) (ASSEMBLE_IMAGE c) (SLICE_IMAGE c)
     (GENERATE_MASK_TILES c) (REMOVE_LAND c) (REMOVE_CLOUDS c)
     (REJECT_TILES c) (BUILD_MANIFEST c) (VISUALIZE_SORT c) (ANNOTATE c)
     (GRID_SIZE c) (LAND_THRESHHOLD c) v (CLOUD_THRESHHOLD c)
     (CLOUD_SENSITIVITY c) (LABEL c) (SCENE_NAME c) (SCENE_DIR c)
     (NEW_MASK c) (METADATA_SRC c) (JSON_SRC c) (INPUT_FILE c).

(** [config.CLOUD_THRESHHOLD = v] *)
Definition set_CLOUD_THRESHHOLD (c : t) (v : Z) : t :=
  mk (WITHTEMPDIR c) (REBUILD c) (ASSEMBLE_IMAGE c) (SLICE_IMAGE c)
     (GENERATE_MASK_TILES c) (REMOVE_LAND c) (REMOVE_CLOUDS c)
     (REJECT_TILES c) (BUILD_MANIFEST c) (VISUALIZE_SORT c) (ANNOTATE c)
     (GRID_SIZE c) (LAND_THRESHHOLD c) (LAND_SENSITIVITY c) v
     (CLOUD_SENSITIVITY c) (LABEL c) (SCENE_NAME c) (SCENE_DIR c)
     (NEW_MASK c) (METADATA_SRC c) (JSON_SRC c) (INPUT_FILE c).

(** [config.CLOUD_SENSITIVITY = v] *)
Definition set_CLOUD_SENSITIVITY (c : t) (v : Z) : t :=
  mk (WITHTEMPDIR c) (REBUILD c) (ASSEMBLE_IMAGE c) (SLICE_IMAGE c)
     (GENERATE_MASK_TILES c) (REMOVE_LAND c) (REMOVE_CLOUDS c)
     (REJECT_TILES c) (BUILD_MANIFEST c) (VISUALIZE_SORT c) (ANNOTATE c)
     (GRID_SIZE c) (LAND_THRESHHOLD c) (LAND_SENSITIVITY c)
     (CLOUD_THRESHHOLD c) v (LABEL c) (SCENE_NAME c) (SCENE_DIR c)
     (NEW_MASK c) (METADATA_SRC c) (JSON_SRC c) (INPUT_FILE c).

(** [config.LABEL = v] *)
Definition set_LABEL (c : t) (v : string) : t :=
  mk (WITHTEMPDIR c) (REBUILD c) (ASSEMBLE_IMAGE c) (SLICE_IMAGE c)
     (GENERATE_MASK_TILES c) (REMOVE_LAND c) (REMOVE_CLOUDS c)
     (REJECT_TILES c) (BUILD_MANIFEST c) (VISUALIZE_SORT c) (ANNOTATE c)
     (GRID_SIZE c) (LAND_THRESHHOLD c) (LAND_SENSITIVITY c)
     (CLOUD_THRESHHOLD c) (CLOUD_SENSITIVITY c) v (SCENE_NAME c)
     (SCENE_DIR c) (NEW_MASK c) (METADATA_SRC c) (JSON_SRC c) (INPUT_FILE c).

(** [config.SCENE_NAME = v] *)
Definition set_SCENE_NAME (c : t) (v : option string) : t :=
  mk (WITHTEMPDIR c) (REBUILD c) (ASSEMBLE_IMAGE c) (SLICE_IMAGE c)
     (GENERATE_MASK_TILES c) (REMOVE_LAND c) (REMOVE_CLOUDS c)
     (REJECT_TILES c) (BUILD_MANIFEST c) (VISUALIZE_SORT c) (ANNOTATE c)
     (GRID_SIZE c) (LAND_THRESHHOLD c) (LAND_SENSITIVITY c)
     (CLOUD_THRESHHOLD c) (CLOUD_SENSITIVITY c) (LABEL c) v (SCENE_DIR c)
     (NEW_MASK c) (METADATA_SRC c) (JSON_SRC c) (INPUT_FILE c).

(** [config.SCENE_DIR = v] *)
Definition set_SCENE_DIR (c : t) (v : string) : t :=
  mk (WITHTEMPDIR c) (REBUILD c) (ASSEMBLE_IMAGE c) (SLICE_IMAGE c)
     (GENERATE_MASK_TILES c) (REMOVE_LAND c) (REMOVE_CLOUDS c)
     (REJECT_TILES c) (BUILD_MANIFEST c) (VISUALIZE_SORT c) (ANNOTATE c)
     (GRID_SIZE c) (LAND_THRESHHOLD c) (LAND_SENSITIVITY c)
     (CLOUD_THRESHHOLD c) (CLOUD_SENSITIVITY c) (LABEL c) (SCENE_NAME c) v
     (NEW_MASK c) (METADATA_SRC c) (JSON_SRC c) (INPUT_FILE c).

(** [config.NEW_MASK = v] *)
Definition set_NEW_MASK (c : t) (v : string) : t :=
  mk (WITHTEMPDIR c) (REBUILD c) (ASSEMBLE_IMAGE c) (SLICE_IMAGE c)
     (GENERATE_MASK_TILES c) (REMOVE_LAND c) (REMOVE_CLOUDS c)
     (REJECT_TILES c) (BUILD_MANIFEST c) (VISUALIZE_SORT c) (ANNOTATE c)
     (GRID_SIZE c) (LAND_THRESHHOLD c) (LAND_SENSITIVITY c)
     (CLOUD_THRESHHOLD c) (CLOUD_SENSITIVITY c) (LABEL c) (SCENE_NAME c)
     (SCENE_DIR c) v (METADATA_SRC c) (JSON_SRC c) (INPUT_FILE c).

(** [config.METADATA_SRC = v] *)
Definition set_METADATA_SRC (c : t) (v : string) : t :=
  mk (WITHTEMPDIR c) (REBUILD c) (ASSEMBLE_IMAGE c) (SLICE_IMAGE c)
     (GENERATE_MASK_TILES c) (REMOVE_LAND c) (REMOVE_CLOUDS c)
     (REJECT_TILES c) (BUILD_MANIFEST c) (VISUALIZE_SORT c) (ANNOTATE c)
     (GRID_SIZE c) (LAND_THRESHHOLD c) (LAND_SENSITIVITY c)
     (CLOUD_THRESHHOLD c) (CLOUD_SENSITIVITY c) (LABEL c) (SCENE_NAME c)
     (SCENE_DIR c) (NEW_MASK c) v (JSON_SRC c) (INPUT_FILE c).

(** [config.JSON_SRC = v] *)
Definition set_JSON_SRC (c : t) (v : string) : t :=
  mk (WITHTEMPDIR c) (REBUILD c) (ASSEMBLE_IMAGE c) (SLICE_IMAGE c)
     (GENERATE_MASK_TILES c) (REMOVE_LAND c) (REMOVE_CLOUDS c)
     (REJECT_TILES c) (BUILD_MANIFEST c) (VISUALIZE_SORT c) (ANNOTATE c)
     (GRID_SIZE c) (LAND_THRESHHOLD c) (LAND_SENSITIVITY c)
     (CLOUD_THRESHHOLD c) (CLOUD_SENSITIVITY c) (LABEL c) (SCENE_NAME c)
     (SCENE_DIR c) (NEW_MASK c) (METADATA_SRC c) v (INPUT_FILE c).

(** [config.INPUT_FILE = v] *)
Definition set_INPUT_FILE (c : t) (v : string) : t :=
  mk (WITHTEMPDIR c) (REBUILD c) (ASSEMBLE_IMAGE c) (SLICE_IMAGE c)
     (GENERATE_MASK_TILES c) (REMOVE_LAND c) (REMOVE_CLOUDS c)
     (REJECT_TILES c) (BUILD_MANIFEST c) (VISUALIZE_SORT c) (ANNOTATE c)
     (GRID_SIZE c) (LAND_THRESHHOLD c) (LAND_SENSITIVITY c)
     (CLOUD_THRESHHOLD c) (CLOUD_SENSITIVITY c) (LABEL c) (SCENE_NAME c)
     (SCENE_DIR c) (NEW_MASK c) (METADATA_SRC c) (JSON_SRC c) v.

End options.

(** [s.startswith(prefix)] *)
Definition str_startswith (s prefix : string) : bool := String.prefix prefix s.

(** [arg.split("=")[1]] *)
Definition option_value (arg : string) : result string :=
  Py.index (Py.split "=" arg) 1.

(** Lines 66-136: the body of the loop of [parse_options] for one argument.
    A value that [int] refuses raises before the attribute is assigned. *)
Definition parse_arg (arg : string) (c : options.t) : result options.t :=
  if String.eqb arg "simple.py" then Ok c
  else if String.eqb arg "--help" || String.eqb arg "-?" then Ok c
  else if String.eqb arg "--full" then
    let c := options.set_WITHTEMPDIR c true in
    let c := options.set_REBUILD c true in
    let c := options.set_ASSEMBLE_IMAGE c true in
    let c := options.set_SLICE_IMAGE c true in
    let c := options.set_GENERATE_MASK_TILES c true in
    let c := options.set_REMOVE_LAND c true in
    let c := options.set_REMOVE_CLOUDS c true in
    let c := options.set_REJECT_TILES c true in
    let c := options.set_BUILD_MANIFEST c true in
    let c := options.set_VISUALIZE_SORT c true in
    Ok c
  else if String.eqb arg "--assemble" then
    Ok (options.set_ASSEMBLE_IMAGE c true)
  else if String.eqb arg "--generate-tiles" then
    Ok (options.set_SLICE_IMAGE c true)
  else if String.eqb arg "--generate" then
    let c := options.set_ASSEMBLE_IMAGE c true in
    let c := options.set_SLICE_IMAGE c true in
    Ok c
  else if String.eqb arg "--clean" then
    Ok (options.set_REBUILD c true)
  else if String.eqb arg "--sort-tiles" then
    let c := options.set_GENERATE_MASK_TILES c true in
    let c := options.set_REMOVE_LAND c true in
    let c := options.set_REMOVE_CLOUDS c true in
    let c := options.set_REJECT_TILES c true in
    Ok c
  else if String.eqb arg "--generate-mask" then
    Ok (options.set_GENERATE_MASK_TILES c true)
  else if String.eqb arg "--remove-land" then
    Ok (options.set_REMOVE_LAND c true)
  else if String.eqb arg "--remove-clouds" then
    Ok (options.set_REMOVE_CLOUDS c true)
  else if String.eqb arg "--remove-all" then
    let c := options.set_REMOVE_CLOUDS c true in
    let c := options.set_REMOVE_LAND c true in
    Ok c
  else if String.eqb arg "--visualize" then
    Ok (options.set_VISUALIZE_SORT c true)
  else if String.eqb arg "--reject" then
    Ok (options.set_REJECT_TILES c true)
  else if String.eqb arg "--manifest" then
    Ok (options.set_BUILD_MANIFEST c true)
  else if String.eqb arg "--annotate" then
    Ok (options.set_ANNOTATE c true)
  else if str_startswith arg "--grid-size=" then
    v ← option_value arg ≫= Py.int; Ok (options.set_GRID_SIZE c v)
  else if str_startswith arg "--land-threshhold=" then
    v ← option_value arg ≫= Py.int; Ok (options.set_LAND_THRESHHOLD c v)
  else if str_startswith arg "--land-sensitivity=" then
    v ← option_value arg ≫= Py.int; Ok (options.set_LAND_SENSITIVITY c v)
  else if str_startswith arg "--cloud-threshhold=" then
    v ← option_value arg ≫= Py.int; Ok (options.set_CLOUD_THRESHHOLD c v)
  else if str_startswith arg "--cloud-sensitivity=" then
    v ← option_value arg ≫= Py.int; Ok (options.set_CLOUD_SENSITIVITY c v)
  else if str_startswith arg "--label=" then
    v ← option_value arg; Ok (options.set_LABEL c v)
  else if str_startswith arg "--name=" then
    v ← option_value arg; Ok (options.set_SCENE_NAME c (Some v))
  else
    Ok (options.set_SCENE_DIR c arg).

(** Lines 65-136: [for arg in argv].  An exception leaves the loop with the
    configuration as the arguments before it have left it. *)
Fixpoint parse_args (argv : list string) (c : options.t)
  : result unit * options.t :=
  match argv with
  | [] => (Ok tt, c)
  | arg :: argv' =>
      match parse_arg arg c with
      | Ok c' => parse_args argv' c'
      | Raise e => (Raise e, c)
      end
  end.

(** [parse_options()].  The list [sys.argv] and the [config] object are
    arguments; so is [find_scene_name] of [file_operations], which is given
    the configuration object and returns a name or [None]. *)
Definition parse_options (find_scene_name : options.t → option string)
    (argv : list string) (c : options.t) : result unit * options.t :=
  match parse_args argv c with
  | (Ok _, c) =>
      let c :=
        match options.SCENE_NAME c with
        | None => options.set_SCENE_NAME c (find_scene_name c)
        | Some _ => c
        end in
      let c :=
        options.set_NEW_MASK c (Py.path_join (options.SCENE_DIR c) ["B02.jp2"]) in
      let c :=
        options.set_METADATA_SRC c
          (Py.path_join (options.SCENE_DIR c) ["metadata.xml"]) in
      let c :=
        options.set_JSON_SRC c
          (Py.path_join (options.SCENE_DIR c) ["tileInfo.json"]) in
      let c := options.set_INPUT_FILE c (options.NEW_MASK c) in
      (Ok tt, c)
  | (Raise e, c) => (Raise e, c)
  end.

(** ** Vocabulary for file names *)

(** The text before the first [sep] (all of [s] when there is none). *)
Fixpoint before (sep : ascii) (s : string) : string :=
  match s with
  | EmptyString => EmptyString
  | String c s' => if Ascii.eqb c sep then EmptyString else String c (before sep s')
  end.

(** The text after the first [sep], if there is one. *)
Fixpoint after (sep : ascii) (s : string) : option string :=
  match s with
  | EmptyString => None
  | String c s' => if Ascii.eqb c sep then Some s' else after sep s'
  end.

(** [c in s] *)
Fixpoint contains (c : ascii) (s : string) : bool :=
  match s with
  | EmptyString => false
  | String c' s' => Ascii.eqb c' c || contains c s'
  end.

Definition is_digit (c : ascii) : bool :=
  let n := nat_of_ascii c in ((48 <=? n) && (n <=? 57))%nat.

Fixpoint all_digits (s : string) : bool :=
  match s with
  | EmptyString => true
  | String c s' => is_digit c && all_digits s'
  end.

(** A decimal numeral: a non-empty run of decimal digits. *)
Definition numeral (s : string) : Prop := s ≠ "" ∧ all_digits s = true.

(** The part of a file name that [index_to_location] hands to [int]: what
    follows the first underscore, up to the next underscore or full stop. *)
Definition index_segment (filename : string) : option string :=
  (λ r, before "." (before "_" r)) <$> after "_" filename.

(** What follows the first underscore, up to the next full stop. *)
Definition segment_to_stop (filename : string) : option string :=
  before "." <$> after "_" filename.

(** ** Vocabulary for rules and records *)

(** Every rule holds of the statistics. *)
Definition passes (rules : list rule) (statistics : list pyval) : bool :=
  forallb (λ r : rule, r statistics) rules.

(** The verdict of a batch on one file name: every rule holds of the
    statistics of the file. *)
Definition accepted `{Collaborators} (fs : FS) (c : Config)
    (subdirectory : string) (rules : list rule) (filename : string) : bool :=
  passes rules
    (get_image_statistics fs
       (Py.path_join (config.SCRATCH_PATH c) [subdirectory; filename])).

Definition rejected `{Collaborators} (fs : FS) (c : Config)
    (subdirectory : string) (rules : list rule) (filename : string) : bool :=
  negb (accepted fs c subdirectory rules filename).

(** The position of the first rule, in list order, that does not hold. *)
Fixpoint first_failing (rules : list rule) (statistics : list pyval)
  : option nat :=
  match rules with
  | [] => None
  | rule :: rules' =>
      if rule statistics then S <$> first_failing rules' statistics
      else Some O
  end.

(** The calls of the rules at positions [first], [first + 1], ... up to
    [first + n - 1], in this order. *)
Definition rule_calls (first n : nat) (statistics : list pyval) : list call :=
  (λ k, rule_call k statistics) <$> seq first n.

(** The calls of rules that [apply_rules] makes for one file name: the rules
    in list order, up to the first one that does not hold. *)
Definition tile_calls `{Collaborators} (fs : FS) (c : Config)
    (subdirectory : string) (rules : list rule) (filename : string)
  : list call :=
  let statistics :=
    get_image_statistics fs
      (Py.path_join (config.SCRATCH_PATH c) [subdirectory; filename]) in
  rule_calls 0
    (match first_failing rules statistics with
     | Some k => S k
     | None => length rules
     end)
    statistics.

(** The keys of the dictionary literal of [build_dict_for_csv]. *)
Definition identity_keys : gset string :=
  {[ "#filename1"; "#filename2"; "#reason"; "#row"; "#column"; "#width";
     "#height" ]}.

Definition is_build_scratch (e : call) : bool :=
  match e with build_scratch _ => true | _ => false end.

Definition is_prepare_tiles (e : call) : bool :=
  match e with prepare_tiles _ => true | _ => false end.

Definition is_accept_tile (e : call) : bool :=
  match e with accept_tile _ _ => true | _ => false end.


(** The collaborator that a call addresses; [logger.info] is kept apart. *)
Inductive kind : Type :=
  | Log | Build_scratch | Build_output | Clamp_image | Assemble_image
  | Prepare_tiles | Accept_tile | Write_manifest | Label_all
  | Maybe_clean_scratch | Rule_call.

Definition kind_of (e : call) : kind :=
  match e with
  | logger_info _ _ => Log
  | build_scratch _ => Build_scratch
  | build_output _ => Build_output
  | clamp_image _ _ _ _ => Clamp_image
  | assemble_image _ => Assemble_image
  | prepare_tiles _ => Prepare_tiles
  | accept_tile _ _ => Accept_tile
  | write_manifest _ _ => Write_manifest
  | label_all _ => Label_all
  | maybe_clean_scratch _ => Maybe_clean_scratch
  | rule_call _ _ => Rule_call
  end.

Definition is_log (e : call) : bool :=
  match e with logger_info _ _ => true | _ => false end.

(** The collaborators called, in order, log lines left out. *)
Definition collaborator_calls (evs : list call) : list kind :=
  kind_of <$> List.filter (λ e, negb (is_log e)) evs.

(** The messages logged, in order. *)
Definition messages (evs : list call) : list string :=
  omap (λ e, match e with logger_info _ msg => Some msg | _ => None end) evs.

(** The files handed to [accept_tile], in order. *)
Definition accepted_files (evs : list call) : list string :=
  omap (λ e, match e with accept_tile filename _ => Some filename | _ => None end)
    evs.

(** The row lists handed to [write_manifest], in order. *)
Definition manifests (evs : list call) : list (list record) :=
  omap (λ e, match e with write_manifest _ rows => Some rows | _ => None end)
    evs.

(** The (source, name, flag) arguments of the calls of [clamp_image]. *)
Definition clamped (evs : list call) : list (string * string * bool) :=
  omap (λ e, match e with
             | clamp_image src name _ flag => Some (src, name, flag)
             | _ => None
             end) evs.

(** The configurations handed to [assemble_image]. *)
Definition assembled (evs : list call) : list Config :=
  omap (λ e, match e with assemble_image c => Some c | _ => None end) evs.

(** The collaborators of the calls of [clamp_image] and [assemble_image],
    in the order of the calls. *)
Definition image_calls (evs : list call) : list kind :=
  List.filter (λ k, match k with
                    | Clamp_image | Assemble_image => true
                    | _ => false
                    end)
    (kind_of <$> evs).

(** The settings that [main] only reads: every attribute but the
    dimensions, the metadata and the four channel paths. *)
Definition same_settings (c c' : Config) : Prop :=
  config.SCENE_NAME c' = config.SCENE_NAME c ∧
  config.SCENE_DIR c' = config.SCENE_DIR c ∧
  config.INPUT_FILE c' = config.INPUT_FILE c ∧
  config.METADATA_SRC c' = config.METADATA_SRC c ∧
  config.JSON_SRC c' = config.JSON_SRC c ∧
  config.SCRATCH_PATH c' = config.SCRATCH_PATH c ∧
  config.GRID_SIZE c' = config.GRID_SIZE c ∧
  config.LABEL c' = config.LABEL c ∧
  config.REBUILD c' = config.REBUILD c ∧
  config.ASSEMBLE_IMAGE c' = config.ASSEMBLE_IMAGE c ∧
  config.SLICE_IMAGE c' = config.SLICE_IMAGE c ∧
  config.REJECT_TILES c' = config.REJECT_TILES c ∧
  config.BUILD_MANIFEST c' = config.BUILD_MANIFEST c ∧
  config.ANNOTATE c' = config.ANNOTATE c.

(** The calls that the stages after slicing can make. *)
Definition is_late (e : call) : bool :=
  match kind_of e with
  | Log | Accept_tile | Write_manifest | Label_all | Maybe_clean_scratch => true
  | _ => false
  end.

(** ** Vocabulary for the command line *)

(** The switches of the configuration. *)
Module flag.
Inductive t : Type :=
  | WITHTEMPDIR | REBUILD | ASSEMBLE_IMAGE | SLICE_IMAGE | GENERATE_MASK_TILES
  | REMOVE_LAND | REMOVE_CLOUDS | REJECT_TILES | BUILD_MANIFEST
  | VISUALIZE_SORT | ANNOTATE.
End flag.

Definition flag_value (f : flag.t) (c : options.t) : bool :=
  match f with
  | flag.WITHTEMPDIR => options.WITHTEMPDIR c
  | flag.REBUILD => options.REBUILD c
  | flag.ASSEMBLE_IMAGE => options.ASSEMBLE_IMAGE c
  | flag.SLICE_IMAGE => options.SLICE_IMAGE c
  | flag.GENERATE_MASK_TILES => options.GENERATE_MASK_TILES c
  | flag.REMOVE_LAND => options.REMOVE_LAND c
  | flag.REMOVE_CLOUDS => options.REMOVE_CLOUDS c
  | flag.REJECT_TILES => options.REJECT_TILES c
  | flag.BUILD_MANIFEST => options.BUILD_MANIFEST c
  | flag.VISUALIZE_SORT => options.VISUALIZE_SORT c
  | flag.ANNOTATE => options.ANNOTATE c
  end.

(** The options that turn a switch on. *)
Definition enables (f : flag.t) : list string :=
  match f with
  | flag.WITHTEMPDIR => ["--full"]
  | flag.REBUILD => ["--full"; "--clean"]
  | flag.ASSEMBLE_IMAGE => ["--full"; "--assemble"; "--generate"]
  | flag.SLICE_IMAGE => ["--full"; "--generate-tiles"; "--generate"]
  | flag.GENERATE_MASK_TILES => ["--full"; "--sort-tiles"; "--generate-mask"]
  | flag.REMOVE_LAND =>
      ["--full"; "--sort-tiles"; "--remove-land"; "--remove-all"]
  | flag.REMOVE_CLOUDS =>
      ["--full"; "--sort-tiles"; "--remove-clouds"; "--remove-all"]
  | flag.REJECT_TILES => ["--full"; "--sort-tiles"; "--reject"]
  | flag.BUILD_MANIFEST => ["--full"; "--manifest"]
  | flag.VISUALIZE_SORT => ["--full"; "--visualize"]
  | flag.ANNOTATE => ["--annotate"]
  end.

(** [arg] is one of [words]. *)
Definition one_of (words : list string) (arg : string) : bool :=
  existsb (String.eqb arg) words.

(** The command line holds an option that turns the switch on. *)
Definition switched_on (f : flag.t) (argv : list string) : bool :=
  existsb (one_of (enables f)) argv.

(** The numeric settings of the configuration. *)
Module number.
Inductive t : Type :=
  | GRID_SIZE | LAND_THRESHHOLD | LAND_SENSITIVITY | CLOUD_THRESHHOLD
  | CLOUD_SENSITIVITY.
End number.

Definition number_value (n : number.t) (c : options.t) : Z :=
  match n with
  | number.GRID_SIZE => options.GRID_SIZE c
  | number.LAND_THRESHHOLD => options.LAND_THRESHHOLD c
  | number.LAND_SENSITIVITY => options.LAND_SENSITIVITY c
  | number.CLOUD_THRESHHOLD => options.CLOUD_THRESHHOLD c
  | number.CLOUD_SENSITIVITY => options.CLOUD_SENSITIVITY c
  end.

(** The option that sets a numeric setting, up to and with its [=]. *)
Definition number_option (n : number.t) : string :=
  match n with
  | number.GRID_SIZE => "--grid-size="
  | number.LAND_THRESHHOLD => "--land-threshhold="
  | number.LAND_SENSITIVITY => "--land-sensitivity="
  | number.CLOUD_THRESHHOLD => "--cloud-threshhold="
  | number.CLOUD_SENSITIVITY => "--cloud-sensitivity="
  end.

(** [s] without its first [n] characters. *)
Fixpoint drop_chars (n : nat) (s : string) : string :=
  match n, s with
  | S n', String _ s' => drop_chars n' s'
  | _, _ => s
  end.

(** The text that an argument gives to the option [prefix]: what follows
    the prefix, up to the next [=]. *)
Definition option_text (prefix arg : string) : option string :=
  if String.prefix prefix arg
  then Some (before "=" (drop_chars (String.length prefix) arg))
  else None.

(** The text of the last argument that gives one to the option [prefix]. *)
Definition last_text (prefix : string) (argv : list string) : option string :=
  last (omap (option_text prefix) argv).

(** The arguments that the loop of [parse_options] knows: the name of the
    script, the help options, the switches and the options with a value. *)
Definition known_words : list string :=
  ["simple.py"; "--help"; "-?"; "--full"; "--assemble"; "--generate-tiles";
   "--generate"; "--clean"; "--sort-tiles"; "--generate-mask"; "--remove-land";
   "--remove-clouds"; "--remove-all"; "--visualize"; "--reject"; "--manifest";
   "--annotate"].

Definition value_options : list string :=
  ["--grid-size="; "--land-threshhold="; "--land-sensitivity=";
   "--cloud-threshhold="; "--cloud-sensitivity="; "--label="; "--name="].

Definition recognised (arg : string) : bool :=
  one_of known_words arg || existsb (λ p, String.prefix p arg) value_options.

(** An argument that is taken for the scene directory. *)
Definition positional (arg : string) : bool := negb (recognised arg).

(** The configuration that [main] starts from is the one that
    [parse_options] has left: both records are views of the same [config]
    object. *)
Definition configured (o : options.t) (c : Config) : Prop :=
  options.SCENE_NAME o = Some (config.SCENE_NAME c) ∧
  options.SCENE_DIR o = config.SCENE_DIR c ∧
  options.INPUT_FILE o = config.INPUT_FILE c ∧
  options.METADATA_SRC o = config.METADATA_SRC c ∧
  options.JSON_SRC o = config.JSON_SRC c ∧
  options.GRID_SIZE o = config.GRID_SIZE c ∧
  options.LABEL o = config.LABEL c ∧
  options.REBUILD o = config.REBUILD c ∧
  options.ASSEMBLE_IMAGE o = config.ASSEMBLE_IMAGE c ∧
  options.SLICE_IMAGE o = config.SLICE_IMAGE c ∧
  options.REJECT_TILES o = config.REJECT_TILES c ∧
  options.BUILD_MANIFEST o = config.BUILD_MANIFEST c ∧
  options.ANNOTATE o = config.ANNOTATE c.

(** The numeric settings, all of them. *)
Definition numbers : list number.t :=
  [number.GRID_SIZE; number.LAND_THRESHHOLD; number.LAND_SENSITIVITY;
   number.CLOUD_THRESHHOLD; number.CLOUD_SENSITIVITY].

(** Every number that the argument gives is one that [int] reads. *)
Definition well_formed (arg : string) : bool :=
  forallb (λ n, match option_text (number_option n) arg with
                | Some v => is_ok (Py.int v)
                | None => true
                end) numbers.

(** ** A stub scene *)

(** Collaborators that stand in for the image, file and metadata modules:
    a scene of 5490 by 5490 pixels cut into tiles of 1000 pixels, of which
    the slicer leaves three; the statistics are (land, cloud) percentages. *)
Module Stub.

Record files : Type := mk_files {
  scratch : bool;
  tiles : list string;
}.

Definition stub_effect (e : call) (fs : files) : files :=
  match e with
  | build_scratch _ => mk_files true []
  | prepare_tiles _ =>
      mk_files (scratch fs) ["tile_0.png"; "tile_1.png"; "tile_7.png"]
  | _ => fs
  end.

Definition stub_dimensions (fs : files) (path : string) : Z * Z :=
  if String.eqb path "input/foo/B02.jp2" then (5490, 5490) else (1000, 1000).

Definition stub_statistics (fs : files) (path : string) : list pyval :=
  if String.eqb path "scratch/scene/tile_1.png" then [VInt 5; VInt 80]
  else [VInt 5; VInt 20].

Definition stub_listing (fs : files) (directory extension : string)
  : list string :=
  if String.eqb directory "scratch/scene" then tiles fs else [].

Definition stub_metadata (fs : files) (scene_dir metadata_src json_src : string)
  : record :=
  <["sensing_time" := VStr "2017-03-01"]> (<["cloud_cover" := VOther "12.5"]> ∅).

Definition stub_coordinates (row column width height : Z) (c : Config)
  : record :=
  <["#tile_left" := VInt (column * config.GRID_SIZE c)]>
  (<["#tile_top" := VInt (row * config.GRID_SIZE c)]> ∅).

#[global] Instance collaborators : Collaborators := {|
  FS := files;
  effect := stub_effect;
  get_dimensions := stub_dimensions;
  get_image_statistics := stub_statistics;
  scratch_exists := λ fs _, scratch fs;
  get_files_by_extension := stub_listing;
  parse_metadata := stub_metadata;
  compute_coordinate_metadata := stub_coordinates;
|}.

(** The configuration left by
    [simple.py --generate-tiles --reject --manifest --name=20QPD input/foo]. *)
Definition scene : Config :=
  config.mk "20QPD" "input/foo" "input/foo/B02.jp2" "input/foo/metadata.xml"
    "input/foo/tileInfo.json" "scratch" 1000 "" false false true true true
    false 0 0 ∅ "" "" "" "".

(** The same scene once [main] has recorded its dimensions and metadata. *)
Definition scene_ready : Config :=
  config.set_METADATA (config.set_dimensions scene (5490, 5490))
    (stub_metadata (mk_files true []) "" "" "").

(** A world in which the scratch directory is there and holds three tiles. *)
Definition sliced : files :=
  mk_files true ["tile_0.png"; "tile_1.png"; "tile_7.png"].

(** The stub scene under other command lines: slicing, tile routing and the
    manifest switched on or off. *)
Definition scene_with (slice reject manifest : bool) : Config :=
  config.mk "20QPD" "input/foo" "input/foo/B02.jp2" "input/foo/metadata.xml"
    "input/foo/tileInfo.json" "scratch" 1000 "" false false slice reject
    manifest false 0 0 ∅ "" "" "" "".

(** A scratch directory in which a stray file lies among the tiles. *)
Definition littered : files :=
  mk_files true ["tile_0.png"; "notes.png"; "tile_7.png"].

(** At most [threshold] per cent of land, respectively of cloud. *)
Definition land_rule (threshold : Z) : rule :=
  λ statistics,
    match statistics with
    | [VInt land; VInt cloud] => (land <=? threshold)%Z
    | _ => false
    end.

Definition cloud_rule (threshold : Z) : rule :=
  λ statistics,
    match statistics with
    | [VInt land; VInt cloud] => (cloud <=? threshold)%Z
    | _ => false
    end.

(** A heap with the candidates at location 0 and the reject accumulator at
    location 1. *)
Definition two_lists (candidates rejects : list string) : store :=
  mk_store (<[0%nat := candidates]> (<[1%nat := rejects]> ∅)) [].

(** The configuration object before the command line is read: every
    switch off, tiles of 1000 pixels, no scene name. *)
Definition defaults : options.t :=
  options.mk false false false false false false false false false false
    false 1000 0 0 0 0 "" None "" "" "" "" "".

(** The command line of the comment at the head of the script. *)
Definition command_line : list string :=
  ["simple.py"; "--clean"; "--assemble"; "--generate-tiles"; "--reject";
   "--manifest"; "--label=Before"; "--annotate"; "--name=20QPD"; "input/foo"].

(** A stand-in for [find_scene_name]. *)
Definition stub_scene_name (o : options.t) : option string := Some "20QPD".

(** The configuration object as [main] reads it when [parse_options] has
    left [o], in the stub scene: the scratch directory is [scratch], and
    there are no dimensions, metadata or channels yet. *)
Definition configuration (o : options.t) : Config :=
  config.mk (default "" (options.SCENE_NAME o)) (options.SCENE_DIR o)
    (options.INPUT_FILE o) (options.METADATA_SRC o) (options.JSON_SRC o)
    "scratch" (options.GRID_SIZE o) (options.LABEL o) (options.REBUILD o)
    (options.ASSEMBLE_IMAGE o) (options.SLICE_IMAGE o)
    (options.REJECT_TILES o) (options.BUILD_MANIFEST o) (options.ANNOTATE o)
    0 0 ∅ "" "" "" "".

End Stub.

#[global] Arguments Py.path_join : simpl never.
#[global] Arguments Py.str : simpl never.

(** * Properties *)

(** ** Strings *)

Lemma append_cons c s r : String c s ++ r = String c (s ++ r).
Proof. done. Qed.

Lemma append_nil r : "" ++ r = r.
Proof. done. Qed.

Lemma append_nil_r s : s ++ "" = s.
Proof. induction s as [|c s IH]; [done|]. by rewrite append_cons, IH. Qed.

Lemma split_before_after sep s :
  Py.split sep s =
  before sep s :: match after sep s with
                  | Some r => Py.split sep r
                  | None => []
                  end.
Proof.
  induction s as [|c s IH]; simpl; [done|].
  destruct (Ascii.eqb c sep); [done|].
  rewrite IH. by destruct (after sep s).
Qed.

Lemma before_idem sep s : before sep (before sep s) = before sep s.
Proof.
  induction s as [|c s IH]; simpl; [done|].
  destruct (Ascii.eqb c sep) eqn:E; simpl; [done|]. by rewrite E, IH.
Qed.

Lemma before_comm a b s : before a (before b s) = before b (before a s).
Proof.
  induction s as [|c s IH]; simpl; [done|].
  destruct (Ascii.eqb c b) eqn:Eb, (Ascii.eqb c a) eqn:Ea; simpl;
    rewrite ?Ea, ?Eb; try done. by rewrite IH.
Qed.

Lemma before_app sep p r :
  contains sep p = false → before sep (p ++ r) = p ++ before sep r.
Proof.
  induction p as [|c p IH]; simpl; [done|].
  intros [E1 E2]%orb_false_elim. rewrite E1. by rewrite IH.
Qed.

Lemma before_no_sep sep p : contains sep p = false → before sep p = p.
Proof.
  induction p as [|c p IH]; simpl; [done|].
  intros [E1 E2]%orb_false_elim. rewrite E1. by rewrite IH.
Qed.

Lemma after_app sep p r :
  contains sep p = false → after sep (p ++ String sep r) = Some r.
Proof.
  induction p as [|c p IH]; simpl.
  - by rewrite Ascii.eqb_refl.
  - intros [E1 E2]%orb_false_elim. rewrite E1. by apply IH.
Qed.

Lemma after_None sep s : after sep s = None ↔ contains sep s = false.
Proof.
  induction s as [|c s IH]; simpl; [done|].
  destruct (Ascii.eqb c sep); simpl; [split; done | done].
Qed.

(** The index expression of [index_to_location], read off the file name. *)
Lemma tile_index_segment filename :
  tile_index filename =
  match index_segment filename with
  | Some num => Py.int num
  | None => Raise IndexError
  end.
Proof.
  unfold tile_index, index_segment.
  rewrite split_before_after. unfold Py.index at 1. simpl.
  destruct (after "_" filename) as [r|]; simpl; [|done].
  rewrite (split_before_after "_" r). simpl.
  rewrite split_before_after. simpl.
  by rewrite before_comm.
Qed.

(** ** Numerals *)

Lemma is_digit_cases c :
  is_digit c = true →
  c ∈ ["0"; "1"; "2"; "3"; "4"; "5"; "6"; "7"; "8"; "9"]%char.
Proof.
  destruct c as [[] [] [] [] [] [] [] []]; vm_compute; intros ?;
    first [ discriminate | set_solver ].
Qed.

Lemma digit_not_space c : is_digit c = true → Py.isspace c = false.
Proof.
  intros Hc%is_digit_cases.
  repeat (apply elem_of_cons in Hc as [->|Hc]; [done|]). by apply elem_of_nil in Hc.
Qed.

Lemma digit_not_sep c sep :
  is_digit c = true → is_digit sep = false → Ascii.eqb c sep = false.
Proof.
  intros Hc Hs. destruct (Ascii.eqb_spec c sep) as [->|]; congruence.
Qed.

Lemma numeral_contains sep s :
  all_digits s = true → is_digit sep = false → contains sep s = false.
Proof.
  intros Hs Hsep. induction s as [|c s IH]; simpl in *; [done|].
  apply andb_true_iff in Hs as [Hc Hs].
  by rewrite (digit_not_sep _ _ Hc Hsep), IH.
Qed.

Lemma lstrip_numeral s : all_digits s = true → Py.lstrip s = s.
Proof.
  destruct s as [|c s]; simpl; [done|].
  intros [Hc _]%andb_true_iff. by rewrite digit_not_space.
Qed.

Lemma rstrip_numeral s : all_digits s = true → Py.rstrip s = s.
Proof.
  induction s as [|c s IH]; simpl; [done|].
  intros [Hc Hs]%andb_true_iff. rewrite IH by done.
  rewrite digit_not_space by done. by destruct s.
Qed.

Lemma uint_of_numeral s :
  all_digits s = true → is_Some (NilEmpty.uint_of_string s).
Proof.
  induction s as [|c s IH]; simpl; [by eexists|].
  intros [Hc Hs]%andb_true_iff. destruct (IH Hs) as [d ->].
  apply is_digit_cases in Hc.
  repeat (apply elem_of_cons in Hc as [->|Hc]; [by eexists|]).
  by apply elem_of_nil in Hc.
Qed.

(** [int] accepts every numeral and reads it in base ten. *)
Lemma int_numeral s :
  numeral s → ∃ n, Py.digits_value s = Some n ∧ Py.int s = Ok n.
Proof.
  intros [Hne Hd]. unfold Py.int, Py.strip.
  rewrite lstrip_numeral, rstrip_numeral by done.
  destruct s as [|c s]; [done|].
  assert (Py.digits_value (String c s) = Some (Z.of_uint (default Decimal.Nil (NilEmpty.uint_of_string (String c s))))) as Hv.
  { unfold Py.digits_value, NilZero.uint_of_string.
    by destruct (uint_of_numeral _ Hd) as [d ->]. }
  eexists. split; [exact Hv|].
  simpl in Hd. apply andb_true_iff in Hd as [Hc _].
  apply is_digit_cases in Hc.
  repeat (apply elem_of_cons in Hc as [->|Hc]; [by rewrite Hv|]).
  by apply elem_of_nil in Hc.
Qed.

Lemma all_digits_string_of_uint d :
  all_digits (NilEmpty.string_of_uint d) = true.
Proof. induction d; simpl; done. Qed.

Lemma str_numeral n : 0 <= n → numeral (Py.str n).
Proof.
  intros Hn. unfold Py.str, numeral.
  destruct n as [|p|p]; [done| |lia]. simpl.
  pose proof (DecimalPos.Unsigned.to_uint_nonnil p) as Hnil.
  unfold NilZero.string_of_uint.
  destruct (Pos.to_uint p) eqn:E; try done;
    (split; [done | rewrite <- E at 1; simpl; apply (all_digits_string_of_uint (_ _))]).
Qed.

(** [int(str(n)) = n] for a non-negative [n]. *)
Lemma int_str n : 0 <= n → Py.int (Py.str n) = Ok n.
Proof.
  intros Hn. destruct (int_numeral _ (str_numeral n Hn)) as (m & Hv & ->).
  f_equal. unfold Py.digits_value, Py.str in Hv.
  destruct n as [|p|p]; [by inversion Hv| |lia]. simpl in Hv.
  rewrite NilZero.usu in Hv by apply DecimalPos.Unsigned.to_uint_nonnil.
  simpl in Hv. inversion Hv as [Hm]. unfold Z.of_uint.
  by rewrite DecimalPos.Unsigned.of_to.
Qed.

(** ** Grid addressing *)

Lemma tiles_per_row_ok width grid_size :
  grid_size ≠ 0 → tiles_per_row width grid_size = Ok (width / grid_size + 1).
Proof. intros Hg. unfold tiles_per_row, Py.floordiv. by case_decide. Qed.

Lemma tiles_per_row_zero width :
  tiles_per_row width 0 = Raise ZeroDivisionError.
Proof. done. Qed.

(** The value of [index_to_location] once the index has been read. *)
Lemma index_to_location_unfold filename width grid_size :
  grid_size ≠ 0 →
  index_to_location filename width grid_size =
  idx ← tile_index filename;
  if decide (width / grid_size + 1 = 0) then Raise ZeroDivisionError
  else Ok (idx / (width / grid_size + 1), idx mod (width / grid_size + 1)).
Proof.
  intros Hg. unfold index_to_location. rewrite tiles_per_row_ok by done.
  simpl. destruct (tile_index filename) as [idx|e]; simpl; [|done].
  unfold Py.floordiv, Py.mod_. by case_decide.
Qed.

Lemma index_to_location_ok filename idx width grid_size :
  tile_index filename = Ok idx →
  grid_size ≠ 0 → width / grid_size + 1 ≠ 0 →
  index_to_location filename width grid_size =
  Ok (idx / (width / grid_size + 1), idx mod (width / grid_size + 1)).
Proof.
  intros Hidx Hg Hrow. rewrite index_to_location_unfold, Hidx by done.
  simpl. by case_decide.
Qed.

(** A name [<prefix>_<num>.<ext>] hands [num] to [int], whatever [ext] is. *)
Lemma index_segment_pattern prefix num ext :
  contains "_" prefix = false → all_digits num = true →
  index_segment (prefix ++ "_" ++ num ++ "." ++ ext) = Some num.
Proof.
  intros Hp Hn. unfold index_segment.
  rewrite !append_cons, !append_nil, after_app by done. simpl. f_equal.
  rewrite before_comm, before_app by (by apply numeral_contains).
  simpl. rewrite append_nil_r.
  apply before_no_sep. by apply numeral_contains.
Qed.

Lemma tile_index_pattern prefix num ext :
  contains "_" prefix = false → numeral num →
  tile_index (prefix ++ "_" ++ num ++ "." ++ ext) = Py.int num.
Proof.
  intros Hp [_ Hn]. by rewrite tile_index_segment, index_segment_pattern.
Qed.

Lemma tile_index_str idx ext :
  0 <= idx → tile_index ("tile_" ++ Py.str idx ++ "." ++ ext) = Ok idx.
Proof.
  intros Hidx.
  rewrite <- (int_str idx Hidx).
  apply (tile_index_pattern "tile"); [done | by apply str_numeral].
Qed.

Lemma width_outside_gap width grid_size :
  0 < grid_size → ¬ (- grid_size <= width < 0) → width / grid_size + 1 ≠ 0.
Proof.
  intros Hg Hw Hz.
  assert (width / grid_size = -1) as Hq by lia.
  pose proof (Z.mul_div_le width grid_size Hg).
  pose proof (Z.mul_succ_div_gt width grid_size Hg).
  rewrite Hq in *. lia.
Qed.

(** C1.  For every tile index [idx >= 0], every [grid_size > 0] and every
    width of a scene, [index_to_location] applied to a file name that
    encodes [idx], [tile_<idx>.<ext>], returns [row = idx // tiles_per_row]
    and [column = idx % tiles_per_row] with
    [tiles_per_row = width // grid_size + 1], and
    [row * tiles_per_row + column = idx].  The result is a function of the
    arguments.  A width in pixels is not negative; the statement asks less,
    that the width is not in [-grid_size <= width < 0]. *)
Theorem index_to_location_grid (idx width grid_size : Z) (ext : string) :
  0 <= idx → 0 < grid_size → ¬ (- grid_size <= width < 0) →
  let per_row := width / grid_size + 1 in
  let row := idx / per_row in
  let column := idx mod per_row in
  tiles_per_row width grid_size = Ok per_row ∧
  index_to_location ("tile_" ++ Py.str idx ++ "." ++ ext) width grid_size
    = Ok (row, column) ∧
  row * per_row + column = idx.
Proof.
  intros Hidx Hg Hw per_row row column.
  assert (per_row ≠ 0) as Hrow by by apply width_outside_gap.
  split; [apply tiles_per_row_ok; lia|]. split.
  - apply index_to_location_ok; [by apply tile_index_str | lia | done].
  - subst row column. rewrite Z.mul_comm. symmetry. by apply Z.div_mod.
Qed.

(** The scene of the end-to-end scenario: 5490 pixels wide, tiles of 1000
    pixels, six tiles per row, tile 7 in row 1 and column 1. *)
Lemma index_to_location_grid_witness :
  (0 <= 7 ∧ 0 < 1000 ∧ ¬ (- 1000 <= 5490 < 0)) ∧
  tiles_per_row 5490 1000 = Ok 6 ∧
  index_to_location "tile_7.png" 5490 1000 = Ok (1, 1) ∧
  1 * 6 + 1 = 7.
Proof.
  split; [lia|].
  apply (index_to_location_grid 7 5490 1000 "png"); lia.
Defined.

(** C7, as amended.  With [grid_size = 0] [index_to_location] raises
    [ZeroDivisionError] at once, whatever the file name and the width.  With
    [grid_size < 0] nothing stops it: the index is read from the file name,
    and unless [width // grid_size + 1] is zero the result is
    [[idx // per_row, idx % per_row]] as for a positive grid size.  No
    [InvalidConfiguration] error exists. *)
Theorem index_to_location_nonpositive_grid (filename : string)
    (width grid_size : Z) :
  grid_size <= 0 →
  (grid_size = 0 →
   index_to_location filename width grid_size = Raise ZeroDivisionError) ∧
  (grid_size < 0 →
   index_to_location filename width grid_size =
   idx ← tile_index filename;
   if decide (width / grid_size + 1 = 0) then Raise ZeroDivisionError
   else Ok (idx / (width / grid_size + 1), idx mod (width / grid_size + 1))).
Proof.
  intros _. split.
  - by intros ->.
  - intros Hg. apply index_to_location_unfold. lia.
Qed.

Lemma index_to_location_nonpositive_grid_witness :
  0 <= 0 ∧
  index_to_location "not a tile name" 5490 0 = Raise ZeroDivisionError.
Proof.
  split; [lia|].
  by apply (index_to_location_nonpositive_grid "not a tile name" 5490 0).
Defined.

(** C7 as stated fails for a negative grid size: with [width = 5490] and
    [grid_size = -1000] there are [5490 // -1000 + 1 = -5] tiles per row and
    tile 7 is given row [7 // -5 = -2] and column [7 % -5 = -3]. *)
Lemma index_to_location_negative_grid :
  -1000 <= 0 ∧ index_to_location "tile_7.png" 5490 (-1000) = Ok (-2, -3).
Proof. split; [lia | reflexivity]. Qed.

Lemma index_segment_to_stop filename :
  index_segment filename = before "_" <$> segment_to_stop filename.
Proof.
  unfold index_segment, segment_to_stop.
  destruct (after "_" filename) as [r|]; simpl; [|done].
  by rewrite before_comm.
Qed.

(** C10, as amended.  [index_to_location] reads the file name only through
    what follows its first underscore up to the next full stop, and of that
    text it hands to [int] the part before any further underscore.  A name
    [<prefix>_<n>.<ext>] with [n] a decimal numeral gives the location of
    index [n], whatever the extension; the index expression raises
    [IndexError] exactly when the name has no underscore and otherwise
    raises [ValueError] exactly when [int] rejects that part, so for names
    of the form [tile_<index>.<ext>] it does not fail. *)
Theorem index_to_location_filename (filename other prefix num ext : string)
    (width grid_size : Z) :
  contains "_" prefix = false → numeral num →
  segment_to_stop other = segment_to_stop filename →
  index_to_location other width grid_size
    = index_to_location filename width grid_size ∧
  (tile_index filename = Raise IndexError ↔ contains "_" filename = false) ∧
  (∀ seg, index_segment filename = Some seg →
          tile_index filename = Py.int seg) ∧
  ∃ n, Py.digits_value num = Some n ∧
       tile_index (prefix ++ "_" ++ num ++ "." ++ ext) = Ok n ∧
       index_to_location (prefix ++ "_" ++ num ++ "." ++ ext) width grid_size
       = (per_row ← tiles_per_row width grid_size;
          row ← Py.floordiv n per_row;
          col ← Py.mod_ n per_row;
          Ok (row, col)).
Proof.
  intros Hp Hn Hseg. repeat split.
  - unfold index_to_location.
    by rewrite !tile_index_segment, !index_segment_to_stop, Hseg.
  - rewrite tile_index_segment. unfold index_segment.
    destruct (after "_" filename) as [r|] eqn:E; simpl.
    + intros Hint. unfold Py.int in Hint. by destruct (match Py.strip _ with "" => _ | _ => _ end).
    + intros _. by apply after_None.
  - intros Hc. apply after_None in Hc.
    rewrite tile_index_segment. unfold index_segment. by rewrite Hc.
  - intros seg Hs. by rewrite tile_index_segment, Hs.
  - destruct (int_numeral num Hn) as (n & Hv & Hint).
    exists n. rewrite tile_index_pattern, Hint by done.
    split; [done|]. split; [done|].
    unfold index_to_location. by rewrite tile_index_pattern, Hint.
Qed.

Lemma index_to_location_filename_witness :
  (contains "_" "tile" = false ∧ numeral "7" ∧
   segment_to_stop "scene_7.jp2" = segment_to_stop "tile_7.png") ∧
  index_to_location "scene_7.jp2" 5490 1000
    = index_to_location "tile_7.png" 5490 1000 ∧
  tile_index "tile_7.png" = Ok 7.
Proof.
  assert (numeral "7") as Hn by (split; [discriminate | reflexivity]).
  split; [split; [reflexivity | split; [exact Hn | reflexivity]]|].
  destruct (index_to_location_filename "tile_7.png" "scene_7.jp2" "tile" "7"
              "png" 5490 1000 eq_refl Hn eq_refl)
    as (Hsame & _ & _ & n & Hv & Hidx & _).
  split; [exact Hsame|].
  injection Hv as <-. exact Hidx.
Defined.

(** C10 as stated fails for a name with a second underscore before the full
    stop: in [tile_7_extra.png] the text between the first underscore and
    the next full stop is [7_extra], which is no decimal integer ([int]
    rejects it), and still the index is read as 7. *)
Lemma index_to_location_second_underscore :
  segment_to_stop "tile_7_extra.png" = Some "7_extra" ∧
  Py.int "7_extra" = Raise ValueError ∧
  ¬ numeral "7_extra" ∧
  tile_index "tile_7_extra.png" = Ok 7 ∧
  index_to_location "tile_7_extra.png" 5490 1000 = Ok (1, 1).
Proof.
  repeat split; try reflexivity. by intros [_ ?].
Qed.

(** ** The manifest record builder *)

Section Record_builder.
Context `{Collaborators}.

(** After [d.update(other)] a key reads as in [other] if [other] has it and
    as in [d] otherwise. *)
Lemma lookup_update (d other : record) (key : string) :
  update d other !! key =
  match other !! key with
  | Some v => Some v
  | None => d !! key
  end.
Proof.
  unfold update. rewrite lookup_union.
  by destruct (other !! key), (d !! key).
Qed.

Lemma dom_update (d other : record) : dom (update d other) = dom d ∪ dom other.
Proof. unfold update. by rewrite dom_union_L, (comm_L (∪)). Qed.

Lemma dom_identity_fields filename reason row column width height :
  dom (identity_fields filename reason row column width height)
  = identity_keys.
Proof.
  unfold identity_fields, identity_keys.
  rewrite !dom_insert_L, dom_empty_L. set_solver.
Qed.

Lemma build_dict_for_csv_unfold fs filename reason c :
  build_dict_for_csv fs filename reason c =
  let dims :=
    get_dimensions fs (Py.path_join (config.SCRATCH_PATH c) ["scene"; filename]) in
  '(row, column) ← index_to_location filename (config.width c) (config.GRID_SIZE c);
  Ok (update
        (update (identity_fields filename reason row column dims.1 dims.2)
           (compute_coordinate_metadata row column dims.1 dims.2 c))
        (config.METADATA c)).
Proof.
  unfold build_dict_for_csv.
  destruct (get_dimensions _ _) as [width height]; simpl.
  by destruct (index_to_location _ _ _) as [[row column]|e].
Qed.

(** C5.  [build_dict_for_csv] takes (row, column) from grid addressing on
    the scene's recorded [config.width] and [config.GRID_SIZE]; the tile's
    own dimensions, read by [get_dimensions], only fill [#width] and
    [#height].  When grid addressing raises, so does the builder.  Otherwise
    the record is made of the seven identity fields, then the coordinate
    block, then the scene metadata: a key reads as in the metadata if the
    metadata has it, else as in the coordinate block if that has it, else as
    in the identity fields. *)
Theorem build_dict_for_csv_precedence (fs : FS) (filename reason : string)
    (c : Config) :
  let dims :=
    get_dimensions fs (Py.path_join (config.SCRATCH_PATH c) ["scene"; filename]) in
  match index_to_location filename (config.width c) (config.GRID_SIZE c) with
  | Raise e => build_dict_for_csv fs filename reason c = Raise e
  | Ok (row, column) =>
      let identity :=
        identity_fields filename reason row column dims.1 dims.2 in
      let coordinates :=
        compute_coordinate_metadata row column dims.1 dims.2 c in
      dom identity = identity_keys ∧
      identity !! "#filename1" = Some (VStr ("after_" ++ filename)) ∧
      identity !! "#filename2" = Some (VStr ("before_" ++ filename)) ∧
      identity !! "#reason" = Some (VStr reason) ∧
      identity !! "#row" = Some (VInt row) ∧
      identity !! "#column" = Some (VInt column) ∧
      identity !! "#width" = Some (VInt dims.1) ∧
      identity !! "#height" = Some (VInt dims.2) ∧
      ∃ d, build_dict_for_csv fs filename reason c = Ok d ∧
           ∀ key, d !! key =
                  match config.METADATA c !! key with
                  | Some v => Some v
                  | None =>
                      match coordinates !! key with
                      | Some v => Some v
                      | None => identity !! key
                      end
                  end
  end.
Proof.
  intros dims. rewrite build_dict_for_csv_unfold. fold dims.
  destruct (index_to_location _ _ _) as [[row column]|e]; simpl; [|done].
  split; [apply dom_identity_fields|].
  repeat (split; [done|]).
  eexists. split; [done|]. intros key. by rewrite !lookup_update.
Qed.

(** C6.  Within one run, that is for one configuration (and so one scene
    metadata mapping) and a coordinate mapper whose block always has the same
    keys, all records built by [build_dict_for_csv] have the same key set,
    whichever tile and reason they are built for: the identity keys, the
    coordinate keys and the metadata keys. *)
Theorem build_dict_for_csv_schema (coordinate_keys : gset string)
    (fs1 fs2 : FS) (filename1 filename2 reason1 reason2 : string)
    (c : Config) (d1 d2 : record) :
  (∀ row column width height,
     dom (compute_coordinate_metadata row column width height c)
     = coordinate_keys) →
  build_dict_for_csv fs1 filename1 reason1 c = Ok d1 →
  build_dict_for_csv fs2 filename2 reason2 c = Ok d2 →
  dom d1 = identity_keys ∪ coordinate_keys ∪ dom (config.METADATA c) ∧
  dom d1 = dom d2.
Proof.
  intros Hkeys.
  assert (∀ fs filename reason d,
            build_dict_for_csv fs filename reason c = Ok d →
            dom d = identity_keys ∪ coordinate_keys ∪ dom (config.METADATA c))
    as Hdom.
  { intros fs filename reason d. rewrite build_dict_for_csv_unfold. simpl.
    destruct (index_to_location _ _ _) as [[row column]|e]; simpl; [|done].
    intros [= <-]. by rewrite !dom_update, dom_identity_fields, Hkeys. }
  intros H1 H2. split; [by eapply Hdom|].
  by rewrite (Hdom _ _ _ _ H1), (Hdom _ _ _ _ H2).
Qed.

End Record_builder.


(** ** The batch classifier *)

Lemma first_failing_None rules statistics :
  first_failing rules statistics = None ↔
  ∀ r : rule, r ∈ rules → r statistics = true.
Proof.
  induction rules as [|r rules IH]; simpl.
  - split; [|done]. intros _ r Hin. by apply elem_of_nil in Hin.
  - destruct (r statistics) eqn:Er.
    + rewrite fmap_None, IH. split.
      * intros Hall r' [->|Hin]%elem_of_cons; auto.
      * intros Hall r' Hin. apply Hall. by right.
    + split; [done|]. intros Hall.
      assert (r statistics = true) by (apply Hall; by left). congruence.
Qed.

Lemma first_failing_passes rules statistics :
  passes rules statistics = true ↔ first_failing rules statistics = None.
Proof.
  unfold passes. induction rules as [|r rules IH]; simpl; [done|].
  destruct (r statistics); simpl; [|done]. by rewrite IH, fmap_None.
Qed.

Lemma first_failing_Some rules statistics k :
  first_failing rules statistics = Some k →
  ∃ r : rule,
    rules !! k = Some r ∧ r statistics = false ∧
    ∀ (j : nat) (r' : rule),
      (j < k)%nat → rules !! j = Some r' → r' statistics = true.
Proof.
  revert k. induction rules as [|r rules IH]; simpl; [done|]. intros k.
  destruct (r statistics) eqn:Er.
  - destruct (first_failing rules statistics) as [k'|] eqn:Ek; [|done].
    intros [= <-]. destruct (IH k' eq_refl) as (rule & Hk & Hf & Hbefore).
    exists rule. repeat split; [done..|].
    intros [|j] rule' Hj; simpl; [by intros [= <-]|].
    apply Hbefore. lia.
  - intros [= <-]. exists r. repeat split; [done..|]. intros; lia.
Qed.

(** The inner loop calls the rules in list order up to the first one that
    does not hold, and then appends the file name to [rejects]. *)
Lemma rule_loop_first_failing rules position statistics filename rejects σ :
  rule_loop rules position statistics filename rejects σ =
  match first_failing rules statistics with
  | None =>
      (false,
       mk_store (heap σ)
         (calls σ ++ rule_calls position (length rules) statistics)%list)
  | Some k =>
      (true,
       mk_store (<[rejects := (deref σ rejects ++ [filename])%list]> (heap σ))
         (calls σ ++ rule_calls position (S k) statistics)%list)
  end.
Proof.
  revert position σ. induction rules as [|r rules IH]; intros position σ; simpl.
  - unfold rule_calls. simpl. rewrite app_nil_r. by destruct σ.
  - destruct (r statistics) eqn:Er; simpl.
    + rewrite IH. unfold emit, rule_calls. simpl.
      destruct (first_failing rules statistics) as [k|]; simpl;
        by rewrite <- app_assoc.
    + done.
Qed.

(** C2, as amended.  For every ordered rule list and every statistics tuple,
    the per-tile loop of [apply_rules] ends with [done = False] (the tile is
    accepted) if and only if every rule, called with the statistics unpacked
    positionally, holds; then all rules have been called, in order, and
    [rejects] is untouched.  Otherwise it stops at the first rule, in list
    order, that does not hold: the rules before it and that rule have been
    called and no later one, and the file name is appended to [rejects].
    What is recorded is the file name alone, neither the rule nor a
    reason. *)
Theorem rule_loop_first_failure (rules : list rule) (statistics : list pyval)
    (filename : string) (rejects : loc) (σ : store) :
  ∃ (done : bool) (σ' : store),
    rule_loop rules 0 statistics filename rejects σ = (done, σ') ∧
    (done = false ↔ ∀ r : rule, r ∈ rules → r statistics = true) ∧
    (done = false →
     heap σ' = heap σ ∧
     calls σ' = (calls σ ++ rule_calls 0 (length rules) statistics)%list) ∧
    (done = true →
     ∃ (k : nat) (r : rule),
       rules !! k = Some r ∧ r statistics = false ∧
       (∀ (j : nat) (r' : rule),
          (j < k)%nat → rules !! j = Some r' → r' statistics = true) ∧
       calls σ' = (calls σ ++ rule_calls 0 (S k) statistics)%list ∧
       heap σ' = <[rejects := (deref σ rejects ++ [filename])%list]> (heap σ)).
Proof.
  rewrite rule_loop_first_failing.
  destruct (first_failing rules statistics) as [k|] eqn:Ek.
  - eexists _, _. split; [done|]. split; [|split; [done|]].
    + split; [done|]. intros Hall%first_failing_None. congruence.
    + intros _. destruct (first_failing_Some _ _ _ Ek) as (rule & Hk & Hf & Hb).
      by exists k, rule.
  - eexists _, _. split; [done|]. split; [|split; [done|done]].
    split; [|done]. intros _. by apply first_failing_None.
Qed.

(** C2 as stated fails on the recorded reason: a tile that fails the land
    rule and a tile that fails the cloud rule leave the same trace in
    [rejects], the file name; the first failing rule is at position 0 in one
    run and at position 1 in the other. *)
Lemma rule_loop_records_no_reason :
  let rules := [Stub.land_rule 10; Stub.cloud_rule 70] in
  let σ := Stub.two_lists [] [] in
  let land_run := rule_loop rules 0 [VInt 50; VInt 20] "tile_1.png" 1 σ in
  let cloud_run := rule_loop rules 0 [VInt 5; VInt 80] "tile_1.png" 1 σ in
  first_failing rules [VInt 50; VInt 20] = Some 0%nat ∧
  first_failing rules [VInt 5; VInt 80] = Some 1%nat ∧
  land_run.1 = true ∧ cloud_run.1 = true ∧
  heap land_run.2 = heap cloud_run.2 ∧
  heap land_run.2 !! 1%nat = Some ["tile_1.png"].
Proof. repeat split; vm_compute; reflexivity. Qed.

Section Classifier.
Context `{Collaborators}.

Variables (fs : FS) (c : Config) (candidates rejects : loc).
Variables (subdirectory : string) (rules : list rule).

Local Abbreviation kept := (accepted fs c subdirectory rules).
Local Abbreviation dropped := (rejected fs c subdirectory rules).

(** The outer loop, entered at position [i] of a list of candidates that is
    not the reject accumulator itself: it ends within [length names - i + 1]
    steps, having gone through the rest of the list in order. *)
Lemma candidates_loop_run (names : list string) (fuel i : nat)
    (accum old : list string) (σ : store) :
  candidates ≠ rejects →
  heap σ !! candidates = Some names →
  heap σ !! rejects = Some old →
  (length names - i < fuel)%nat →
  ∃ σ',
    candidates_loop fuel fs c candidates rejects subdirectory rules i accum σ
    = Some ((accum ++ List.filter kept (drop i names))%list, σ') ∧
    heap σ'
    = <[rejects := (old ++ List.filter dropped (drop i names))%list]> (heap σ).
Proof.
  intros Hne. revert i accum old σ.
  induction fuel as [|fuel IH]; intros i accum old σ Hc Hr Hfuel; [lia|].
  cbn [candidates_loop]. unfold deref at 1. rewrite Hc. cbn [default from_option id].
  destruct (names !! i) as [filename|] eqn:Ei.
  - rewrite (drop_S _ _ _ Ei). cbn [List.filter].
    pose proof (lookup_lt_Some _ _ _ Ei) as Hlt.
    rewrite rule_loop_first_failing.
    unfold rejected.
    destruct (kept filename) eqn:Ea; unfold accepted in Ea.
    + apply first_failing_passes in Ea as ->. cbn [negb].
      edestruct (IH (S i) (accum ++ [filename])%list old) as (σ' & -> & Hσ');
        [done | done | lia |].
      exists σ'. split; [|done]. by rewrite <- app_assoc.
    + destruct (first_failing rules _) as [k|] eqn:Ek;
        [|apply first_failing_passes in Ek; congruence].
      cbn [negb].
      edestruct (IH (S i) accum (old ++ [filename])%list) as (σ' & -> & Hσ').
      * cbn [heap]. by rewrite lookup_insert_ne.
      * cbn [heap]. unfold deref. rewrite Hr. cbn [default from_option id].
        by rewrite lookup_insert_eq.
      * lia.
      * exists σ'. split; [done|]. rewrite Hσ'. cbn [heap].
        unfold deref. rewrite Hr. cbn [default from_option id].
        by rewrite insert_insert_eq, <- app_assoc.
  - apply lookup_ge_None in Ei. rewrite drop_ge by done. cbn [List.filter].
    exists σ. rewrite !app_nil_r. split; [done|]. by rewrite insert_id.
Qed.

(** A whole call: the log line, then the loop from position zero. *)
Lemma apply_rules_run (names old : list string) (fuel : nat) (σ : store) :
  candidates ≠ rejects →
  heap σ !! candidates = Some names →
  heap σ !! rejects = Some old →
  (length names < fuel)%nat →
  ∃ σ',
    apply_rules fuel fs c candidates rejects subdirectory rules σ
    = Some (List.filter kept names, σ') ∧
    heap σ' = <[rejects := (old ++ List.filter dropped names)%list]> (heap σ).
Proof.
  intros Hne Hc Hr Hfuel. unfold apply_rules.
  edestruct (candidates_loop_run names fuel 0 [] old) as (σ' & -> & Hσ');
    [done | exact Hc | exact Hr | lia |].
  by exists σ'.
Qed.

End Classifier.

Section Batches.
Context `{Collaborators}.

(** C3.  [apply_rules] is a stable partition of its candidates.  For every
    list of candidates, every list of rules and every initial content of
    [rejects] (the candidates being a list object of their own), the call
    returns, and the list it returns holds exactly the candidates that pass
    all rules, in input order, while the candidates that fail some rule are
    appended to [rejects], in input order too; the candidates themselves are
    left as they were. *)
Theorem apply_rules_stable_partition (fs : FS) (c : Config)
    (candidates rejects : loc) (subdirectory : string) (rules : list rule)
    (names old : list string) (fuel : nat) (σ : store) :
  candidates ≠ rejects →
  heap σ !! candidates = Some names →
  heap σ !! rejects = Some old →
  (length names < fuel)%nat →
  ∃ σ',
    apply_rules fuel fs c candidates rejects subdirectory rules σ
    = Some (List.filter (accepted fs c subdirectory rules) names, σ') ∧
    heap σ' !! rejects
    = Some (old ++ List.filter (rejected fs c subdirectory rules) names)%list ∧
    heap σ' !! candidates = Some names.
Proof.
  intros Hne Hc Hr Hfuel.
  destruct (apply_rules_run fs c candidates rejects subdirectory rules
              names old fuel σ Hne Hc Hr Hfuel) as (σ' & Hrun & Hheap).
  exists σ'. split; [done|]. rewrite Hheap.
  by rewrite lookup_insert_eq, lookup_insert_ne.
Qed.

(** C8.  [apply_rules] only appends to its [rejects] argument.  A call
    returns with the former content of [rejects] as a prefix of the new one,
    and with every other list object unchanged; a second call that is handed
    the same accumulator appends after what the first call left there, so
    that over the calls of a run the accumulator is one sequence that only
    grows. *)
Theorem apply_rules_appends_only (fs1 fs2 : FS) (c1 c2 : Config)
    (candidates1 candidates2 rejects : loc) (subdirectory1 subdirectory2 : string)
    (rules1 rules2 : list rule) (names1 names2 old : list string)
    (fuel1 fuel2 : nat) (σ : store) :
  candidates1 ≠ rejects → candidates2 ≠ rejects →
  heap σ !! candidates1 = Some names1 →
  heap σ !! candidates2 = Some names2 →
  heap σ !! rejects = Some old →
  (length names1 < fuel1)%nat → (length names2 < fuel2)%nat →
  ∃ accum1 σ1 added1 accum2 σ2 added2,
    apply_rules fuel1 fs1 c1 candidates1 rejects subdirectory1 rules1 σ
    = Some (accum1, σ1) ∧
    heap σ1 !! rejects = Some (old ++ added1)%list ∧
    (∀ l : loc, l ≠ rejects → heap σ1 !! l = heap σ !! l) ∧
    apply_rules fuel2 fs2 c2 candidates2 rejects subdirectory2 rules2 σ1
    = Some (accum2, σ2) ∧
    heap σ2 !! rejects = Some (old ++ added1 ++ added2)%list ∧
    (∀ l : loc, l ≠ rejects → heap σ2 !! l = heap σ !! l).
Proof.
  intros Hne1 Hne2 Hc1 Hc2 Hr Hfuel1 Hfuel2.
  destruct (apply_rules_run fs1 c1 candidates1 rejects subdirectory1 rules1
              names1 old fuel1 σ Hne1 Hc1 Hr Hfuel1) as (σ1 & Hrun1 & Hheap1).
  assert (heap σ1 !! rejects
          = Some (old ++ List.filter (rejected fs1 c1 subdirectory1 rules1)
                           names1)%list) as Hr1
    by (by rewrite Hheap1, lookup_insert_eq).
  assert (∀ l : loc, l ≠ rejects → heap σ1 !! l = heap σ !! l) as Hframe1
    by (intros l Hl; by rewrite Hheap1, lookup_insert_ne).
  assert (heap σ1 !! candidates2 = Some names2) as Hc2'
    by (by rewrite Hframe1).
  destruct (apply_rules_run fs2 c2 candidates2 rejects subdirectory2 rules2
              names2 _ fuel2 σ1 Hne2 Hc2' Hr1 Hfuel2) as (σ2 & Hrun2 & Hheap2).
  eexists _, σ1, _, _, σ2, _.
  split; [exact Hrun1|]. split; [exact Hr1|]. split; [exact Hframe1|].
  split; [exact Hrun2|]. split.
  - by rewrite Hheap2, lookup_insert_eq, <- app_assoc.
  - intros l Hl. rewrite Hheap2, lookup_insert_ne by done. by apply Hframe1.
Qed.

End Batches.

(** The example of three candidates of which the middle one fails a rule. *)
Lemma apply_rules_stable_partition_witness :
  let σ := Stub.two_lists ["tile_0.png"; "tile_1.png"; "tile_7.png"] ["old.png"] in
  let rules := [Stub.land_rule 10; Stub.cloud_rule 70] in
  (0%nat ≠ 1%nat ∧
   heap σ !! 0%nat = Some ["tile_0.png"; "tile_1.png"; "tile_7.png"] ∧
   heap σ !! 1%nat = Some ["old.png"] ∧
   (length ["tile_0.png"; "tile_1.png"; "tile_7.png"] < 4)%nat) ∧
  ∃ σ',
    apply_rules 4 Stub.sliced Stub.scene_ready 0 1 "scene" rules σ
    = Some (["tile_0.png"; "tile_7.png"], σ') ∧
    heap σ' !! 1%nat = Some ["old.png"; "tile_1.png"] ∧
    heap σ' !! 0%nat = Some ["tile_0.png"; "tile_1.png"; "tile_7.png"].
Proof.
  intros σ rules.
  assert (0%nat ≠ 1%nat) as Hne by lia.
  assert (heap σ !! 0%nat = Some ["tile_0.png"; "tile_1.png"; "tile_7.png"])
    as Hc by reflexivity.
  assert (heap σ !! 1%nat = Some ["old.png"]) as Hr by reflexivity.
  assert (length ["tile_0.png"; "tile_1.png"; "tile_7.png"] < 4)%nat
    as Hfuel by (simpl; lia).
  split; [done|].
  exact (@apply_rules_stable_partition Stub.collaborators Stub.sliced
           Stub.scene_ready 0%nat 1%nat "scene" rules _ _ 4%nat σ
           Hne Hc Hr Hfuel).
Defined.

(** Two batches on one accumulator: the scene tiles, then the same tiles
    under a stricter cloud rule. *)
Lemma apply_rules_appends_only_witness :
  let σ := Stub.two_lists ["tile_0.png"; "tile_1.png"; "tile_7.png"] ["old.png"] in
  (0%nat ≠ 1%nat ∧
   heap σ !! 0%nat = Some ["tile_0.png"; "tile_1.png"; "tile_7.png"] ∧
   heap σ !! 1%nat = Some ["old.png"]) ∧
  ∃ accum1 σ1 added1 accum2 σ2 added2,
    apply_rules 4 Stub.sliced Stub.scene_ready 0 1 "scene"
      [Stub.land_rule 10; Stub.cloud_rule 70] σ = Some (accum1, σ1) ∧
    heap σ1 !! 1%nat = Some (["old.png"] ++ added1)%list ∧
    (∀ l : loc, l ≠ 1%nat → heap σ1 !! l = heap σ !! l) ∧
    apply_rules 4 Stub.sliced Stub.scene_ready 0 1 "scene"
      [Stub.cloud_rule 10] σ1 = Some (accum2, σ2) ∧
    heap σ2 !! 1%nat = Some (["old.png"] ++ added1 ++ added2)%list ∧
    (∀ l : loc, l ≠ 1%nat → heap σ2 !! l = heap σ !! l).
Proof.
  intros σ.
  assert (0%nat ≠ 1%nat) as Hne by lia.
  assert (heap σ !! 0%nat = Some ["tile_0.png"; "tile_1.png"; "tile_7.png"])
    as Hc by reflexivity.
  assert (heap σ !! 1%nat = Some ["old.png"]) as Hr by reflexivity.
  assert (length ["tile_0.png"; "tile_1.png"; "tile_7.png"] < 4)%nat
    as Hfuel by (simpl; lia).
  split; [done|].
  exact (@apply_rules_appends_only Stub.collaborators Stub.sliced Stub.sliced
           Stub.scene_ready Stub.scene_ready 0%nat 0%nat 1%nat "scene" "scene"
           [Stub.land_rule 10; Stub.cloud_rule 70] [Stub.cloud_rule 10]
           _ _ _ 4%nat 4%nat σ Hne Hne Hc Hc Hr Hfuel Hfuel).
Defined.

(** ** The orchestrator *)



Section Run.
Context `{Collaborators}.

(** Symbolic execution of straight-line code of [M]. *)
Ltac run :=
  unfold mbind, M_bind, mret, M_ret, read_config, info, ask, perform,
    write_config;
  cbn [cfg fs trace].


(** A tile whose name is addressed by the grid gets a record. *)
Lemma build_dict_for_csv_ok (f : FS) (filename reason : string) (c : Config) :
  is_ok (index_to_location filename (config.width c) (config.GRID_SIZE c))
  = true →
  ∃ d, build_dict_for_csv f filename reason c = Ok d.
Proof.
  rewrite build_dict_for_csv_unfold. cbn zeta.
  destruct (index_to_location _ _ _) as [[row column]|e]; [|done].
  intros _. by eexists.
Qed.

Lemma accept_loop_step (filename : string) (tiles : list string)
    (accepts : list record) (w : World) :
  accept_loop (filename :: tiles) accepts w =
  let w1 :=
    mk_world (cfg w) (effect (accept_tile filename (cfg w)) (fs w))
      (trace w ++ [accept_tile filename (cfg w)])%list in
  match build_dict_for_csv (fs w1) filename "Accepted" (cfg w) with
  | Ok d => accept_loop tiles (accepts ++ [d])%list w1
  | Raise e => (Raise e, w1)
  end.
Proof.
  cbn [accept_loop]. run.
  by destruct (build_dict_for_csv _ _ _ _).
Qed.

(** Whatever happens in the loop, it only calls [accept_tile] and leaves
    the configuration alone. *)
Lemma accept_loop_trace (tiles : list string) (accepts : list record)
    (w : World) :
  ∃ r fs' evs,
    accept_loop tiles accepts w
    = (r, mk_world (cfg w) fs' (trace w ++ evs)%list) ∧
    Forall (λ e, is_accept_tile e = true) evs.
Proof.
  revert accepts w. induction tiles as [|filename tiles IH]; intros accepts w.
  - exists (Ok accepts), (fs w), []. rewrite app_nil_r. by destruct w.
  - rewrite accept_loop_step. cbn zeta.
    destruct (build_dict_for_csv _ _ _ _) as [d|e].
    + edestruct IH as (r & fs' & evs & -> & Hevs). cbn [cfg fs trace].
      exists r, fs', (accept_tile filename (cfg w) :: evs).
      split; [by rewrite <- app_assoc|]. by constructor.
    + eexists _, _, [_]. split; [done|]. by repeat constructor.
Qed.

(** When every name is addressed by the grid, the loop goes through the
    whole listing: one call of [accept_tile] and one record per tile, in
    listing order. *)
Lemma accept_loop_run (tiles : list string) (accepts : list record)
    (w : World) :
  (∀ filename, filename ∈ tiles →
     is_ok (index_to_location filename (config.width (cfg w))
              (config.GRID_SIZE (cfg w))) = true) →
  ∃ recs fs',
    accept_loop tiles accepts w
    = (Ok (accepts ++ recs)%list,
       mk_world (cfg w) fs'
         (trace w ++ ((λ filename, accept_tile filename (cfg w)) <$> tiles))%list) ∧
    Forall2 (λ filename d,
               ∃ fs0, build_dict_for_csv fs0 filename "Accepted" (cfg w) = Ok d)
      tiles recs.
Proof.
  revert accepts w. induction tiles as [|filename tiles IH];
    intros accepts w Hok.
  - exists [], (fs w). rewrite !app_nil_r. split; [by destruct w | constructor].
  - rewrite accept_loop_step. cbn zeta.
    edestruct (build_dict_for_csv_ok) as [d Hd];
      [apply (Hok filename); by left|].
    rewrite Hd.
    edestruct (IH (accepts ++ [d])%list) as (recs & fs' & -> & Hrecs).
    { cbn [cfg]. intros f Hf. apply Hok. by right. }
    cbn [cfg fs trace]. exists (d :: recs), fs'. split.
    + by rewrite <- !app_assoc.
    + constructor; [by eexists | done].
Qed.






Lemma main_unfold (w : World) :
  main w =
  match main_until_slice w with
  | (Ok _, w1) =>
      match main_reject [] w1 with
      | (Ok accepts, w2) =>
          match main_manifest accepts w2 with
          | (Ok _, w3) => main_finish w3
          | (Raise e, w3) => (Raise e, w3)
          end
      | (Raise e, w2) => (Raise e, w2)
      end
  | (Raise e, w1) => (Raise e, w1)
  end.
Proof.
  unfold main, mbind, M_bind. destruct (main_until_slice w) as [[[]|e] w1]; [|done].
  destruct (main_reject [] w1) as [[accepts|e] w2]; [|done].
  by destruct (main_manifest accepts w2) as [[[]|e] w3].
Qed.




End Run.

(** Two tiles of the stub scene: their records have the same keys. *)
Lemma build_dict_for_csv_schema_witness :
  let c := Stub.scene_ready in
  (∀ row column width height,
     dom (compute_coordinate_metadata row column width height c)
     = {[ "#tile_left"; "#tile_top" ]}) ∧
  ∃ d1 d2 : record,
    build_dict_for_csv Stub.sliced "tile_0.png" "Accepted" c = Ok d1 ∧
    build_dict_for_csv Stub.sliced "tile_7.png" "Accepted" c = Ok d2 ∧
    dom d1 = dom d2.
Proof.
  intros c.
  assert (∀ row column width height : Z,
            dom (compute_coordinate_metadata row column width height c)
            = ({[ "#tile_left"; "#tile_top" ]} : gset string)) as Hkeys.
  { intros. change (compute_coordinate_metadata row column width height c)
      with (Stub.stub_coordinates row column width height c).
    unfold Stub.stub_coordinates.
    by rewrite !dom_insert_L, dom_empty_L, (right_id_L ∅ (∪)). }
  split; [exact Hkeys|].
  destruct (@build_dict_for_csv_ok Stub.collaborators Stub.sliced "tile_0.png"
              "Accepted" c eq_refl) as [d1 H1].
  destruct (@build_dict_for_csv_ok Stub.collaborators Stub.sliced "tile_7.png"
              "Accepted" c eq_refl) as [d2 H2].
  exists d1, d2. split; [exact H1|]. split; [exact H2|].
  exact (proj2 (@build_dict_for_csv_schema Stub.collaborators _ Stub.sliced
                  Stub.sliced "tile_0.png" "tile_7.png" "Accepted" "Accepted"
                  c d1 d2 Hkeys H1 H2)).
Defined.




(** * Further properties *)

(** ** Grid addressing: the shape of the grid *)

Lemma index_to_location_zero_grid filename width :
  index_to_location filename width 0 = Raise ZeroDivisionError.
Proof. done. Qed.

(** X1.  For a positive grid size and a width that is not negative, a file
    name whose index is read as [idx] is given a location, its column lies
    in [0 .. width // grid_size], and its row is negative exactly when the
    index is. *)
Theorem index_to_location_in_grid (filename : string) (idx width grid_size : Z) :
  0 < grid_size → 0 <= width → tile_index filename = Ok idx →
  ∃ row column,
    index_to_location filename width grid_size = Ok (row, column) ∧
    0 <= column <= width / grid_size ∧
    (0 <= row ↔ 0 <= idx).
Proof.
  intros Hg Hw Hidx.
  assert (0 <= width / grid_size) as Hq by (apply Z.div_pos; lia).
  exists (idx / (width / grid_size + 1)), (idx mod (width / grid_size + 1)).
  split; [apply index_to_location_ok; [done | lia | lia]|].
  pose proof (Z.mod_pos_bound idx (width / grid_size + 1) ltac:(lia)).
  split; [lia|]. split.
  - intros Hrow. pose proof (Z.div_mod idx (width / grid_size + 1) ltac:(lia)).
    nia.
  - intros ?. apply Z.div_pos; lia.
Qed.

Lemma index_to_location_in_grid_witness :
  (0 < 1000 ∧ 0 <= 5490 ∧ tile_index "tile_35.png" = Ok 35) ∧
  ∃ row column,
    index_to_location "tile_35.png" 5490 1000 = Ok (row, column) ∧
    0 <= column <= 5490 / 1000 ∧ (0 <= row ↔ 0 <= 35).
Proof.
  split; [repeat split; lia || reflexivity|].
  apply (index_to_location_in_grid "tile_35.png" 35 5490 1000);
    [lia | lia | reflexivity].
Defined.

(** X2.  Two file names that are given the same location on the same grid
    carry the same index: distinct tiles never share a cell. *)
Theorem index_to_location_injective (filename1 filename2 : string)
    (idx1 idx2 width grid_size : Z) (location : Z * Z) :
  tile_index filename1 = Ok idx1 → tile_index filename2 = Ok idx2 →
  index_to_location filename1 width grid_size = Ok location →
  index_to_location filename2 width grid_size = Ok location →
  idx1 = idx2.
Proof.
  intros H1 H2 L1 L2.
  assert (grid_size ≠ 0) as Hg.
  { intros ->. by rewrite index_to_location_zero_grid in L1. }
  rewrite index_to_location_unfold, H1 in L1 by done.
  rewrite index_to_location_unfold, H2 in L2 by done.
  simpl in L1, L2. case_decide as Hrow; [done|].
  injection L1 as <-. injection L2 as Hdiv Hmod.
  rewrite (Z.div_mod idx1 (width / grid_size + 1) Hrow).
  rewrite (Z.div_mod idx2 (width / grid_size + 1) Hrow).
  congruence.
Qed.

Lemma index_to_location_injective_witness :
  (tile_index "tile_7.png" = Ok 7 ∧ tile_index "scene_07.jp2" = Ok 7 ∧
   index_to_location "tile_7.png" 5490 1000 = Ok (1, 1) ∧
   index_to_location "scene_07.jp2" 5490 1000 = Ok (1, 1)) ∧
  7 = 7.
Proof.
  split; [repeat split; reflexivity|].
  exact (index_to_location_injective "tile_7.png" "scene_07.jp2" 7 7 5490
           1000 (1, 1) eq_refl eq_refl eq_refl eq_refl).
Defined.

(** X3.  Tiles are numbered in raster-scan order: on a grid with a positive
    number of tiles per row, the tile after the one at (row, column) is at
    (row, column + 1), or at (row + 1, 0) when the row is full. *)
Theorem index_to_location_next (idx width grid_size : Z) (ext : string) :
  0 <= idx → 0 < grid_size → 0 <= width →
  let per_row := width / grid_size + 1 in
  ∃ row column,
    index_to_location ("tile_" ++ Py.str idx ++ "." ++ ext) width grid_size
    = Ok (row, column) ∧
    index_to_location ("tile_" ++ Py.str (idx + 1) ++ "." ++ ext) width grid_size
    = Ok (if decide (column + 1 < per_row) then (row, column + 1)
          else (row + 1, 0)).
Proof.
  intros Hidx Hg Hw per_row.
  assert (0 <= width / grid_size) as Hq by (apply Z.div_pos; lia).
  assert (0 < per_row) as Hrow by (unfold per_row; lia).
  exists (idx / per_row), (idx mod per_row).
  rewrite !index_to_location_ok with (idx := idx)
    by (first [by apply tile_index_str | lia]).
  split; [done|].
  rewrite (index_to_location_ok _ (idx + 1))
    by (first [apply tile_index_str; lia | lia]).
  fold per_row. f_equal.
  pose proof (Z.div_mod idx per_row ltac:(lia)) as Hdm.
  pose proof (Z.mod_pos_bound idx per_row Hrow) as Hb.
  case_decide as Hc.
  - f_equal; symmetry.
    + apply (Z.div_unique_pos _ _ _ (idx mod per_row + 1)); lia.
    + apply (Z.mod_unique_pos _ _ (idx / per_row)); lia.
  - f_equal; symmetry.
    + apply (Z.div_unique_pos _ _ _ 0); lia.
    + apply (Z.mod_unique_pos _ _ (idx / per_row + 1)); lia.
Qed.

Lemma index_to_location_next_witness :
  (0 <= 5 ∧ 0 < 1000 ∧ 0 <= 5490) ∧
  ∃ row column,
    index_to_location "tile_5.png" 5490 1000 = Ok (row, column) ∧
    index_to_location "tile_6.png" 5490 1000
    = Ok (if decide (column + 1 < 5490 / 1000 + 1) then (row, column + 1)
          else (row + 1, 0)).
Proof.
  split; [lia|].
  apply (index_to_location_next 5 5490 1000 "png"); lia.
Defined.

(** ** The batch classifier: what a call leaves behind *)

Lemma filter_split_perm {A} (p : A → bool) (l : list A) :
  (List.filter p l ++ List.filter (λ x, negb (p x)) l)%list ≡ₚ l.
Proof.
  induction l as [|x l IH]; simpl; [done|].
  destruct (p x); simpl.
  - by constructor.
  - rewrite <- Permutation_middle. by constructor.
Qed.

Section Batch_effects.
Context `{Collaborators}.

Variables (fs : FS) (c : Config) (subdirectory : string) (rules : list rule).

Local Abbreviation kept := (accepted fs c subdirectory rules).
Local Abbreviation dropped := (rejected fs c subdirectory rules).
Local Abbreviation called := (tile_calls fs c subdirectory rules).

(** The state after the inner loop, in terms of the verdict. *)
Lemma rule_loop_verdict (filename : string) (rejects : loc) (σ : store) :
  rule_loop rules 0
    (get_image_statistics fs
       (Py.path_join (config.SCRATCH_PATH c) [subdirectory; filename]))
    filename rejects σ
  = (dropped filename,
     mk_store
       (if dropped filename
        then <[rejects := (deref σ rejects ++ [filename])%list]> (heap σ)
        else heap σ)
       (calls σ ++ called filename)%list).
Proof.
  rewrite rule_loop_first_failing. unfold rejected, accepted, tile_calls.
  cbn zeta.
  destruct (first_failing rules _) as [k|] eqn:Ek.
  - assert (passes rules
              (get_image_statistics fs
                 (Py.path_join (config.SCRATCH_PATH c)
                    [subdirectory; filename])) = false) as ->; [|done].
    apply not_true_is_false. rewrite first_failing_passes. congruence.
  - by apply first_failing_passes in Ek as ->.
Qed.

(** The outer loop with the record of calls: the refinement of
    [candidates_loop_run] that also says which rules were called. *)
Lemma candidates_loop_calls (candidates rejects : loc) (names : list string)
    (fuel i : nat) (accum old : list string) (σ : store) :
  candidates ≠ rejects →
  heap σ !! candidates = Some names →
  heap σ !! rejects = Some old →
  (length names - i < fuel)%nat →
  candidates_loop fuel fs c candidates rejects subdirectory rules i accum σ
  = Some ((accum ++ List.filter kept (drop i names))%list,
          mk_store
            (<[rejects := (old ++ List.filter dropped (drop i names))%list]>
               (heap σ))
            (calls σ ++ concat (called <$> drop i names))%list).
Proof.
  intros Hne. revert i accum old σ.
  induction fuel as [|fuel IH]; intros i accum old σ Hc Hr Hfuel; [lia|].
  cbn [candidates_loop]. unfold deref at 1. rewrite Hc.
  cbn [default from_option id].
  destruct (names !! i) as [filename|] eqn:Ei.
  - rewrite (drop_S _ _ _ Ei). cbn [List.filter fmap list_fmap concat].
    pose proof (lookup_lt_Some _ _ _ Ei) as Hlt.
    rewrite rule_loop_verdict. unfold rejected.
    destruct (kept filename) eqn:Ea; cbn [negb].
    + rewrite (IH (S i) _ old); [|exact Hc|exact Hr|lia].
      cbn [heap calls]. by rewrite <- !app_assoc.
    + rewrite (IH (S i) _ (old ++ [filename])%list); cbn [heap calls].
      * unfold deref. rewrite Hr. cbn [default from_option id].
        by rewrite insert_insert_eq, <- !app_assoc.
      * by rewrite lookup_insert_ne.
      * unfold deref. rewrite Hr. cbn [default from_option id].
        by rewrite lookup_insert_eq.
      * lia.
  - apply lookup_ge_None in Ei. rewrite drop_ge by done.
    cbn [List.filter fmap list_fmap concat]. rewrite !app_nil_r.
    rewrite insert_id by done. by destruct σ.
Qed.

(** When every candidate passes, nothing is appended anywhere, so that it
    does not matter whether [candidates] and [rejects] are the same list. *)
Lemma candidates_loop_all_pass (candidates rejects : loc)
    (names : list string) (fuel i : nat) (accum : list string) (σ : store) :
  heap σ !! candidates = Some names →
  Forall (λ filename, kept filename = true) names →
  (length names - i < fuel)%nat →
  candidates_loop fuel fs c candidates rejects subdirectory rules i accum σ
  = Some ((accum ++ drop i names)%list,
          mk_store (heap σ) (calls σ ++ concat (called <$> drop i names))%list).
Proof.
  intros Hc Hall. revert i accum σ Hc.
  induction fuel as [|fuel IH]; intros i accum σ Hc Hfuel; [lia|].
  cbn [candidates_loop]. unfold deref at 1. rewrite Hc.
  cbn [default from_option id].
  destruct (names !! i) as [filename|] eqn:Ei.
  - rewrite (drop_S _ _ _ Ei). cbn [fmap list_fmap concat].
    pose proof (lookup_lt_Some _ _ _ Ei) as Hlt.
    rewrite rule_loop_verdict. unfold rejected.
    rewrite (proj1 (Forall_lookup _ _) Hall _ _ Ei). cbn [negb].
    rewrite IH; [|exact Hc|lia]. cbn [heap calls]. by rewrite <- !app_assoc.
  - apply lookup_ge_None in Ei. rewrite drop_ge by done.
    cbn [fmap list_fmap concat]. rewrite !app_nil_r. by destruct σ.
Qed.

(** When the candidates are the reject accumulator itself, a failing
    candidate ahead of the iterator is there for ever: each time one is
    met it is appended again behind. *)
Lemma candidates_loop_alias_diverges (l : loc) (names : list string)
    (fuel i : nat) (accum : list string) (σ : store) :
  heap σ !! l = Some names →
  (∃ j filename,
     (i ≤ j)%nat ∧ names !! j = Some filename ∧ dropped filename = true) →
  candidates_loop fuel fs c l l subdirectory rules i accum σ = None.
Proof.
  revert names i accum σ.
  induction fuel as [|fuel IH]; intros names i accum σ Hl Hahead; [done|].
  destruct Hahead as (j & bad & Hij & Hj & Hbad).
  cbn [candidates_loop]. unfold deref at 1. rewrite Hl.
  cbn [default from_option id].
  pose proof (lookup_lt_Some _ _ _ Hj) as Hlt.
  destruct (names !! i) as [filename|] eqn:Ei;
    [|apply lookup_ge_None in Ei; lia].
  rewrite rule_loop_verdict.
  destruct (dropped filename) eqn:Ed.
  - apply (IH (names ++ [filename])%list).
    + cbn [heap]. unfold deref. rewrite Hl. cbn [default from_option id].
      by rewrite lookup_insert_eq.
    + exists (length names), filename.
      split; [apply lookup_lt_Some in Ei; lia|].
      split; [|done]. rewrite lookup_app_r by lia.
      by rewrite Nat.sub_diag.
  - apply (IH names); [done|].
    exists j, bad. split; [|done].
    destruct (decide (i = j)) as [->|]; [|lia]. congruence.
Qed.

End Batch_effects.

Section Batch_theorems.
Context `{Collaborators}.

(** X4.  A call of [apply_rules] loses and invents nothing: the list it
    returns, followed by what it has appended to [rejects], is a
    rearrangement of the candidates, and no file name is on both sides. *)
Theorem apply_rules_conserves (fs : FS) (c : Config)
    (candidates rejects : loc) (subdirectory : string) (rules : list rule)
    (names old : list string) (fuel : nat) (σ : store) :
  candidates ≠ rejects →
  heap σ !! candidates = Some names →
  heap σ !! rejects = Some old →
  (length names < fuel)%nat →
  ∃ accum added σ',
    apply_rules fuel fs c candidates rejects subdirectory rules σ
    = Some (accum, σ') ∧
    heap σ' !! rejects = Some (old ++ added)%list ∧
    (accum ++ added)%list ≡ₚ names ∧
    (length accum + length added = length names)%nat ∧
    (∀ filename, filename ∈ accum → filename ∉ added).
Proof.
  intros Hne Hc Hr Hfuel.
  destruct (apply_rules_run fs c candidates rejects subdirectory rules
              names old fuel σ Hne Hc Hr Hfuel) as (σ' & Hrun & Hheap).
  eexists _, _, σ'. split; [exact Hrun|].
  split; [by rewrite Hheap, lookup_insert_eq|].
  assert ((List.filter (accepted fs c subdirectory rules) names
           ++ List.filter (rejected fs c subdirectory rules) names)%list
          ≡ₚ names) as Hperm by apply filter_split_perm.
  split; [exact Hperm|].
  split; [by rewrite <- length_app, Hperm|].
  intros filename [_ Hk]%list_elem_of_In%List.filter_In
    [_ Hd]%list_elem_of_In%List.filter_In.
  unfold rejected in Hd. rewrite Hk in Hd. done.
Qed.

(** X5.  The calls of the logger and of the rules that [apply_rules] makes,
    in order: one log line with the number of candidates, then for each
    candidate in turn the rules in list order, up to and with the first rule
    that does not hold, each on the statistics that
    [img.get_image_statistics] returns for the file
    [SCRATCH_PATH/subdirectory/filename].  That query, made once for each
    candidate before its rules, reads the file system and is not among the
    recorded calls. *)
Theorem apply_rules_calls (fs : FS) (c : Config)
    (candidates rejects : loc) (subdirectory : string) (rules : list rule)
    (names old : list string) (fuel : nat) (σ : store) :
  candidates ≠ rejects →
  heap σ !! candidates = Some names →
  heap σ !! rejects = Some old →
  (length names < fuel)%nat →
  ∃ accum σ',
    apply_rules fuel fs c candidates rejects subdirectory rules σ
    = Some (accum, σ') ∧
    calls σ'
    = (calls σ
       ++ logger_info (config.SCENE_NAME c)
            ("Examining " ++ Py.str (Z.of_nat (length names))
             ++ " tiles for " ++ subdirectory)
          :: concat (tile_calls fs c subdirectory rules <$> names))%list.
Proof.
  intros Hne Hc Hr Hfuel. unfold apply_rules.
  rewrite (candidates_loop_calls fs c subdirectory rules candidates rejects
             names fuel 0 [] old); [|done|exact Hc|exact Hr|cbn; lia].
  eexists _, _. split; [done|]. cbn [calls emit drop].
  unfold deref. rewrite Hc. cbn [default from_option id].
  by rewrite <- app_assoc.
Qed.

(** X6.  Handing [apply_rules] one and the same list as [candidates] and as
    [rejects]: if every candidate passes, the call returns the candidates
    and leaves the list as it was; if some candidate fails, the loop keeps
    meeting what it has appended and the call never returns. *)
Theorem apply_rules_same_list (fs : FS) (c : Config) (l : loc)
    (subdirectory : string) (rules : list rule) (names : list string)
    (σ : store) :
  heap σ !! l = Some names →
  (Forall (λ filename, accepted fs c subdirectory rules filename = true) names →
   ∀ fuel, (length names < fuel)%nat →
     ∃ σ', apply_rules fuel fs c l l subdirectory rules σ = Some (names, σ') ∧
           heap σ' = heap σ) ∧
  (Exists (λ filename, rejected fs c subdirectory rules filename = true) names →
   ∀ fuel, apply_rules fuel fs c l l subdirectory rules σ = None).
Proof.
  intros Hl. split.
  - intros Hall fuel Hfuel. unfold apply_rules.
    rewrite (candidates_loop_all_pass fs c subdirectory rules l l names);
      [|exact Hl|exact Hall|cbn; lia].
    eexists. by split.
  - intros (filename & [j Hj]%list_elem_of_lookup & Hbad)%Exists_exists fuel.
    unfold apply_rules.
    apply (candidates_loop_alias_diverges fs c subdirectory rules l names);
      [exact Hl|].
    exists j, filename. split; [lia|]. by split.
Qed.

Lemma no_rules_no_calls (fs : FS) (c : Config) (subdirectory : string)
    (names : list string) :
  concat (tile_calls fs c subdirectory [] <$> names) = [].
Proof. induction names as [|filename names IH]; [done|]. apply IH. Qed.

(** X7.  With an empty list of rules every candidate is accepted: the call
    returns the candidates as they are, appends nothing to [rejects] (which
    may even be the candidate list itself) and calls no rule. *)
Theorem apply_rules_no_rules (fs : FS) (c : Config)
    (candidates rejects : loc) (subdirectory : string)
    (names : list string) (fuel : nat) (σ : store) :
  heap σ !! candidates = Some names →
  (length names < fuel)%nat →
  apply_rules fuel fs c candidates rejects subdirectory [] σ
  = Some (names,
          mk_store (heap σ)
            (calls σ
             ++ [logger_info (config.SCENE_NAME c)
                   ("Examining " ++ Py.str (Z.of_nat (length names))
                    ++ " tiles for " ++ subdirectory)])%list).
Proof.
  intros Hc Hfuel. unfold apply_rules.
  rewrite (candidates_loop_all_pass fs c subdirectory [] candidates rejects
             names); [|exact Hc|by apply Forall_true|cbn; lia].
  rewrite drop_0, no_rules_no_calls.
  cbn [heap calls emit app].
  unfold deref. rewrite Hc. cbn [default from_option id].
  by rewrite app_nil_r.
Qed.

End Batch_theorems.

Lemma apply_rules_conserves_witness :
  let names := ["tile_0.png"; "tile_1.png"; "tile_7.png"] in
  let σ := Stub.two_lists names ["old.png"] in
  let rules := [Stub.land_rule 10; Stub.cloud_rule 70] in
  (0%nat ≠ 1%nat ∧ heap σ !! 0%nat = Some names ∧
   heap σ !! 1%nat = Some ["old.png"] ∧ (length names < 4)%nat) ∧
  ∃ accum added σ',
    apply_rules 4 Stub.sliced Stub.scene_ready 0 1 "scene" rules σ
    = Some (accum, σ') ∧
    heap σ' !! 1%nat = Some (["old.png"] ++ added)%list ∧
    (accum ++ added)%list ≡ₚ names ∧
    (length accum + length added = length names)%nat ∧
    (∀ filename, filename ∈ accum → filename ∉ added).
Proof.
  intros names σ rules.
  assert (0%nat ≠ 1%nat) as Hne by lia.
  assert (heap σ !! 0%nat = Some names) as Hc by reflexivity.
  assert (heap σ !! 1%nat = Some ["old.png"]) as Hr by reflexivity.
  assert (length names < 4)%nat as Hfuel by (simpl; lia).
  split; [done|].
  exact (@apply_rules_conserves Stub.collaborators Stub.sliced
           Stub.scene_ready 0%nat 1%nat "scene" rules names ["old.png"]
           4%nat σ Hne Hc Hr Hfuel).
Defined.

Lemma apply_rules_calls_witness :
  let names := ["tile_0.png"; "tile_1.png"] in
  let σ := Stub.two_lists names [] in
  let rules := [Stub.cloud_rule 70; Stub.land_rule 10] in
  (0%nat ≠ 1%nat ∧ heap σ !! 0%nat = Some names ∧
   heap σ !! 1%nat = Some [] ∧ (length names < 3)%nat) ∧
  ∃ accum σ',
    apply_rules 3 Stub.sliced Stub.scene_ready 0 1 "scene" rules σ
    = Some (accum, σ') ∧
    calls σ'
    = [logger_info "20QPD" "Examining 2 tiles for scene";
       rule_call 0 [VInt 5; VInt 20]; rule_call 1 [VInt 5; VInt 20];
       rule_call 0 [VInt 5; VInt 80]].
Proof.
  intros names σ rules.
  assert (0%nat ≠ 1%nat) as Hne by lia.
  assert (heap σ !! 0%nat = Some names) as Hc by reflexivity.
  assert (heap σ !! 1%nat = Some []) as Hr by reflexivity.
  assert (length names < 3)%nat as Hfuel by (simpl; lia).
  split; [done|].
  exact (@apply_rules_calls Stub.collaborators Stub.sliced Stub.scene_ready
           0%nat 1%nat "scene" rules names [] 3%nat σ Hne Hc Hr Hfuel).
Defined.

Lemma apply_rules_same_list_witness :
  let names := ["tile_0.png"; "tile_1.png"] in
  let σ := Stub.two_lists names [] in
  let rules := [Stub.land_rule 10; Stub.cloud_rule 70] in
  heap σ !! 0%nat = Some names ∧
  Exists (λ filename,
            rejected Stub.sliced Stub.scene_ready "scene" rules filename = true)
    names ∧
  ∀ fuel, apply_rules fuel Stub.sliced Stub.scene_ready 0 0 "scene" rules σ
          = None.
Proof.
  intros names σ rules.
  assert (heap σ !! 0%nat = Some names) as Hl by reflexivity.
  assert (Exists (λ filename,
                    rejected Stub.sliced Stub.scene_ready "scene" rules
                      filename = true) names) as Hbad
    by (apply Exists_cons_tl, Exists_cons_hd; reflexivity).
  split; [exact Hl|]. split; [exact Hbad|].
  exact (proj2 (@apply_rules_same_list Stub.collaborators Stub.sliced
                  Stub.scene_ready 0%nat "scene" rules names σ Hl) Hbad).
Defined.

Lemma apply_rules_no_rules_witness :
  let names := ["tile_0.png"; "tile_1.png"] in
  let σ := Stub.two_lists names ["old.png"] in
  (heap σ !! 0%nat = Some names ∧ (length names < 3)%nat) ∧
  apply_rules 3 Stub.sliced Stub.scene_ready 0 1 "scene" [] σ
  = Some (names,
          mk_store (heap σ)
            [logger_info "20QPD" "Examining 2 tiles for scene"]).
Proof.
  intros names σ.
  assert (heap σ !! 0%nat = Some names) as Hc by reflexivity.
  assert (length names < 3)%nat as Hfuel by (simpl; lia).
  split; [done|].
  exact (@apply_rules_no_rules Stub.collaborators Stub.sliced
           Stub.scene_ready 0%nat 1%nat "scene" names 3%nat σ Hc Hfuel).
Defined.

(** ** The orchestrator: order, frame and failure *)

Section Run_exact.
Context `{Collaborators}.

Ltac run :=
  unfold mbind, M_bind, mret, M_ret, read_config, info, ask, perform,
    write_config;
  cbn [cfg fs trace].

(** The run up to the tile-routing stage, step by step. *)
Lemma main_until_slice_exact (w : World) :
  let c := cfg w in
  let logger := config.SCENE_NAME c in
  let c0 := config.set_dimensions c (get_dimensions (fs w) (config.INPUT_FILE c)) in
  let rebuild := config.REBUILD c || negb (scratch_exists (fs w) c0) in
  let fs1 := if rebuild then effect (build_scratch c0) (fs w) else fs w in
  let fs2 := effect (build_output c0) fs1 in
  let c1 :=
    config.set_METADATA c0
      (parse_metadata fs2 (config.SCENE_DIR c) (config.METADATA_SRC c)
         (config.JSON_SRC c)) in
  let c2 :=
    config.set_INFRARED_CHANNEL
      (config.set_rgb c1
         (Py.path_join (config.SCENE_DIR c) ["B04.jp2"])
         (Py.path_join (config.SCENE_DIR c) ["B03.jp2"])
         (Py.path_join (config.SCENE_DIR c) ["B02.jp2"]))
      (Py.path_join (config.SCENE_DIR c) ["B03.jp2"]) in
  let c3 :=
    if config.ASSEMBLE_IMAGE c
    then config.set_rgb c2
           (Py.path_join (config.SCRATCH_PATH c) ["red.png"])
           (Py.path_join (config.SCRATCH_PATH c) ["green.png"])
           (Py.path_join (config.SCRATCH_PATH c) ["blue.png"])
    else c2 in
  let setup :=
    ([logger_info logger "Processing start"]
     ++ (if rebuild then [build_scratch c0] else [])
     ++ [logger_info logger "Building scene tile output directory";
         build_output c0])%list in
  let assemble :=
    if config.ASSEMBLE_IMAGE c
    then [logger_info logger "Processing source data to remove negative pixels";
          clamp_image (Py.path_join (config.SCENE_DIR c) ["B04.jp2"]) "red" c2 false;
          clamp_image (Py.path_join (config.SCENE_DIR c) ["B03.jp2"]) "green" c2 false;
          clamp_image (Py.path_join (config.SCENE_DIR c) ["B02.jp2"]) "blue" c2 false;
          assemble_image c3]
    else [logger_info logger "Skipping scene generation"] in
  let slice :=
    if config.SLICE_IMAGE c
    then [logger_info logger
            ("Generating scene tiles of " ++ Py.str (config.GRID_SIZE c) ++ "x"
             ++ Py.str (config.GRID_SIZE c) ++ " pixels");
          prepare_tiles c3]
    else [logger_info logger "Skipping scene tile generation"] in
  ∃ fs3,
    main_until_slice w
    = (Ok tt, mk_world c3 fs3 (trace w ++ setup ++ assemble ++ slice)%list).
Proof.
  destruct w as [c f t]. cbn [cfg fs trace]. cbv zeta.
  unfold main_until_slice, main_setup, main_assemble, main_slice. run.
  cbn [config.REBUILD config.set_dimensions].
  destruct (config.REBUILD c || negb _);
    destruct (config.ASSEMBLE_IMAGE c) eqn:E2; cbn; rewrite ?E2; cbn;
    destruct (config.SLICE_IMAGE c) eqn:E3; cbn; rewrite ?E3; cbn;
    rewrite <- ?app_assoc; cbn [app];
    eexists; reflexivity.
Qed.

Lemma collaborator_calls_app (evs1 evs2 : list call) :
  collaborator_calls (evs1 ++ evs2)
  = (collaborator_calls evs1 ++ collaborator_calls evs2)%list.
Proof. unfold collaborator_calls. by rewrite List.filter_app, fmap_app. Qed.

Lemma collaborator_calls_accept (c : Config) (tiles : list string) :
  collaborator_calls ((λ filename, accept_tile filename c) <$> tiles)
  = replicate (length tiles) Accept_tile.
Proof. induction tiles as [|f tiles IH]; [done|]. cbn. by f_equal. Qed.

Lemma accepted_files_accept (c : Config) (tiles : list string) :
  accepted_files ((λ filename, accept_tile filename c) <$> tiles) = tiles.
Proof. induction tiles as [|f tiles IH]; [done|]. cbn. by f_equal. Qed.

Lemma messages_accept (c : Config) (tiles : list string) :
  messages ((λ filename, accept_tile filename c) <$> tiles) = [].
Proof. induction tiles as [|f tiles IH]; [done|]. apply IH. Qed.

Lemma manifests_accept (c : Config) (tiles : list string) :
  manifests ((λ filename, accept_tile filename c) <$> tiles) = [].
Proof. induction tiles as [|f tiles IH]; [done|]. apply IH. Qed.

(** The tile-routing stage, step by step, when no listed name fails. *)
Lemma main_reject_exact (accepts : list record) (w : World) :
  let c := cfg w in
  let tiles :=
    if config.REJECT_TILES c
    then get_files_by_extension (fs w)
           (Py.path_join (config.SCRATCH_PATH c) ["scene"]) "png"
    else [] in
  (∀ filename, filename ∈ tiles →
     is_ok (index_to_location filename (config.width c) (config.GRID_SIZE c))
     = true) →
  ∃ recs fs',
    main_reject accepts w
    = (Ok (accepts ++ recs)%list,
       mk_world c fs'
         (trace w
          ++ (if config.REJECT_TILES c
              then [logger_info (config.SCENE_NAME c) "Copying all tiles"]
              else [])
          ++ ((λ filename, accept_tile filename c) <$> tiles))%list) ∧
    length recs = length tiles.
Proof.
  intros c tiles Hok. unfold main_reject. run. subst tiles. fold c in Hok |- *.
  destruct (config.REJECT_TILES c).
  - edestruct (accept_loop_run
                 (get_files_by_extension (fs w)
                    (Py.path_join (config.SCRATCH_PATH c) ["scene"]) "png")
                 accepts) as (recs & fs' & -> & Hrecs); [exact Hok|].
    cbn [cfg fs trace]. exists recs, fs'.
    split; [by rewrite <- app_assoc|]. symmetry. by eapply Forall2_length.
  - exists [], (fs w). rewrite !app_nil_r. by destruct w.
Qed.

Lemma main_manifest_exact (accepts : list record) (w : World) :
  let c := cfg w in
  ∃ fs',
    main_manifest accepts w
    = (Ok tt,
       mk_world c fs'
         (trace w
          ++ (if config.BUILD_MANIFEST c
              then [logger_info (config.SCENE_NAME c) "Writing manifest";
                    write_manifest
                      (Py.path_join "output"
                         [(config.SCENE_NAME c ++ "_tiles")%string; "manifest.csv"])
                      accepts]
              else []))%list).
Proof.
  intros c. unfold main_manifest. run. fold c.
  destruct (config.BUILD_MANIFEST c).
  - eexists. by rewrite <- app_assoc.
  - exists (fs w). rewrite app_nil_r. by destruct w.
Qed.

Lemma main_finish_exact (w : World) :
  let c := cfg w in
  ∃ fs',
    main_finish w
    = (Ok tt,
       mk_world c fs'
         (trace w
          ++ (if config.ANNOTATE c
              then [logger_info (config.SCENE_NAME c)
                      ("Annotating with label " ++ config.LABEL c)%string;
                    label_all c]
              else [])
          ++ [maybe_clean_scratch c;
              logger_info (config.SCENE_NAME c) "Processing finished"])%list).
Proof.
  intros c. unfold main_finish. run. fold c.
  destruct (config.ANNOTATE c); cbn; eexists; by rewrite <- !app_assoc.
Qed.

(** The settings are the same at the tile-routing stage as at the start. *)
Lemma main_until_slice_settings (w : World) :
  same_settings (cfg w) (cfg (main_until_slice w).2) ∧
  (main_until_slice w).1 = Ok tt.
Proof.
  destruct (main_until_slice_exact w) as [fs3 ->]. cbn [fst snd cfg].
  split; [|done]. unfold same_settings.
  destruct (config.ASSEMBLE_IMAGE (cfg w)) eqn:E; cbn; by rewrite ?E.
Qed.

(** A whole run in which no listed tile name fails, step by step. *)
Lemma main_exact (w : World) :
  let w1 := (main_until_slice w).2 in
  let c := cfg w1 in
  let tiles :=
    if config.REJECT_TILES c
    then get_files_by_extension (fs w1)
           (Py.path_join (config.SCRATCH_PATH c) ["scene"]) "png"
    else [] in
  (∀ filename, filename ∈ tiles →
     is_ok (index_to_location filename (config.width c) (config.GRID_SIZE c))
     = true) →
  ∃ recs fs',
    main w
    = (Ok tt,
       mk_world c fs'
         (trace w1
          ++ (if config.REJECT_TILES c
              then [logger_info (config.SCENE_NAME c) "Copying all tiles"]
              else [])
          ++ ((λ filename, accept_tile filename c) <$> tiles)
          ++ (if config.BUILD_MANIFEST c
              then [logger_info (config.SCENE_NAME c) "Writing manifest";
                    write_manifest
                      (Py.path_join "output"
                         [(config.SCENE_NAME c ++ "_tiles")%string;
                          "manifest.csv"])
                      recs]
              else [])
          ++ (if config.ANNOTATE c
              then [logger_info (config.SCENE_NAME c)
                      ("Annotating with label " ++ config.LABEL c)%string;
                    label_all c]
              else [])
          ++ [maybe_clean_scratch c;
              logger_info (config.SCENE_NAME c) "Processing finished"])%list) ∧
    length recs = length tiles.
Proof.
  intros w1 c tiles Hok. rewrite main_unfold.
  destruct (main_until_slice_settings w) as [_ Hdone].
  destruct (main_until_slice w) as [r w1'] eqn:E. cbn [fst snd] in *.
  subst w1 r.
  destruct (main_reject_exact [] w1' Hok) as (recs & fs2 & -> & Hlen).
  fold c. cbn [app].
  edestruct (main_manifest_exact recs) as [fs3 ->]. cbn [cfg fs trace].
  edestruct main_finish_exact as [fs4 ->]. cbn [cfg fs trace].
  exists recs, fs4. split; [|exact Hlen].
  by rewrite <- !app_assoc.
Qed.

(** Whatever its outcome, a run goes on from the world that slicing leaves
    with calls of the later stages only, and with the configuration as it is
    then. *)
Lemma main_after_slice (w : World) :
  let w1 := (main_until_slice w).2 in
  ∃ r fs' later,
    main w = (r, mk_world (cfg w1) fs' (trace w1 ++ later)%list) ∧
    Forall (λ e, is_late e = true) later.
Proof.
  intros w1. rewrite main_unfold.
  destruct (main_until_slice_settings w) as [_ Hdone].
  destruct (main_until_slice w) as [r w1'] eqn:E. cbn [fst snd] in *.
  subst w1 r.
  destruct (accept_loop_trace
              (get_files_by_extension (fs w1')
                 (Py.path_join (config.SCRATCH_PATH (cfg w1')) ["scene"]) "png")
              [] (mk_world (cfg w1') (fs w1')
                    (trace w1' ++ [logger_info (config.SCENE_NAME (cfg w1'))
                                     "Copying all tiles"])%list))
    as (r2 & fs2 & evs2 & E2 & Hevs2).
  assert (Forall (λ e, is_late e = true) evs2) as Hlate2
    by (eapply Forall_impl; [exact Hevs2|]; by intros []).
  unfold main_reject. run.
  destruct (config.REJECT_TILES (cfg w1')) eqn:Er.
  - rewrite E2. cbn [cfg fs trace]. destruct r2 as [accepts|e].
    + edestruct (main_manifest_exact accepts) as [fs3 ->]. cbn [cfg fs trace].
      edestruct main_finish_exact as [fs4 ->]. cbn [cfg fs trace].
      eexists _, fs4, _. split; [by rewrite <- !app_assoc|].
      apply Forall_cons. split; [done|]. apply Forall_app. split; [done|].
      destruct (config.BUILD_MANIFEST (cfg w1')), (config.ANNOTATE (cfg w1'));
        by repeat constructor.
    + eexists _, fs2, _. split; [by rewrite <- !app_assoc|].
      by constructor.
  - edestruct (main_manifest_exact []) as [fs3 ->]. cbn [cfg fs trace].
    edestruct main_finish_exact as [fs4 ->]. cbn [cfg fs trace].
    eexists _, fs4, _. split; [by rewrite <- !app_assoc|].
    destruct (config.BUILD_MANIFEST (cfg w1')), (config.ANNOTATE (cfg w1'));
      by repeat constructor.
Qed.

Lemma late_calls (later : list call) :
  Forall (λ e, is_late e = true) later →
  clamped later = [] ∧ assembled later = [] ∧
  List.filter is_build_scratch later = [] ∧
  List.filter is_prepare_tiles later = [].
Proof.
  induction 1 as [|e later He _ (IH1 & IH2 & IH3 & IH4)]; [done|].
  destruct e; try done; cbn; by rewrite ?IH1, ?IH2, ?IH3, ?IH4.
Qed.

(** X8.  Once [parse_options] has returned, the rest of [main] (lines
    241-308) writes four things into the configuration and nothing else:
    the dimensions of the input file, the parsed metadata, and the channel
    paths, which end as the band files [B04.jp2], [B03.jp2], [B02.jp2] of
    the scene directory, or as [red.png], [green.png], [blue.png] of the
    scratch directory when the image is assembled; the infra-red channel is
    the band [B03.jp2].  Flags, names, paths and the grid size are after
    these lines, completed or not, what [parse_options] has left. *)
Theorem main_config_frame (w : World) :
  let c := cfg w in
  let c' := cfg (main w).2 in
  same_settings c c' ∧
  (config.width c', config.height c')
  = get_dimensions (fs w) (config.INPUT_FILE c) ∧
  (∃ fs2, config.METADATA c'
          = parse_metadata fs2 (config.SCENE_DIR c) (config.METADATA_SRC c)
              (config.JSON_SRC c)) ∧
  config.INFRARED_CHANNEL c' = Py.path_join (config.SCENE_DIR c) ["B03.jp2"] ∧
  (config.RED_CHANNEL c', config.GREEN_CHANNEL c', config.BLUE_CHANNEL c')
  = if config.ASSEMBLE_IMAGE c
    then (Py.path_join (config.SCRATCH_PATH c) ["red.png"],
          Py.path_join (config.SCRATCH_PATH c) ["green.png"],
          Py.path_join (config.SCRATCH_PATH c) ["blue.png"])
    else (Py.path_join (config.SCENE_DIR c) ["B04.jp2"],
          Py.path_join (config.SCENE_DIR c) ["B03.jp2"],
          Py.path_join (config.SCENE_DIR c) ["B02.jp2"]).
Proof.
  intros c c'. subst c'.
  destruct (main_after_slice w) as (r & fs' & later & -> & _).
  cbn [snd cfg].
  destruct (main_until_slice_settings w) as [Hsame _].
  split; [exact Hsame|]. clear Hsame.
  destruct (main_until_slice_exact w) as [fs3 ->]. cbn [snd cfg]. fold c.
  destruct (get_dimensions (fs w) (config.INPUT_FILE c)) as [width height].
  destruct (config.ASSEMBLE_IMAGE c); cbn; by eauto 6.
Qed.

Lemma image_calls_app (evs1 evs2 : list call) :
  image_calls (evs1 ++ evs2) = (image_calls evs1 ++ image_calls evs2)%list.
Proof. unfold image_calls. by rewrite fmap_app, List.filter_app. Qed.

Lemma late_image_calls (later : list call) :
  Forall (λ e, is_late e = true) later → image_calls later = [].
Proof.
  induction 1 as [|e later He _ IH]; [done|].
  change (e :: later) with ([e] ++ later)%list.
  rewrite image_calls_app, IH. by destruct e.
Qed.

(** X9.  The assemble stage: when [config.ASSEMBLE_IMAGE] is set, a run
    clamps the bands [B04.jp2], [B03.jp2] and [B02.jp2] of the scene
    directory, in this order, as red, green and blue, and then, after the
    three calls of [clamp_image], calls [assemble_image] once, with the
    three channels set to the clamped files of the scratch directory; when
    the flag is not set it calls neither collaborator. *)
Theorem main_assemble_calls (w : World) :
  let c := cfg w in
  ∃ evs,
    trace (main w).2 = (trace w ++ evs)%list ∧
    image_calls evs
    = (if config.ASSEMBLE_IMAGE c
       then [Clamp_image; Clamp_image; Clamp_image; Assemble_image]
       else []) ∧
    clamped evs
    = (if config.ASSEMBLE_IMAGE c
       then [(Py.path_join (config.SCENE_DIR c) ["B04.jp2"], "red", false);
             (Py.path_join (config.SCENE_DIR c) ["B03.jp2"], "green", false);
             (Py.path_join (config.SCENE_DIR c) ["B02.jp2"], "blue", false)]
       else []) ∧
    (config.RED_CHANNEL <$> assembled evs)
    = (if config.ASSEMBLE_IMAGE c
       then [Py.path_join (config.SCRATCH_PATH c) ["red.png"]] else []) ∧
    (config.GREEN_CHANNEL <$> assembled evs)
    = (if config.ASSEMBLE_IMAGE c
       then [Py.path_join (config.SCRATCH_PATH c) ["green.png"]] else []) ∧
    (config.BLUE_CHANNEL <$> assembled evs)
    = (if config.ASSEMBLE_IMAGE c
       then [Py.path_join (config.SCRATCH_PATH c) ["blue.png"]] else []).
Proof.
  intros c.
  destruct (main_after_slice w) as (r & fs' & later & -> & Hlate).
  destruct (late_calls later Hlate) as (Hclamp & Hasm & _).
  destruct (main_until_slice_exact w) as [fs3 ->]. cbn [snd trace]. fold c.
  eexists. split; [by rewrite <- !app_assoc|].
  rewrite !image_calls_app, (late_image_calls later Hlate).
  unfold clamped, assembled in *. rewrite !omap_app, Hclamp, Hasm.
  destruct (config.REBUILD c || negb _), (config.ASSEMBLE_IMAGE c),
    (config.SLICE_IMAGE c); done.
Qed.

(** The run of [main_exact] with the flags read off the initial
    configuration. *)
Lemma main_completed (w : World) :
  let c := cfg w in
  let logger := config.SCENE_NAME c in
  let w1 := (main_until_slice w).2 in
  let tiles :=
    if config.REJECT_TILES c
    then get_files_by_extension (fs w1)
           (Py.path_join (config.SCRATCH_PATH c) ["scene"]) "png"
    else [] in
  (∀ filename, filename ∈ tiles →
     is_ok (index_to_location filename
              (get_dimensions (fs w) (config.INPUT_FILE c)).1
              (config.GRID_SIZE c)) = true) →
  ∃ recs fs',
    main w
    = (Ok tt,
       mk_world (cfg w1) fs'
         (trace w1
          ++ (if config.REJECT_TILES c
              then [logger_info logger "Copying all tiles"] else [])
          ++ ((λ filename, accept_tile filename (cfg w1)) <$> tiles)
          ++ (if config.BUILD_MANIFEST c
              then [logger_info logger "Writing manifest";
                    write_manifest
                      (Py.path_join "output"
                         [(logger ++ "_tiles")%string; "manifest.csv"])
                      recs]
              else [])
          ++ (if config.ANNOTATE c
              then [logger_info logger
                      ("Annotating with label " ++ config.LABEL c)%string;
                    label_all (cfg w1)]
              else [])
          ++ [maybe_clean_scratch (cfg w1);
              logger_info logger "Processing finished"])%list) ∧
    length recs = length tiles.
Proof.
  intros c logger w1 tiles Hok.
  destruct (main_until_slice_settings w)
    as [(Hname & _ & _ & _ & _ & Hscratch & Hgrid & Hlabel & _ & _ & _
         & Hreject & Hmanifest & Hannotate) _].
  fold c w1 in Hname, Hscratch, Hgrid, Hlabel, Hreject, Hmanifest, Hannotate.
  assert (config.width (cfg w1)
          = (get_dimensions (fs w) (config.INPUT_FILE c)).1) as Hwidth.
  { subst w1. destruct (main_until_slice_exact w) as [fs3 ->].
    cbn [snd cfg]. by destruct (config.ASSEMBLE_IMAGE (cfg w)). }
  pose proof (main_exact w) as Hex. cbv zeta in Hex. fold w1 in Hex.
  rewrite Hname, Hscratch, Hgrid, Hlabel, Hreject, Hmanifest, Hannotate,
    Hwidth in Hex.
  exact (Hex Hok).
Qed.

Lemma messages_app (evs1 evs2 : list call) :
  messages (evs1 ++ evs2) = (messages evs1 ++ messages evs2)%list.
Proof. apply omap_app. Qed.

(** X10.  The collaborators acting on the file system that lines 241-308
    of [main] call in a completed run, in order: [build_scratch] if the
    rebuild flag is set or there is no scratch directory, [build_output],
    three times [clamp_image] and [assemble_image] if the image is to be
    assembled, [prepare_tiles] if it is to be sliced, [accept_tile] once per
    listed tile if tiles are to be routed, [write_manifest] if a manifest is
    asked for, [label_all] if the run annotates, and at last
    [maybe_clean_scratch].  The run completes when every listed tile name is
    addressed by the grid.  The queries that only read ([get_dimensions],
    [scratch_exists], [parse_metadata], [get_files_by_extension]) and the
    call of [parse_options] before these lines are not in the list. *)
Theorem main_call_order (w : World) :
  let c := cfg w in
  let dims := get_dimensions (fs w) (config.INPUT_FILE c) in
  let rebuild :=
    config.REBUILD c
    || negb (scratch_exists (fs w) (config.set_dimensions c dims)) in
  let tiles :=
    if config.REJECT_TILES c
    then get_files_by_extension (fs (main_until_slice w).2)
           (Py.path_join (config.SCRATCH_PATH c) ["scene"]) "png"
    else [] in
  (∀ filename, filename ∈ tiles →
     is_ok (index_to_location filename dims.1 (config.GRID_SIZE c)) = true) →
  ∃ w' evs,
    main w = (Ok tt, w') ∧
    trace w' = (trace w ++ evs)%list ∧
    collaborator_calls evs
    = ((if rebuild then [Build_scratch] else [])
       ++ [Build_output]
       ++ (if config.ASSEMBLE_IMAGE c
           then [Clamp_image; Clamp_image; Clamp_image; Assemble_image]
           else [])
       ++ (if config.SLICE_IMAGE c then [Prepare_tiles] else [])
       ++ replicate (length tiles) Accept_tile
       ++ (if config.BUILD_MANIFEST c then [Write_manifest] else [])
       ++ (if config.ANNOTATE c then [Label_all] else [])
       ++ [Maybe_clean_scratch])%list.
Proof.
  intros c dims rebuild tiles Hok.
  pose proof (main_completed w) as Hmain. cbv zeta in Hmain.
  fold c tiles in Hmain.
  destruct (Hmain Hok) as (recs & fs' & -> & Hlen). clear Hmain.
  clearbody tiles.
  destruct (main_until_slice_exact w) as [fs3 E].
  fold c in E. rewrite E. cbn [snd trace].
  eexists _, _. split; [done|]. cbn [trace].
  split; [by rewrite <- !app_assoc|].
  rewrite !collaborator_calls_app, collaborator_calls_accept.
  fold dims. fold rebuild.
  destruct rebuild, (config.ASSEMBLE_IMAGE c), (config.SLICE_IMAGE c),
    (config.REJECT_TILES c), (config.BUILD_MANIFEST c), (config.ANNOTATE c);
    reflexivity.
Qed.

(** X11.  The log of a completed run: the start line, the output directory
    line, one line each for assembling and slicing, done or skipped, one
    line for each of the later stages that is enabled (a disabled one is
    passed over in silence), and the closing line. *)
Theorem main_messages (w : World) :
  let c := cfg w in
  let dims := get_dimensions (fs w) (config.INPUT_FILE c) in
  let tiles :=
    if config.REJECT_TILES c
    then get_files_by_extension (fs (main_until_slice w).2)
           (Py.path_join (config.SCRATCH_PATH c) ["scene"]) "png"
    else [] in
  (∀ filename, filename ∈ tiles →
     is_ok (index_to_location filename dims.1 (config.GRID_SIZE c)) = true) →
  ∃ w' evs,
    main w = (Ok tt, w') ∧
    trace w' = (trace w ++ evs)%list ∧
    messages evs
    = (["Processing start"; "Building scene tile output directory";
        if config.ASSEMBLE_IMAGE c
        then "Processing source data to remove negative pixels"
        else "Skipping scene generation";
        if config.SLICE_IMAGE c
        then ("Generating scene tiles of " ++ Py.str (config.GRID_SIZE c)
              ++ "x" ++ Py.str (config.GRID_SIZE c) ++ " pixels")%string
        else "Skipping scene tile generation"]
       ++ (if config.REJECT_TILES c then ["Copying all tiles"] else [])
       ++ (if config.BUILD_MANIFEST c then ["Writing manifest"] else [])
       ++ (if config.ANNOTATE c
           then [("Annotating with label " ++ config.LABEL c)%string] else [])
       ++ ["Processing finished"])%list.
Proof.
  intros c dims tiles Hok.
  pose proof (main_completed w) as Hmain. cbv zeta in Hmain.
  fold c tiles in Hmain.
  destruct (Hmain Hok) as (recs & fs' & -> & Hlen). clear Hmain.
  clearbody tiles.
  destruct (main_until_slice_exact w) as [fs3 E].
  fold c in E. rewrite E. cbn [snd trace].
  eexists _, _. split; [done|]. cbn [trace].
  split; [by rewrite <- !app_assoc|].
  rewrite !messages_app, messages_accept.
  destruct (config.REBUILD c || negb _), (config.ASSEMBLE_IMAGE c),
    (config.SLICE_IMAGE c), (config.REJECT_TILES c),
    (config.BUILD_MANIFEST c), (config.ANNOTATE c); reflexivity.
Qed.

(** The loop stops at the first name that grid addressing refuses; the
    tile of that name has been handed to [accept_tile] already. *)
Lemma accept_loop_fail (good : list string) (bad : string)
    (rest : list string) (accepts : list record) (w : World) (e : exn) :
  (∀ filename, filename ∈ good →
     is_ok (index_to_location filename (config.width (cfg w))
              (config.GRID_SIZE (cfg w))) = true) →
  index_to_location bad (config.width (cfg w)) (config.GRID_SIZE (cfg w))
  = Raise e →
  ∃ fs',
    accept_loop (good ++ bad :: rest) accepts w
    = (Raise e,
       mk_world (cfg w) fs'
         (trace w
          ++ ((λ filename, accept_tile filename (cfg w)) <$> good ++ [bad]))%list).
Proof.
  revert accepts w. induction good as [|filename good IH];
    intros accepts w Hgood Hbad.
  - cbn [app]. rewrite accept_loop_step. cbn zeta.
    rewrite build_dict_for_csv_unfold. cbn zeta. rewrite Hbad. by eexists.
  - cbn [app]. rewrite accept_loop_step. cbn zeta.
    edestruct build_dict_for_csv_ok as [d ->]; [apply Hgood; by left|].
    edestruct (IH (accepts ++ [d])%list) as [fs' ->].
    + cbn [cfg]. intros f Hf. apply Hgood. by right.
    + exact Hbad.
    + cbn [cfg fs trace]. exists fs'. by rewrite <- app_assoc.
Qed.

(** What the stages up to slicing call. *)
Lemma main_until_slice_calls (w : World) :
  let c := cfg w in
  let dims := get_dimensions (fs w) (config.INPUT_FILE c) in
  let rebuild :=
    config.REBUILD c
    || negb (scratch_exists (fs w) (config.set_dimensions c dims)) in
  ∃ w1 pre,
    main_until_slice w = (Ok tt, w1) ∧
    trace w1 = (trace w ++ pre)%list ∧
    config.width (cfg w1) = dims.1 ∧
    accepted_files pre = [] ∧
    collaborator_calls pre
    = ((if rebuild then [Build_scratch] else [])
       ++ [Build_output]
       ++ (if config.ASSEMBLE_IMAGE c
           then [Clamp_image; Clamp_image; Clamp_image; Assemble_image]
           else [])
       ++ (if config.SLICE_IMAGE c then [Prepare_tiles] else []))%list.
Proof.
  intros c dims rebuild.
  destruct (main_until_slice_exact w) as [fs3 E]. fold c dims rebuild in E.
  eexists _, _. split; [exact E|]. cbn [trace cfg].
  split; [done|].
  destruct rebuild, (config.ASSEMBLE_IMAGE c), (config.SLICE_IMAGE c);
    by repeat split.
Qed.

(** X12.  A listed tile whose name grid addressing refuses stops the run:
    [main] raises the error of [index_to_location]; the tiles listed before
    it and the offending tile itself have been handed to [accept_tile], no
    later tile has; no manifest is written, nothing is labelled and the
    scratch directory is not cleaned. *)
Theorem main_bad_tile_name (w : World) (good : list string) (bad : string)
    (rest : list string) (e : exn) :
  let c := cfg w in
  let dims := get_dimensions (fs w) (config.INPUT_FILE c) in
  let rebuild :=
    config.REBUILD c
    || negb (scratch_exists (fs w) (config.set_dimensions c dims)) in
  config.REJECT_TILES c = true →
  get_files_by_extension (fs (main_until_slice w).2)
    (Py.path_join (config.SCRATCH_PATH c) ["scene"]) "png"
  = (good ++ bad :: rest)%list →
  (∀ filename, filename ∈ good →
     is_ok (index_to_location filename dims.1 (config.GRID_SIZE c)) = true) →
  index_to_location bad dims.1 (config.GRID_SIZE c) = Raise e →
  ∃ w' evs,
    main w = (Raise e, w') ∧
    trace w' = (trace w ++ evs)%list ∧
    accepted_files evs = (good ++ [bad])%list ∧
    collaborator_calls evs
    = ((if rebuild then [Build_scratch] else [])
       ++ [Build_output]
       ++ (if config.ASSEMBLE_IMAGE c
           then [Clamp_image; Clamp_image; Clamp_image; Assemble_image]
           else [])
       ++ (if config.SLICE_IMAGE c then [Prepare_tiles] else [])
       ++ replicate (S (length good)) Accept_tile)%list.
Proof.
  intros c dims rebuild Hflag Hlist Hgood Hbad.
  destruct (main_until_slice_settings w)
    as [(_ & _ & _ & _ & _ & Hscratch & Hgrid & _ & _ & _ & _ & Hreject & _) _].
  fold c in Hscratch, Hgrid, Hreject.
  destruct (main_until_slice_calls w)
    as (w1 & pre & E & Htrace & Hwidth & Hfiles & Hcalls).
  fold c dims rebuild in Hwidth, Hcalls.
  rewrite main_unfold, E. rewrite E in Hscratch, Hgrid, Hreject, Hlist.
  cbn [snd] in Hscratch, Hgrid, Hreject, Hlist.
  unfold main_reject. run. rewrite Hreject, Hflag, Hscratch, Hlist.
  edestruct (accept_loop_fail good bad rest []) as [fs' ->].
  { cbn [cfg]. rewrite Hwidth, Hgrid. exact Hgood. }
  { cbn [cfg]. rewrite Hwidth, Hgrid. exact Hbad. }
  cbn [cfg fs trace]. eexists _, _. split; [done|]. cbn [trace].
  rewrite Htrace. split; [by rewrite <- !app_assoc|].
  unfold accepted_files at 1.
  rewrite !collaborator_calls_app, !omap_app.
  fold (accepted_files pre).
  fold (accepted_files ((λ filename, accept_tile filename (cfg w1))
                          <$> (good ++ [bad])%list)).
  rewrite accepted_files_accept, collaborator_calls_accept, length_app.
  rewrite Hfiles, Hcalls. cbn [length]. rewrite Nat.add_1_r.
  split; [done|]. by rewrite <- !app_assoc.
Qed.

(** X13.  A manifest without routing: when the reject-tiles stage is off,
    no tile is accepted, and the manifest stage, if enabled, writes a
    manifest with no rows. *)
Theorem main_manifest_without_reject (w : World) :
  config.REJECT_TILES (cfg w) = false →
  ∃ w' evs,
    main w = (Ok tt, w') ∧
    trace w' = (trace w ++ evs)%list ∧
    accepted_files evs = [] ∧
    manifests evs = if config.BUILD_MANIFEST (cfg w) then [[]] else [].
Proof.
  intros Hflag.
  pose proof (main_completed w) as Hmain. cbv zeta in Hmain.
  rewrite Hflag in Hmain.
  destruct Hmain as (recs & fs' & -> & Hlen);
    [by intros filename Hin%elem_of_nil|].
  apply nil_length_inv in Hlen as ->.
  destruct (main_until_slice_exact w) as [fs3 ->]. cbn [snd trace].
  eexists _, _. split; [done|]. cbn [trace].
  split; [by rewrite <- !app_assoc|].
  unfold accepted_files, manifests. rewrite !omap_app.
  destruct (config.REBUILD (cfg w) || negb _), (config.ASSEMBLE_IMAGE (cfg w)),
    (config.SLICE_IMAGE (cfg w)), (config.BUILD_MANIFEST (cfg w)),
    (config.ANNOTATE (cfg w)); by split.
Qed.

End Run_exact.

(** The stub scene, run with [--generate-tiles --reject --manifest]. *)
Lemma main_call_order_witness :
  let w := mk_world Stub.scene Stub.sliced [] in
  Forall (λ filename, is_ok (index_to_location filename 5490 1000) = true)
    ["tile_0.png"; "tile_1.png"; "tile_7.png"] ∧
  ∃ w' evs,
    main w = (Ok tt, w') ∧
    trace w' = ([] ++ evs)%list ∧
    collaborator_calls evs
    = [Build_output; Prepare_tiles; Accept_tile; Accept_tile; Accept_tile;
       Write_manifest; Maybe_clean_scratch].
Proof.
  intros w.
  assert (Forall (λ filename,
                    is_ok (index_to_location filename 5490 1000) = true)
            ["tile_0.png"; "tile_1.png"; "tile_7.png"])
    as Hok by (repeat constructor).
  split; [exact Hok|].
  apply (@main_call_order Stub.collaborators w).
  intros filename Hin. by apply (proj1 (Forall_forall _ _) Hok).
Defined.

Lemma main_messages_witness :
  let w := mk_world Stub.scene Stub.sliced [] in
  Forall (λ filename, is_ok (index_to_location filename 5490 1000) = true)
    ["tile_0.png"; "tile_1.png"; "tile_7.png"] ∧
  ∃ w' evs,
    main w = (Ok tt, w') ∧
    trace w' = ([] ++ evs)%list ∧
    messages evs
    = ["Processing start"; "Building scene tile output directory";
       "Skipping scene generation";
       ("Generating scene tiles of " ++ Py.str 1000 ++ "x" ++ Py.str 1000
        ++ " pixels")%string;
       "Copying all tiles"; "Writing manifest"; "Processing finished"].
Proof.
  intros w.
  assert (Forall (λ filename,
                    is_ok (index_to_location filename 5490 1000) = true)
            ["tile_0.png"; "tile_1.png"; "tile_7.png"])
    as Hok by (repeat constructor).
  split; [exact Hok|].
  apply (@main_messages Stub.collaborators w).
  intros filename Hin. by apply (proj1 (Forall_forall _ _) Hok).
Defined.

(** A stray [notes.png] between two tiles: the run stops on it. *)
Lemma main_bad_tile_name_witness :
  let w := mk_world (Stub.scene_with false true true) Stub.littered [] in
  (config.REJECT_TILES (cfg w) = true ∧
   get_files_by_extension (fs (main_until_slice w).2) "scratch/scene" "png"
   = (["tile_0.png"] ++ "notes.png" :: ["tile_7.png"])%list ∧
   is_ok (index_to_location "tile_0.png" 5490 1000) = true ∧
   index_to_location "notes.png" 5490 1000 = Raise IndexError) ∧
  ∃ w' evs,
    main w = (Raise IndexError, w') ∧
    trace w' = ([] ++ evs)%list ∧
    accepted_files evs = ["tile_0.png"; "notes.png"] ∧
    collaborator_calls evs = [Build_output; Accept_tile; Accept_tile].
Proof.
  intros w. split; [repeat split; reflexivity|].
  apply (@main_bad_tile_name Stub.collaborators w ["tile_0.png"] "notes.png"
           ["tile_7.png"] IndexError);
    [reflexivity | reflexivity | | reflexivity].
  intros filename Hin. apply list_elem_of_singleton in Hin as ->. reflexivity.
Defined.

(** The stub scene, run with [--manifest] alone. *)
Lemma main_manifest_without_reject_witness :
  let w := mk_world (Stub.scene_with false false true) Stub.sliced [] in
  config.REJECT_TILES (cfg w) = false ∧
  ∃ w' evs,
    main w = (Ok tt, w') ∧
    trace w' = ([] ++ evs)%list ∧
    accepted_files evs = [] ∧
    manifests evs = [[]].
Proof.
  intros w. split; [reflexivity|].
  exact (@main_manifest_without_reject Stub.collaborators w eq_refl).
Defined.

(** * The command line *)

(** ** Prefixes and values *)

Lemma prefix_app p s : String.prefix p s = true ↔ ∃ r, s = p ++ r.
Proof.
  revert s. induction p as [|a p IH]; intros s.
  - split; [intros _; exists s; by rewrite append_nil|by destruct s].
  - destruct s as [|b s]; simpl.
    { split; [done|]. intros [r Hr]. by rewrite append_cons in Hr. }
    destruct (ascii_dec a b) as [->|Hne].
    + rewrite IH. split; intros [r Hr]; exists r.
      * by rewrite append_cons, Hr.
      * rewrite append_cons in Hr. by injection Hr.
    + split; [done|]. intros [r Hr]. rewrite append_cons in Hr.
      injection Hr as -> _. by destruct Hne.
Qed.

Lemma drop_chars_app p r : drop_chars (String.length p) (p ++ r) = r.
Proof.
  induction p as [|a p IH]; [rewrite append_nil; by destruct r|].
  rewrite append_cons. exact IH.
Qed.

(** Two prefixes of one string: one is a prefix of the other. *)
Lemma prefix_exclusive p q s :
  String.prefix p s = true → String.prefix q s = true →
  String.prefix p q = true ∨ String.prefix q p = true.
Proof.
  revert q s. induction p as [|a p IH]; intros q s; [by left; destruct q|].
  destruct q as [|b q]; [by right|].
  destruct s as [|d s]; [done|]. simpl.
  destruct (ascii_dec a d) as [->|]; [|done].
  destruct (ascii_dec b d) as [->|]; [|done].
  destruct (ascii_dec d d); [|done]. apply IH.
Qed.

(** The value of an option: the text between its [=] and the next one. *)
Lemma option_value_prefix p arg :
  p ∈ value_options → String.prefix p arg = true →
  option_value arg = Ok (before "=" (drop_chars (String.length p) arg)).
Proof.
  intros Hp [r ->]%prefix_app. rewrite drop_chars_app.
  unfold option_value. rewrite split_before_after.
  set (q := String.substring 0 (String.length p - 1) p).
  assert (p = q ++ "=" ∧ contains "=" q = false) as [Hpq Hq].
  { subst q. unfold value_options in Hp.
    repeat (apply elem_of_cons in Hp as [->|Hp]; [by split|]).
    by apply elem_of_nil in Hp. }
  clearbody q. subst p. clear Hp.
  assert ((q ++ "=") ++ r = q ++ String "=" r) as ->.
  { clear. induction q as [|a q IH]; [done|]. by rewrite !append_cons, IH. }
  rewrite after_app by done. rewrite (split_before_after "=" r).
  done.
Qed.

(** Case analysis along the [if]/[elif] chain of [parse_options]. *)
Ltac chain_step arg :=
  match goal with
  | H1 : String.prefix ?p arg = true, H2 : String.prefix ?q arg = true |- _ =>
      exfalso; destruct (prefix_exclusive p q arg H1 H2) as [E|E];
      vm_compute in E; discriminate E
  | |- context [String.eqb arg ?s] =>
      destruct (String.eqb_spec arg s) as [->|?]; cbn [orb negb andb]
  | |- context [String.prefix ?p arg] =>
      destruct (String.prefix p arg) eqn:?; cbn [orb negb andb]
  end.

Ltac chain arg :=
  unfold parse_arg, str_startswith, one_of; cbn [existsb];
  repeat chain_step arg.

Lemma parse_arg_flag arg c c' f :
  parse_arg arg c = Ok c' →
  flag_value f c' = flag_value f c || one_of (enables f) arg.
Proof.
  destruct f; cbn [enables]; chain arg.
  all: try (intros [= <-]; cbn; by rewrite ?orb_true_r, ?orb_false_r).
  all: try (destruct (option_value arg ≫= Py.int); cbn; intros [= <-]; cbn; by rewrite ?orb_true_r, ?orb_false_r).
  all: try (destruct (option_value arg); cbn; intros [= <-]; cbn; by rewrite ?orb_true_r, ?orb_false_r).
Qed.

Ltac value_of arg :=
  match goal with
  | H : String.prefix ?p arg = true |- _ =>
      rewrite (option_value_prefix p arg) by
        first [ exact H | unfold value_options; repeat constructor ]
  end.

Lemma parse_arg_number arg c c' n :
  parse_arg arg c = Ok c' →
  match option_text (number_option n) arg with
  | Some v => Py.int v = Ok (number_value n c')
  | None => number_value n c' = number_value n c
  end.
Proof.
  destruct n; unfold option_text; cbn [number_option]; chain arg.
  all: try (intros [= <-]; by vm_compute).
  all: try value_of arg; cbn.
  all: try (destruct (Py.int _); cbn; intros [= <-]; done).
  all: try (intros [= <-]; done).
Qed.

Lemma parse_arg_label arg c c' :
  parse_arg arg c = Ok c' →
  options.LABEL c' = default (options.LABEL c) (option_text "--label=" arg).
Proof.
  unfold option_text; chain arg.
  all: try (intros [= <-]; by vm_compute).
  all: try value_of arg; cbn.
  all: try (destruct (Py.int _); cbn; intros [= <-]; done).
  all: try (intros [= <-]; done).
Qed.

Lemma parse_arg_name arg c c' :
  parse_arg arg c = Ok c' →
  options.SCENE_NAME c'
  = default (options.SCENE_NAME c) (Some <$> option_text "--name=" arg).
Proof.
  unfold option_text; chain arg.
  all: try (intros [= <-]; by vm_compute).
  all: try value_of arg; cbn.
  all: try (destruct (Py.int _); cbn; intros [= <-]; done).
  all: try (intros [= <-]; done).
Qed.

Lemma parse_arg_scene_dir arg c c' :
  parse_arg arg c = Ok c' →
  options.SCENE_DIR c'
  = default (options.SCENE_DIR c) (if positional arg then Some arg else None).
Proof.
  unfold positional, recognised, known_words, value_options; chain arg.
  all: try (intros [= <-]; by vm_compute).
  all: try value_of arg; cbn.
  all: try (destruct (Py.int _); cbn; intros [= <-]; done).
  all: try (intros [= <-]; done).
Qed.

(** The loop leaves the input paths alone. *)
Lemma parse_arg_paths arg c c' :
  parse_arg arg c = Ok c' →
  options.NEW_MASK c' = options.NEW_MASK c ∧
  options.METADATA_SRC c' = options.METADATA_SRC c ∧
  options.JSON_SRC c' = options.JSON_SRC c ∧
  options.INPUT_FILE c' = options.INPUT_FILE c.
Proof.
  chain arg.
  all: try (intros [= <-]; done).
  all: try value_of arg; cbn.
  all: try (destruct (Py.int _); cbn; intros [= <-]; done).
  all: try (intros [= <-]; done).
Qed.

(** An argument is refused exactly when it gives a number that [int] does
    not read, and then with a [ValueError]. *)
Lemma parse_arg_result arg c :
  if well_formed arg then is_ok (parse_arg arg c) = true
  else parse_arg arg c = Raise ValueError.
Proof.
  unfold well_formed, option_text; cbn [forallb numbers number_option];
    chain arg.
  all: try done.
  all: try value_of arg; cbn.
  all: try (unfold Py.int; destruct (match Py.strip _ with "" => _ | _ => _ end); done).
  all: done.
Qed.

(** ** The loop over the arguments *)

Lemma parse_args_cons arg argv c :
  parse_args (arg :: argv) c
  = match parse_arg arg c with
    | Ok c' => parse_args argv c'
    | Raise e => (Raise e, c)
    end.
Proof. done. Qed.

(** A run of the loop that succeeds, taken apart at its first argument. *)
Lemma parse_args_ok_cons arg argv c c' :
  parse_args (arg :: argv) c = (Ok tt, c') →
  ∃ c1, parse_arg arg c = Ok c1 ∧ parse_args argv c1 = (Ok tt, c').
Proof.
  rewrite parse_args_cons. destruct (parse_arg arg c) as [c1|e]; [|done].
  intros E. by exists c1.
Qed.

(** Whatever the outcome, the configuration is the one that the loop leaves
    after some first part of the command line, processed without error. *)
Lemma parse_args_prefix argv c :
  ∃ before_ after_,
    argv = (before_ ++ after_)%list ∧
    parse_args before_ c = (Ok tt, (parse_args argv c).2) ∧
    ((parse_args argv c).1 = Ok tt → after_ = []).
Proof.
  revert c. induction argv as [|arg argv IH]; intros c.
  - by exists [], [].
  - rewrite parse_args_cons. destruct (parse_arg arg c) as [c1|e] eqn:E.
    + destruct (IH c1) as (l1 & l2 & -> & H1 & H2).
      exists (arg :: l1), l2. split; [done|].
      rewrite parse_args_cons, E. by split.
    + exists [], (arg :: argv). by repeat split.
Qed.

Lemma parse_args_flag argv c c' f :
  parse_args argv c = (Ok tt, c') →
  flag_value f c' = flag_value f c || switched_on f argv.
Proof.
  revert c. induction argv as [|arg argv IH]; intros c.
  - intros [= <-]. by rewrite orb_false_r.
  - intros (c1 & E1 & E2)%parse_args_ok_cons.
    rewrite (IH _ E2), (parse_arg_flag _ _ _ f E1).
    unfold switched_on. cbn [existsb]. by rewrite orb_assoc.
Qed.

Lemma switched_on_app f l1 l2 :
  switched_on f (l1 ++ l2) = switched_on f l1 || switched_on f l2.
Proof. apply existsb_app. Qed.

(** An attribute that each argument either assigns or leaves alone holds
    the value of the last argument that assigns it. *)
Lemma parse_args_last {A} (get : options.t → A) (given : string → option A)
    argv c c' :
  (∀ arg c c', parse_arg arg c = Ok c' → get c' = default (get c) (given arg)) →
  parse_args argv c = (Ok tt, c') →
  get c' = default (get c) (last (omap given argv)).
Proof.
  intros Hstep. revert c. induction argv as [|arg argv IH]; intros c.
  - by intros [= <-].
  - intros (c1 & E1 & E2)%parse_args_ok_cons.
    rewrite (IH _ E2), (Hstep _ _ _ E1). cbn [omap list_omap].
    destruct (given arg) as [v|]; [|done].
    rewrite last_cons. by destruct (last (omap given argv)).
Qed.

Lemma parse_args_number argv c c' n :
  parse_args argv c = (Ok tt, c') →
  match last_text (number_option n) argv with
  | Some v => Py.int v = Ok (number_value n c')
  | None => number_value n c' = number_value n c
  end.
Proof.
  unfold last_text. revert c. induction argv as [|arg argv IH]; intros c.
  - by intros [= <-].
  - intros (c1 & E1 & E2)%parse_args_ok_cons.
    specialize (IH _ E2). pose proof (parse_arg_number _ _ _ n E1) as H1.
    cbn [omap list_omap].
    destruct (option_text (number_option n) arg) as [v|].
    + rewrite last_cons.
      destruct (last (omap (option_text (number_option n)) argv)); [done|].
      by rewrite IH.
    + destruct (last (omap (option_text (number_option n)) argv)); [done|].
      by rewrite IH.
Qed.

Lemma omap_filter {A} (p : A → bool) (l : list A) :
  omap (λ a, if p a then Some a else None) l = List.filter p l.
Proof.
  induction l as [|a l IH]; [done|]. cbn [omap list_omap List.filter].
  rewrite <- IH. by destruct (p a).
Qed.

Lemma parse_args_paths argv c c' :
  parse_args argv c = (Ok tt, c') →
  options.NEW_MASK c' = options.NEW_MASK c ∧
  options.METADATA_SRC c' = options.METADATA_SRC c ∧
  options.JSON_SRC c' = options.JSON_SRC c ∧
  options.INPUT_FILE c' = options.INPUT_FILE c.
Proof.
  revert c. induction argv as [|arg argv IH]; intros c.
  - by intros [= <-].
  - intros (c1 & E1 & E2)%parse_args_ok_cons.
    destruct (IH _ E2) as (-> & -> & -> & ->).
    exact (parse_arg_paths _ _ _ E1).
Qed.

Lemma parse_args_result argv c :
  (parse_args argv c).1
  = if forallb well_formed argv then Ok tt else Raise ValueError.
Proof.
  revert c. induction argv as [|arg argv IH]; intros c; [done|].
  rewrite parse_args_cons. cbn [forallb].
  pose proof (parse_arg_result arg c) as H.
  destruct (well_formed arg); cbn [andb].
  - destruct (parse_arg arg c); [apply IH|done].
  - by rewrite H.
Qed.

(** [parse_options] by the outcome of its loop. *)
Lemma parse_options_ok find argv c c' :
  parse_options find argv c = (Ok tt, c') →
  ∃ c1,
    parse_args argv c = (Ok tt, c1) ∧
    options.SCENE_NAME c'
    = match options.SCENE_NAME c1 with
      | Some name => Some name
      | None => find c1
      end ∧
    options.SCENE_DIR c' = options.SCENE_DIR c1 ∧
    options.LABEL c' = options.LABEL c1 ∧
    (∀ f, flag_value f c' = flag_value f c1) ∧
    (∀ n, number_value n c' = number_value n c1) ∧
    options.NEW_MASK c' = Py.path_join (options.SCENE_DIR c1) ["B02.jp2"] ∧
    options.METADATA_SRC c'
    = Py.path_join (options.SCENE_DIR c1) ["metadata.xml"] ∧
    options.JSON_SRC c'
    = Py.path_join (options.SCENE_DIR c1) ["tileInfo.json"] ∧
    options.INPUT_FILE c' = Py.path_join (options.SCENE_DIR c1) ["B02.jp2"].
Proof.
  unfold parse_options.
  destruct (parse_args argv c) as [[[]|e] c1]; [|done].
  intros [= <-]. exists c1. split; [done|].
  destruct (options.SCENE_NAME c1) eqn:E; cbn; rewrite ?E;
    repeat split; by intros [].
Qed.

Lemma parse_options_fail find argv c :
  (parse_args argv c).1 ≠ Ok tt →
  parse_options find argv c = parse_args argv c.
Proof.
  unfold parse_options. by destruct (parse_args argv c) as [[[]|e] c1].
Qed.

Lemma parse_options_outcome find argv c :
  (parse_options find argv c).1 = (parse_args argv c).1.
Proof.
  unfold parse_options. by destruct (parse_args argv c) as [[[]|e] c1].
Qed.

Lemma parse_options_flag_value find argv c f :
  flag_value f (parse_options find argv c).2
  = flag_value f (parse_args argv c).2.
Proof.
  unfold parse_options. destruct (parse_args argv c) as [[[]|e] c1]; [|done].
  cbn [snd]. by destruct (options.SCENE_NAME c1), f.
Qed.

(** ** What [parse_options] leaves *)

Lemma last_omap_Some {A B} (f : A → option B) (l : list A) :
  last (omap (λ a, Some <$> f a) l) = Some <$> last (omap f l).
Proof.
  induction l as [|a l IH]; [done|]. cbn [omap list_omap].
  destruct (f a) as [b|]; cbn; [|done].
  rewrite !last_cons, IH. by destruct (last (omap f l)).
Qed.

(** X14.  Switches are only ever turned on.  Whatever the outcome of
    [parse_options], a switch that was on stays on, and a switch that is on
    afterwards was on before or is turned on by an option of the command
    line; when [parse_options] returns, a switch is on exactly if it was on
    before or the command line holds one of the options that enable it, in
    any position and any number of times. *)
Theorem parse_options_flags (find_scene_name : options.t → option string)
    (argv : list string) (c : options.t) (f : flag.t) :
  let r := parse_options find_scene_name argv c in
  (flag_value f c = true → flag_value f r.2 = true) ∧
  (flag_value f r.2 = true → flag_value f c || switched_on f argv = true) ∧
  (r.1 = Ok tt → flag_value f r.2 = flag_value f c || switched_on f argv).
Proof.
  cbv zeta. rewrite parse_options_flag_value, parse_options_outcome.
  destruct (parse_args_prefix argv c) as (l1 & l2 & -> & E & Hnil).
  rewrite (parse_args_flag _ _ _ f E), switched_on_app.
  split; [by intros ->|]. split.
  - intros H. by rewrite orb_assoc, H.
  - intros ->%Hnil. unfold switched_on at 2. cbn [existsb].
    by rewrite orb_false_r.
Qed.

(** X15.  Options with a value.  When [parse_options] returns, each numeric
    setting holds what [int] reads in the text of the last argument that
    gives it, and the label holds that text itself; the text is what follows
    the option's [=], up to the next [=] if there is one.  A setting that no
    argument gives is left as it was. *)
Theorem parse_options_values (find_scene_name : options.t → option string)
    (argv : list string) (c c' : options.t) :
  parse_options find_scene_name argv c = (Ok tt, c') →
  (∀ n, match last_text (number_option n) argv with
        | Some v => Py.int v = Ok (number_value n c')
        | None => number_value n c' = number_value n c
        end) ∧
  options.LABEL c' = default (options.LABEL c) (last_text "--label=" argv).
Proof.
  intros (c1 & E & _ & _ & Hlabel & _ & Hnum & _)%parse_options_ok. split.
  - intros n. rewrite Hnum. by apply parse_args_number.
  - rewrite Hlabel.
    exact (parse_args_last options.LABEL _ _ _ _ parse_arg_label E).
Qed.

(** X16.  The only failure of [parse_options] is the [ValueError] of [int]:
    it returns exactly when every number given on the command line is one
    that [int] reads. *)
Theorem parse_options_errors (find_scene_name : options.t → option string)
    (argv : list string) (c : options.t) :
  (parse_options find_scene_name argv c).1
  = if forallb well_formed argv then Ok tt else Raise ValueError.
Proof. rewrite parse_options_outcome. apply parse_args_result. Qed.

(** X17.  The scene directory is the last argument that is neither the
    script name, nor a help option, nor a switch, nor an option with a
    value: an option that [parse_options] does not know is taken for the
    directory.  The input file, the mask, the metadata and the tile
    information are the files of fixed names in that directory. *)
Theorem parse_options_scene_dir (find_scene_name : options.t → option string)
    (argv : list string) (c c' : options.t) :
  parse_options find_scene_name argv c = (Ok tt, c') →
  options.SCENE_DIR c'
  = default (options.SCENE_DIR c) (last (List.filter positional argv)) ∧
  options.INPUT_FILE c' = Py.path_join (options.SCENE_DIR c') ["B02.jp2"] ∧
  options.NEW_MASK c' = options.INPUT_FILE c' ∧
  options.METADATA_SRC c' = Py.path_join (options.SCENE_DIR c') ["metadata.xml"] ∧
  options.JSON_SRC c' = Py.path_join (options.SCENE_DIR c') ["tileInfo.json"].
Proof.
  intros (c1 & E & _ & Hdir & _ & _ & _ & -> & -> & -> & ->)%parse_options_ok.
  rewrite Hdir. repeat split.
  rewrite <- omap_filter.
  exact (parse_args_last options.SCENE_DIR _ _ _ _ parse_arg_scene_dir E).
Qed.

(** X18.  The scene name is the text of the last [--name=] argument; if
    there is none, the name that the configuration had; and only if it had
    none, the name that [find_scene_name] returns.  [find_scene_name] is
    then given the configuration with the scene directory and the switches
    of the command line, but with the input file as it was before. *)
Theorem parse_options_scene_name (find_scene_name : options.t → option string)
    (argv : list string) (c c' : options.t) :
  parse_options find_scene_name argv c = (Ok tt, c') →
  match last_text "--name=" argv, options.SCENE_NAME c with
  | Some v, _ => options.SCENE_NAME c' = Some v
  | None, Some name => options.SCENE_NAME c' = Some name
  | None, None =>
      ∃ c1,
        options.SCENE_NAME c' = find_scene_name c1 ∧
        options.SCENE_NAME c1 = None ∧
        options.SCENE_DIR c1 = options.SCENE_DIR c' ∧
        options.INPUT_FILE c1 = options.INPUT_FILE c ∧
        ∀ f, flag_value f c1 = flag_value f c'
  end.
Proof.
  intros (c1 & E & Hname & Hdir & _ & Hflag & _)%parse_options_ok.
  pose proof (parse_args_last options.SCENE_NAME _ _ _ _ parse_arg_name E)
    as H1.
  rewrite last_omap_Some in H1. unfold last_text.
  destruct (last (omap (option_text "--name=") argv)) as [v|]; cbn in H1.
  - by rewrite Hname, H1.
  - destruct (options.SCENE_NAME c) as [name|] eqn:Ec.
    + by rewrite Hname, H1.
    + rewrite H1 in Hname. exists c1. repeat split; try done.
      by destruct (parse_args_paths _ _ _ E) as (_ & _ & _ & ->).
Qed.

(** Two grid sizes and a label with a second [=] in it: the last grid size
    wins, and the label stops at the [=]. *)
Lemma parse_options_values_witness :
  let argv :=
    ["simple.py"; "--grid-size=512"; "--label=Before=x"; "--grid-size=256";
     "input/foo"] in
  let r := parse_options Stub.stub_scene_name argv Stub.defaults in
  r = (Ok tt, r.2) ∧
  Py.int "256" = Ok (options.GRID_SIZE r.2) ∧
  options.LAND_THRESHHOLD r.2 = 0 ∧
  options.LABEL r.2 = "Before".
Proof.
  intros argv r.
  assert (r = (Ok tt, r.2)) as Hr by reflexivity.
  split; [exact Hr|].
  destruct (parse_options_values Stub.stub_scene_name argv Stub.defaults r.2 Hr)
    as [Hnum Hlabel].
  split; [exact (Hnum number.GRID_SIZE)|].
  split; [exact (Hnum number.LAND_THRESHHOLD)|exact Hlabel].
Defined.

(** A misspelt option after the scene directory is taken for the scene
    directory. *)
Lemma parse_options_scene_dir_witness :
  let argv := ["simple.py"; "--reject"; "input/foo"; "--grid-size"] in
  let r := parse_options Stub.stub_scene_name argv Stub.defaults in
  r = (Ok tt, r.2) ∧
  options.SCENE_DIR r.2 = "--grid-size" ∧
  options.INPUT_FILE r.2 = Py.path_join (options.SCENE_DIR r.2) ["B02.jp2"] ∧
  options.NEW_MASK r.2 = options.INPUT_FILE r.2 ∧
  options.METADATA_SRC r.2
  = Py.path_join (options.SCENE_DIR r.2) ["metadata.xml"] ∧
  options.JSON_SRC r.2 = Py.path_join (options.SCENE_DIR r.2) ["tileInfo.json"].
Proof.
  intros argv r.
  assert (r = (Ok tt, r.2)) as Hr by reflexivity.
  split; [exact Hr|].
  exact (parse_options_scene_dir Stub.stub_scene_name argv Stub.defaults r.2 Hr).
Defined.

(** The command line of the head comment names the scene; without the
    [--name=] option the name is the one that is found. *)
Lemma parse_options_scene_name_witness :
  let r := parse_options Stub.stub_scene_name Stub.command_line Stub.defaults in
  r = (Ok tt, r.2) ∧ options.SCENE_NAME r.2 = Some "20QPD".
Proof.
  intros r.
  assert (r = (Ok tt, r.2)) as Hr by reflexivity.
  split; [exact Hr|].
  exact (parse_options_scene_name Stub.stub_scene_name Stub.command_line
           Stub.defaults r.2 Hr).
Defined.

(** ** From the command line to the run *)

Section Command_line_run.
Context `{Collaborators}.

Ltac run :=
  unfold mbind, M_bind, mret, M_ret, read_config, info, ask, perform,
    write_config;
  cbn [cfg fs trace].

(** The switches that [main] reads, by the command line, when every switch
    is off before. *)
Lemma configured_flags find_scene_name argv o o' c :
  parse_options find_scene_name argv o = (Ok tt, o') →
  configured o' c →
  (∀ f, flag_value f o = false) →
  config.REBUILD c = switched_on flag.REBUILD argv ∧
  config.ASSEMBLE_IMAGE c = switched_on flag.ASSEMBLE_IMAGE argv ∧
  config.SLICE_IMAGE c = switched_on flag.SLICE_IMAGE argv ∧
  config.REJECT_TILES c = switched_on flag.REJECT_TILES argv ∧
  config.BUILD_MANIFEST c = switched_on flag.BUILD_MANIFEST argv ∧
  config.ANNOTATE c = switched_on flag.ANNOTATE argv.
Proof.
  intros (c1 & E & _ & _ & _ & Hflag & _)%parse_options_ok
    (_ & _ & _ & _ & _ & _ & _ & <- & <- & <- & <- & <- & <-) Hoff.
  assert (∀ f, flag_value f o' = switched_on f argv) as Hon.
  { intros f. by rewrite Hflag, (parse_args_flag _ _ _ f E), Hoff. }
  repeat split.
  - exact (Hon flag.REBUILD).
  - exact (Hon flag.ASSEMBLE_IMAGE).
  - exact (Hon flag.SLICE_IMAGE).
  - exact (Hon flag.REJECT_TILES).
  - exact (Hon flag.BUILD_MANIFEST).
  - exact (Hon flag.ANNOTATE).
Qed.

(** X19.  Nothing checks the grid size between the command line and the
    grid: [--grid-size=0] is read without complaint, and a run that routes
    tiles then stops at the first tile listed, whatever its name, with a
    [ZeroDivisionError], after the tile has been handed to [accept_tile]; no
    manifest is written, nothing is labelled, and the scratch directory is
    not cleaned. *)
Theorem main_zero_grid_size (find_scene_name : options.t → option string)
    (argv : list string) (o o' : options.t) (w : World) (v first : string)
    (rest : list string) :
  parse_options find_scene_name argv o = (Ok tt, o') →
  configured o' (cfg w) →
  last_text "--grid-size=" argv = Some v →
  Py.int v = Ok 0 →
  switched_on flag.REJECT_TILES argv = true →
  get_files_by_extension (fs (main_until_slice w).2)
    (Py.path_join (config.SCRATCH_PATH (cfg w)) ["scene"]) "png"
  = first :: rest →
  ∃ w' evs,
    main w = (Raise ZeroDivisionError, w') ∧
    trace w' = (trace w ++ evs)%list ∧
    accepted_files evs = [first] ∧
    last (collaborator_calls evs) = Some Accept_tile ∧
    (Write_manifest ∉ collaborator_calls evs) ∧
    (Label_all ∉ collaborator_calls evs) ∧
    (Maybe_clean_scratch ∉ collaborator_calls evs).
Proof.
  intros (o1 & Eargs & _ & _ & _ & Hflags & Hnums & _)%parse_options_ok
    Hconf Hlast Hint Hon Hlist.
  assert (config.GRID_SIZE (cfg w) = 0) as Hzero.
  { destruct Hconf as (_ & _ & _ & _ & _ & <- & _).
    pose proof (parse_args_number _ _ _ number.GRID_SIZE Eargs) as Hnum.
    cbn [number_option] in Hnum. rewrite Hlast, Hint in Hnum.
    injection Hnum as Hnum. rewrite Hnum. exact (Hnums number.GRID_SIZE). }
  assert (config.REJECT_TILES (cfg w) = true) as Hflag.
  { destruct Hconf as (_ & _ & _ & _ & _ & _ & _ & _ & _ & _ & <- & _).
    change (flag_value flag.REJECT_TILES o' = true).
    by rewrite Hflags, (parse_args_flag _ _ _ _ Eargs), Hon, orb_true_r. }
  destruct (main_until_slice_settings w)
    as [(_ & _ & _ & _ & _ & Hscratch & Hgrid & _ & _ & _ & _ & Hreject & _) _].
  destruct (main_until_slice_calls w)
    as (w1 & pre & E & Htrace & Hwidth & Hfiles & Hcalls).
  rewrite main_unfold, E. rewrite E in Hscratch, Hgrid, Hreject, Hlist.
  cbn [snd] in Hscratch, Hgrid, Hreject, Hlist.
  unfold main_reject. run. rewrite Hreject, Hflag, Hscratch, Hlist.
  edestruct accept_loop_fail
    with (good := @nil string) (bad := first) (rest := rest)
         (accepts := @nil record) (e := ZeroDivisionError) as [fs' ->].
  { by intros filename Hin%elem_of_nil. }
  { cbn [cfg]. rewrite Hgrid, Hzero. apply index_to_location_zero_grid. }
  cbn [cfg fs trace app fmap list_fmap]. eexists _, _. split; [done|].
  cbn [trace]. rewrite Htrace. split; [by rewrite <- !app_assoc|].
  unfold accepted_files at 1.
  rewrite !collaborator_calls_app, !omap_app.
  fold (accepted_files pre). rewrite Hfiles, Hcalls.
  cbn -[collaborator_calls].
  destruct (config.REBUILD (cfg w) || negb _),
    (config.ASSEMBLE_IMAGE (cfg w)), (config.SLICE_IMAGE (cfg w));
    cbn; repeat split; try done;
    intros Hin%list_elem_of_In; cbn in Hin; intuition discriminate.
Qed.

(** X20.  From the command line to the calls.  When every switch is off
    before and [parse_options] returns, the input file of the run is
    [B02.jp2] in the last argument that is not an option, and the
    collaborators acting on the file system that a completed run calls are,
    in order: [build_scratch] if [--clean] or [--full] is given or there is
    no scratch directory, [build_output], three times [clamp_image] and
    [assemble_image] if [--assemble], [--generate] or [--full] is given,
    [prepare_tiles] if [--generate-tiles], [--generate] or [--full] is,
    [accept_tile] for each listed tile if [--reject], [--sort-tiles] or
    [--full] is, [write_manifest] if [--manifest] or [--full] is,
    [label_all] if [--annotate] is, and [maybe_clean_scratch]. *)
Theorem main_command_line (find_scene_name : options.t → option string)
    (argv : list string) (o o' : options.t) (w : World) :
  let c := cfg w in
  let scene_dir :=
    default (options.SCENE_DIR o) (last (List.filter positional argv)) in
  let dims := get_dimensions (fs w) (Py.path_join scene_dir ["B02.jp2"]) in
  let rebuild :=
    switched_on flag.REBUILD argv
    || negb (scratch_exists (fs w) (config.set_dimensions c dims)) in
  let tiles :=
    if switched_on flag.REJECT_TILES argv
    then get_files_by_extension (fs (main_until_slice w).2)
           (Py.path_join (config.SCRATCH_PATH c) ["scene"]) "png"
    else [] in
  parse_options find_scene_name argv o = (Ok tt, o') →
  configured o' c →
  (∀ f, flag_value f o = false) →
  (∀ filename, filename ∈ tiles →
     is_ok (index_to_location filename dims.1 (config.GRID_SIZE c)) = true) →
  ∃ w' evs,
    main w = (Ok tt, w') ∧
    trace w' = (trace w ++ evs)%list ∧
    collaborator_calls evs
    = ((if rebuild then [Build_scratch] else [])
       ++ [Build_output]
       ++ (if switched_on flag.ASSEMBLE_IMAGE argv
           then [Clamp_image; Clamp_image; Clamp_image; Assemble_image]
           else [])
       ++ (if switched_on flag.SLICE_IMAGE argv then [Prepare_tiles] else [])
       ++ replicate (length tiles) Accept_tile
       ++ (if switched_on flag.BUILD_MANIFEST argv then [Write_manifest] else [])
       ++ (if switched_on flag.ANNOTATE argv then [Label_all] else [])
       ++ [Maybe_clean_scratch])%list.
Proof.
  intros c scene_dir dims rebuild tiles Hparse Hconf Hoff Hok.
  destruct (configured_flags _ _ _ _ _ Hparse Hconf Hoff)
    as (Hreb & Hasm & Hslice & Hrej & Hman & Hann).
  fold c in Hreb, Hasm, Hslice, Hrej, Hman, Hann.
  assert (config.INPUT_FILE c = Py.path_join scene_dir ["B02.jp2"]) as Hin.
  { destruct Hconf as (_ & _ & <- & _).
    destruct (parse_options_ok _ _ _ _ Hparse)
      as (o1 & Eargs & _ & _ & _ & _ & _ & _ & _ & _ & ->).
    subst scene_dir. rewrite <- omap_filter.
    by rewrite (parse_args_last options.SCENE_DIR _ _ _ _
                  parse_arg_scene_dir Eargs). }
  subst rebuild tiles dims. rewrite <- Hin, <- Hreb, <- Hrej in *.
  rewrite <- Hasm, <- Hslice, <- Hman, <- Hann.
  pose proof (main_completed w) as Hmain. cbv zeta in Hmain. fold c in Hmain.
  destruct (Hmain Hok) as (recs & fs' & -> & Hlen). clear Hmain.
  destruct (main_until_slice_exact w) as [fs3 E].
  fold c in E. rewrite E. cbn [snd trace].
  eexists _, _. split; [done|]. cbn [trace].
  split; [by rewrite <- !app_assoc|].
  rewrite !collaborator_calls_app, collaborator_calls_accept.
  destruct (config.REBUILD c || negb _), (config.ASSEMBLE_IMAGE c),
    (config.SLICE_IMAGE c), (config.REJECT_TILES c), (config.BUILD_MANIFEST c),
    (config.ANNOTATE c); reflexivity.
Qed.

End Command_line_run.

(** [simple.py --reject --grid-size=0 --name=20QPD input/foo] on a scratch
    directory that holds three tiles. *)
Lemma main_zero_grid_size_witness :
  let argv :=
    ["simple.py"; "--reject"; "--grid-size=0"; "--name=20QPD"; "input/foo"] in
  let r := parse_options Stub.stub_scene_name argv Stub.defaults in
  let w := mk_world (Stub.configuration r.2) Stub.sliced [] in
  (r = (Ok tt, r.2) ∧
   configured r.2 (cfg w) ∧
   last_text "--grid-size=" argv = Some "0" ∧
   Py.int "0" = Ok 0 ∧
   switched_on flag.REJECT_TILES argv = true ∧
   get_files_by_extension (fs (main_until_slice w).2) "scratch/scene" "png"
   = "tile_0.png" :: ["tile_1.png"; "tile_7.png"]) ∧
  ∃ w' evs,
    main w = (Raise ZeroDivisionError, w') ∧
    trace w' = ([] ++ evs)%list ∧
    accepted_files evs = ["tile_0.png"] ∧
    last (collaborator_calls evs) = Some Accept_tile ∧
    (Write_manifest ∉ collaborator_calls evs) ∧
    (Label_all ∉ collaborator_calls evs) ∧
    (Maybe_clean_scratch ∉ collaborator_calls evs).
Proof.
  intros argv r w.
  assert (r = (Ok tt, r.2)) as Hr by reflexivity.
  assert (configured r.2 (cfg w)) as Hconf by (repeat split; reflexivity).
  split; [repeat split; reflexivity|].
  exact (@main_zero_grid_size Stub.collaborators Stub.stub_scene_name argv
           Stub.defaults r.2 w "0" "tile_0.png" ["tile_1.png"; "tile_7.png"]
           Hr Hconf eq_refl eq_refl eq_refl eq_refl).
Defined.

(** The command line of the head comment, on a scene of which an earlier
    run has left three tiles. *)
Lemma main_command_line_witness :
  let r :=
    parse_options Stub.stub_scene_name Stub.command_line Stub.defaults in
  let w := mk_world (Stub.configuration r.2) Stub.sliced [] in
  (r = (Ok tt, r.2) ∧
   configured r.2 (cfg w) ∧
   (∀ f, flag_value f Stub.defaults = false) ∧
   Forall (λ filename, is_ok (index_to_location filename 5490 1000) = true)
     ["tile_0.png"; "tile_1.png"; "tile_7.png"]) ∧
  ∃ w' evs,
    main w = (Ok tt, w') ∧
    trace w' = ([] ++ evs)%list ∧
    collaborator_calls evs
    = [Build_scratch; Build_output; Clamp_image; Clamp_image; Clamp_image;
       Assemble_image; Prepare_tiles; Accept_tile; Accept_tile; Accept_tile;
       Write_manifest; Label_all; Maybe_clean_scratch].
Proof.
  intros r w.
  assert (r = (Ok tt, r.2)) as Hr by reflexivity.
  assert (configured r.2 (cfg w)) as Hconf by (repeat split; reflexivity).
  assert (∀ f, flag_value f Stub.defaults = false) as Hoff by (by intros []).
  assert (Forall (λ filename,
                    is_ok (index_to_location filename 5490 1000) = true)
            ["tile_0.png"; "tile_1.png"; "tile_7.png"])
    as Hok by (repeat constructor).
  split; [done|].
  apply (@main_command_line Stub.collaborators Stub.stub_scene_name
           Stub.command_line Stub.defaults r.2 w Hr Hconf Hoff).
  intros filename Hin. by apply (proj1 (Forall_forall _ _) Hok).
Defined.
